(** * LegalEase: document intake and analysis pipeline

    A shallow embedding of the three services of the backend
    ([services/document_storage.py], [services/pdf_processor.py],
    [services/ai_analyzer.py]) and the properties of their contracts.

    Conventions of the embedding:
    - a Python [str] is a [string] (characters are code points below 256);
    - a Python value that comes out of a JSON payload is a [pyval];
    - code that may raise returns a [result], and [try ... except] is
      [try_except];
    - the messages of built-in exceptions are those of CPython 3.11 to
      3.13;
    - [datetime] values are microseconds since 0001-01-01T00:00:00, in [Z];
    - every read of the environment (the clock, [uuid.uuid4()], the HTTP
      call, the PDF libraries) is an explicit argument of the operation,
      in program order. *)

From Stdlib Require Import ZArith Ascii String List Sorted Lia.
From stdpp Require Import base option list strings gmap fin_maps pretty.

Local Open Scope string_scope.

(** ** Python values, exceptions and the few built-ins the services use *)

Module Py.

Inductive exn_kind :=
| TypeError | KeyError | IndexError | ValueError | AttributeError
| JSONDecodeError | RecursionError | OverflowError | ConnectionError | Timeout
| PlainException.

(** An exception: its class and [str(e)]. *)
Record exn := Exn { exn_class : exn_kind; exn_str : string }.

Inductive result (A : Type) :=
| Ok (a : A)
| Raise (e : exn).
Arguments Ok {A} a.
Arguments Raise {A} e.

#[global] Instance result_ret : MRet result := fun A a => Ok a.
#[global] Instance result_bind : MBind result := fun A B f m =>
  match m with
  | Ok a => f a
  | Raise e => Raise e
  end.

(** [try: body except <classes>: handler]. Every class above derives
    from [Exception], so [except Exception] is [catches := fun _ => true]. *)
Definition try_except {A} (body : result A) (catches : exn -> bool)
    (handler : exn -> result A) : result A :=
  match body with
  | Ok a => Ok a
  | Raise e => if catches e then handler e else Raise e
  end.

Definition except_Exception (e : exn) : bool := true.

Definition except_JSONDecodeError (e : exn) : bool :=
  match exn_class e with
  | JSONDecodeError => true
  | _ => false
  end.

Definition raises {A} (r : result A) : Prop :=
  match r with
  | Ok _ => False
  | Raise _ => True
  end.

(** Values: what [json.loads] and [response.json()] can produce. A dict
    keeps insertion order; JSON keys are strings. *)
#[warnings="-register-all"]
Inductive pyval :=
| PNone
| PBool (b : bool)
| PInt (z : Z)
| PFloat (repr : string)
| PStr (s : string)
| PList (l : list pyval)
| PDict (d : list (string * pyval)).

Fixpoint dict_get (k : string) (d : list (string * pyval)) : option pyval :=
  match d with
  | [] => None
  | (k', v) :: d' => if String.eqb k' k then Some v else dict_get k d'
  end.

(** [d[k] = v]: an existing key keeps its position, a new one goes last. *)
Fixpoint dict_set (k : string) (v : pyval) (d : list (string * pyval))
    : list (string * pyval) :=
  match d with
  | [] => [(k, v)]
  | (k', v') :: d' =>
      if String.eqb k' k then (k', v) :: d' else (k', v') :: dict_set k v d'
  end.

Definition dict_has (k : string) (d : list (string * pyval)) : bool :=
  match dict_get k d with
  | Some _ => true
  | None => false
  end.

Definition type_name (v : pyval) : string :=
  match v with
  | PNone => "NoneType"
  | PBool _ => "bool"
  | PInt _ => "int"
  | PFloat _ => "float"
  | PStr _ => "str"
  | PList _ => "list"
  | PDict _ => "dict"
  end.

(** [needle in hay] on strings. *)
Fixpoint is_prefix (p s : string) : bool :=
  match p, s with
  | EmptyString, _ => true
  | String a p', String b s' => Ascii.eqb a b && is_prefix p' s'
  | String _ _, EmptyString => false
  end.

Fixpoint is_substring (p s : string) : bool :=
  is_prefix p s ||
  match s with
  | EmptyString => false
  | String _ s' => is_substring p s'
  end.

Definition is_PStr (k : string) (v : pyval) : bool :=
  match v with
  | PStr s => String.eqb s k
  | _ => false
  end.

(** [k in v] for a string [k]. *)
Definition py_contains (k : string) (v : pyval) : result bool :=
  match v with
  | PDict d => Ok (dict_has k d)
  | PList l => Ok (existsb (is_PStr k) l)
  | PStr s => Ok (is_substring k s)
  | _ => Raise (Exn TypeError
           ("argument of type '" +:+ type_name v +:+ "' is not iterable"))
  end.

(** [v[k]] for a string [k]. *)
Definition py_getitem (v : pyval) (k : string) : result pyval :=
  match v with
  | PDict d =>
      match dict_get k d with
      | Some x => Ok x
      | None => Raise (Exn KeyError ("'" +:+ k +:+ "'"))
      end
  | PList _ =>
      Raise (Exn TypeError "list indices must be integers or slices, not str")
  | PStr _ =>
      Raise (Exn TypeError "string indices must be integers, not 'str'")
  | _ => Raise (Exn TypeError
           ("'" +:+ type_name v +:+ "' object is not subscriptable"))
  end.

(** [v[0]]. *)
Definition py_getitem0 (v : pyval) : result pyval :=
  match v with
  | PList (x :: _) => Ok x
  | PList [] => Raise (Exn IndexError "list index out of range")
  | PStr (String c _) => Ok (PStr (String c EmptyString))
  | PStr EmptyString => Raise (Exn IndexError "string index out of range")
  | PDict _ => Raise (Exn KeyError "0")
  | _ => Raise (Exn TypeError
           ("'" +:+ type_name v +:+ "' object is not subscriptable"))
  end.

(** [len(v)]. *)
Definition py_len (v : pyval) : result nat :=
  match v with
  | PList l => Ok (List.length l)
  | PDict d => Ok (List.length d)
  | PStr s => Ok (String.length s)
  | _ => Raise (Exn TypeError
           ("object of type '" +:+ type_name v +:+ "' has no len()"))
  end.

(** [v[k] = x] for a string [k]. *)
Definition py_setitem (v : pyval) (k : string) (x : pyval) : result pyval :=
  match v with
  | PDict d => Ok (PDict (dict_set k x d))
  | PList _ =>
      Raise (Exn TypeError "list indices must be integers or slices, not str")
  | _ => Raise (Exn TypeError
           ("'" +:+ type_name v +:+ "' object does not support item assignment"))
  end.

(** [s[:n]] and the truth value of a string. *)
Definition str_take (n : nat) (s : string) : string := String.substring 0 n s.

Definition str_truthy (s : string) : bool :=
  match s with
  | EmptyString => false
  | String _ _ => true
  end.

(** Characters for which [str.isspace] holds, below code point 256. *)
Definition is_space (c : ascii) : bool :=
  let n := nat_of_ascii c in
  (((9 <=? n) && (n <=? 13)) || ((28 <=? n) && (n <=? 32))
   || (n =? 133) || (n =? 160))%nat.

Fixpoint lstrip (s : string) : string :=
  match s with
  | EmptyString => EmptyString
  | String c s' => if is_space c then lstrip s' else s
  end.

(** [rstrip]: a character is kept when it is not a space or something
    is kept after it. *)
Fixpoint rstrip (s : string) : string :=
  match s with
  | EmptyString => EmptyString
  | String c s' =>
      match rstrip s' with
      | EmptyString => if is_space c then EmptyString else String c EmptyString
      | r => String c r
      end
  end.

Definition strip (s : string) : string := rstrip (lstrip s).

(** ["sep".join(l)]. *)
Fixpoint str_join (sep : string) (l : list string) : string :=
  match l with
  | [] => EmptyString
  | [x] => x
  | x :: l' => x +:+ sep +:+ str_join sep l'
  end.

Definition nl : string := String (ascii_of_nat 10) EmptyString.
Definition dq : string := String (ascii_of_nat 34) EmptyString.

End Py.
Export Py.

(** ** services/document_storage.py *)

Module Storage.

(** One entry of [self.documents]. *)
Record document := Document {
  text : string;
  filename : option string;
  created_at : Z;
  expires_at : Z;
  analysis_result : option pyval
}.

Record storage := DocumentStorage {
  documents : gmap string document;
  session_timeout : Z
}.

(** [DocumentStorage.__init__]. *)
Definition init (session_timeout : Z) : storage :=
  {| documents := ∅; session_timeout := session_timeout |}.

(** [timedelta(seconds=n)] in microseconds; the day count of a timedelta
    is limited to 999999999 in absolute value. The C implementation of
    [datetime] converts the day count to a C [int] first, and reports a
    count that fits one with its value. *)
Definition timedelta_seconds (n : Z) : result Z :=
  let days := (n `div` 86400)%Z in
  if decide (-999999999 ≤ days ≤ 999999999)%Z
  then Ok (n * 1000000)%Z
  else if decide (-2147483648 ≤ days ≤ 2147483647)%Z
  then Raise (Exn OverflowError
                ("days=" +:+ pretty days +:+ "; must have magnitude <= 999999999"))
  else Raise (Exn OverflowError "Python int too large to convert to C int").

(** [datetime.max] is 9999-12-31T23:59:59.999999, day 3652059 of the
    calendar. *)
Definition datetime_end : Z := 3652059 * 86400 * 1000000.

Definition datetime_add (t delta : Z) : result Z :=
  if decide (0 ≤ t + delta < datetime_end)%Z
  then Ok (t + delta)%Z
  else Raise (Exn OverflowError "date value out of range").

Definition with_documents (s : storage) (m : gmap string document) : storage :=
  {| documents := m; session_timeout := session_timeout s |}.

(** [store_document]: [uuid] is [str(uuid.uuid4())], [now0] the clock
    read for [expires_at], [now1] the clock read for [created_at]. *)
Definition store_document (uuid : string) (now0 now1 : Z)
    (text : string) (filename : option string) (s : storage)
    : result (string * storage) :=
  delta ← timedelta_seconds (session_timeout s);
  expires_at ← datetime_add now0 delta;
  mret (uuid,
        with_documents s
          (<[uuid := {| text := text; filename := filename;
                        created_at := now1; expires_at := expires_at;
                        analysis_result := None |}]> (documents s))).

(** [get_document]; [document.copy()] of an immutable record is the
    record. *)
Definition get_document (now : Z) (document_id : string) (s : storage)
    : option document * storage :=
  match documents s !! document_id with
  | None => (None, s)
  | Some document =>
      if decide (now > expires_at document)%Z
      then (None, with_documents s (delete document_id (documents s)))
      else (Some document, s)
  end.

Definition set_analysis (d : document) (r : pyval) : document :=
  {| text := text d; filename := filename d; created_at := created_at d;
     expires_at := expires_at d; analysis_result := Some r |}.

Definition update_analysis (now : Z) (document_id : string)
    (analysis_result : pyval) (s : storage) : bool * storage :=
  match documents s !! document_id with
  | None => (false, s)
  | Some document =>
      if decide (now > expires_at document)%Z
      then (false, with_documents s (delete document_id (documents s)))
      else (true, with_documents s
                    (<[document_id := set_analysis document analysis_result]>
                       (documents s)))
  end.

Definition delete_document (document_id : string) (s : storage)
    : bool * storage :=
  match documents s !! document_id with
  | Some _ => (true, with_documents s (delete document_id (documents s)))
  | None => (false, s)
  end.

(** [cleanup_expired]: the first loop collects [expired_ids], the second
    deletes them one by one. (The daemon thread of [__init__] calls it
    every 300 seconds; each call is one step of this model.) *)
Definition expired_ids (current_time : Z) (m : gmap string document)
    : list string :=
  (filter (fun kv => (current_time > expires_at kv.2)%Z) (map_to_list m)).*1.

Definition cleanup_expired (current_time : Z) (s : storage) : nat * storage :=
  let ids := expired_ids current_time (documents s) in
  (length ids, with_documents s (foldl (fun m k => delete k m) (documents s) ids)).

End Storage.

(** ** services/pdf_processor.py *)

Module Pdf.

Definition max_pages : nat := 50.
Definition min_text_length : nat := 10.

(** What [page.extract_text()] gives for one page: a string, [None], or
    an exception of the library. *)
Definition page := result (option string).

(** The [(success, extracted_text, error_message)] triple. *)
Definition extraction : Type := bool * string * option string.

(** An uploaded [FileStorage]: its bytes, the stream position, and
    whether the stream was closed. *)
Record file := File { data : list Byte.byte; pos : nat; closed : bool }.

Definition closed_file : exn := Exn ValueError "I/O operation on closed file.".

(** [file.seek(0)] *)
Definition seek0 (f : file) : result file :=
  if closed f then Raise closed_file
  else Ok {| data := data f; pos := 0; closed := false |}.

(** [file.read()]: the bytes from the position on; the position moves
    to the end. *)
Definition read (f : file) : result (list Byte.byte * file) :=
  if closed f then Raise closed_file
  else Ok (drop (pos f) (data f),
           {| data := data f; pos := length (data f); closed := false |}).

Definition after_read (f : file) : file :=
  match read f with
  | Ok (_, f') => f'
  | Raise _ => f
  end.

(** [f"--- Page {page_num + 1} ---\n{text}\n"] *)
Definition page_marker (page_num : nat) : string :=
  "--- Page " +:+ pretty (page_num + 1) +:+ " ---".

Definition page_block (page_num : nat) (text : string) : string :=
  page_marker page_num +:+ nl +:+ text +:+ nl.

(** One turn of the page loop: a page with text appends its block; a
    page without text, or one that raises, is logged and skipped. *)
Definition extract_page (pages : list page) (extracted_text : list string)
    (page_num : nat) : list string :=
  match pages !! page_num with
  | Some (Ok (Some text)) =>
      if str_truthy text then extracted_text ++ [page_block page_num text]
      else extracted_text
  | _ => extracted_text
  end.

(** [for page_num in range(min(total_pages, self.max_pages))], then
    ["\n".join(extracted_text)]. *)
Definition extract_pages (pages : list page) : list string :=
  foldl (extract_page pages) [] (seq 0 (length pages `min` max_pages)).

Definition join_pages (pages : list page) : string :=
  str_join nl (extract_pages pages).

Definition long_enough (text : string) : bool :=
  (min_text_length <=? String.length (strip text))%nat.

Definition or_default (error : option string) (default : string) : string :=
  match error with
  | Some e => if str_truthy e then e else default
  | None => default
  end.

Section Libraries.

(** The two PDF libraries: what opening a byte buffer yields. *)
Variable pdfplumber_open : list Byte.byte -> result (list page).
Variable PdfReader : list Byte.byte -> result (list page).

(** The common body of [_extract_with_pdfplumber] and
    [_extract_with_pypdf2], which differ in the library and its name. *)
Definition extract_with (name : string)
    (open_pdf : list Byte.byte -> result (list page)) (f : file)
    : result (extraction * file) :=
  try_except
    ('(file_bytes, f') ← read f;
     pages ← open_pdf file_bytes;
     let full_text := join_pages pages in
     if (String.length (strip full_text) <? min_text_length)%nat
     then mret ((false, "", Some "No readable text found in PDF"), f')
     else mret ((true, full_text, None), f'))
    except_Exception
    (fun e => mret ((false, "", Some (name +:+ " error: " +:+ exn_str e)),
                    after_read f)).

Definition _extract_with_pdfplumber : file -> result (extraction * file) :=
  extract_with "pdfplumber" pdfplumber_open.

Definition _extract_with_pypdf2 : file -> result (extraction * file) :=
  extract_with "PyPDF2" PdfReader.

Definition extract_text (f : file) : result extraction :=
  try_except
    (f0 ← seek0 f;
     '((success, text, error), f1) ← _extract_with_pdfplumber f0;
     if success && long_enough text then mret (true, text, None) else
     f2 ← seek0 f1;
     '((success, text, error), f3) ← _extract_with_pypdf2 f2;
     if success && long_enough text then mret (true, text, None) else
     if (String.length (strip text) <? min_text_length)%nat
     then mret (false, "",
                Some "Document appears to be empty or contains only images")
     else mret (false, "",
                Some (or_default error "Failed to extract text from PDF")))
    except_Exception
    (fun e => mret (false, "", Some ("Error processing PDF: " +:+ exn_str e))).

(** One attempt of [extract_text_from_bytes]: [Some text] when the
    function returns from inside the attempt, [None] when control falls
    through to the next one. *)
Definition bytes_attempt (open_pdf : list Byte.byte -> result (list page))
    (pdf_bytes : list Byte.byte) : result (option string) :=
  try_except
    (pages ← open_pdf pdf_bytes;
     let full_text := join_pages pages in
     if long_enough full_text then mret (Some full_text) else mret None)
    except_Exception
    (fun _ => mret None).

Definition extract_text_from_bytes (pdf_bytes : list Byte.byte) : result string :=
  try_except
    (r ← bytes_attempt pdfplumber_open pdf_bytes;
     match r with
     | Some full_text => mret full_text
     | None =>
         r ← bytes_attempt PdfReader pdf_bytes;
         match r with
         | Some full_text => mret full_text
         | None =>
             Raise (Exn PlainException
                      "Document appears to be empty or contains only images")
         end
     end)
    except_Exception
    (fun e => Raise (Exn PlainException
                       ("Failed to extract text from PDF: " +:+ exn_str e))).

End Libraries.

(** Occurrences of the marker prefix in a text. *)
Fixpoint count_markers (s : string) : nat :=
  match s with
  | EmptyString => 0
  | String _ s' =>
      (if is_prefix "--- Page " s then 1 else 0) + count_markers s'
  end.

End Pdf.

(** ** [re.search(r'\{.*\}', s, re.DOTALL)] *)

Module Re.

(** What follows the first opening brace of [s]. *)
Fixpoint after_open (s : string) : option string :=
  match s with
  | EmptyString => None
  | String c s' => if Ascii.eqb c "{" then Some s' else after_open s'
  end.

(** The longest prefix of [s] that ends in a closing brace. *)
Fixpoint upto_close (s : string) : option string :=
  match s with
  | EmptyString => None
  | String c s' =>
      match upto_close s' with
      | Some p => Some (String c p)
      | None => if Ascii.eqb c "}" then Some (String c EmptyString) else None
      end
  end.

(** The match is leftmost, and [.*] is greedy and crosses newlines:
    from the first opening brace to the last closing brace after it.
    The result is [json_match.group()]. *)
Definition search_braces (s : string) : option string :=
  rest ← after_open s;
  p ← upto_close rest;
  Some (String "{" p).

(** What [re.search] raises on an argument that is not a string
    (the message of Python 3.11 and later, as in [py_getitem]). *)
Definition not_a_string (v : pyval) : exn :=
  Exn TypeError
    ("expected string or bytes-like object, got '" +:+ type_name v +:+ "'").

End Re.

(** ** A reference JSON decoder

    [json.loads] is an argument of the analyzer below. This decoder of
    the JSON fragment without fractions, exponents and [\u] escapes
    instantiates it in examples. *)

Module JsonRef.

Definition is_ws (c : ascii) : bool :=
  let n := nat_of_ascii c in
  ((n =? 32) || (n =? 9) || (n =? 10) || (n =? 13))%nat.

Fixpoint skip_ws (s : string) : string :=
  match s with
  | String c s' => if is_ws c then skip_ws s' else s
  | EmptyString => EmptyString
  end.

Definition unescape (c : ascii) : option ascii :=
  let n := nat_of_ascii c in
  if (n =? 34)%nat then Some c
  else if (n =? 92)%nat then Some c
  else if (n =? 47)%nat then Some c
  else if Ascii.eqb c "n" then Some (ascii_of_nat 10)
  else if Ascii.eqb c "t" then Some (ascii_of_nat 9)
  else if Ascii.eqb c "r" then Some (ascii_of_nat 13)
  else if Ascii.eqb c "b" then Some (ascii_of_nat 8)
  else if Ascii.eqb c "f" then Some (ascii_of_nat 12)
  else None.

(** The characters of a string literal after its opening quote, and
    what follows the closing quote. Control characters are refused. *)
Fixpoint string_body (s : string) : option (string * string) :=
  match s with
  | EmptyString => None
  | String c s' =>
      let n := nat_of_ascii c in
      if (n =? 34)%nat then Some (EmptyString, s')
      else if (n =? 92)%nat then
        match s' with
        | String e s'' =>
            u ← unescape e;
            '(body, rest) ← string_body s'';
            Some (String u body, rest)
        | EmptyString => None
        end
      else if (n <? 32)%nat then None
      else '(body, rest) ← string_body s'; Some (String c body, rest)
  end.

Definition digit (c : ascii) : option Z :=
  let n := nat_of_ascii c in
  if ((48 <=? n) && (n <=? 57))%nat then Some (Z.of_nat (n - 48)) else None.

Fixpoint digits (acc : Z) (s : string) : Z * string :=
  match s with
  | String c s' =>
      match digit c with
      | Some d => digits (10 * acc + d) s'
      | None => (acc, s)
      end
  | EmptyString => (acc, s)
  end.

(** An integer literal: no leading zero before another digit, and no
    fraction or exponent after it. *)
Definition integer (s : string) : option (Z * string) :=
  match s with
  | String c s' =>
      d ← digit c;
      let '(n, rest) := digits d s' in
      match rest with
      | String r _ =>
          if Ascii.eqb r "." || Ascii.eqb r "e" || Ascii.eqb r "E" then None
          else if (d =? 0)%Z && negb (String.eqb s' rest) then None
          else Some (n, rest)
      | EmptyString =>
          if (d =? 0)%Z && negb (String.eqb s' rest) then None else Some (n, rest)
      end
  | EmptyString => None
  end.

Definition literal (word : string) (v : pyval) (s : string)
    : option (pyval * string) :=
  if is_prefix word s
  then Some (v, String.substring (String.length word)
                  (String.length s - String.length word) s)
  else None.

Fixpoint value (fuel : nat) (s : string) : option (pyval * string) :=
  match fuel with
  | 0 => None
  | S fuel =>
      match skip_ws s with
      | EmptyString => None
      | String c s' =>
          let n := nat_of_ascii c in
          if Ascii.eqb c "{" then
            match skip_ws s' with
            | String "}" rest => Some (PDict [], rest)
            | _ => members fuel [] s'
            end
          else if Ascii.eqb c "[" then
            match skip_ws s' with
            | String "]" rest => Some (PList [], rest)
            | _ => elements fuel [] s'
            end
          else if (n =? 34)%nat then
            '(body, rest) ← string_body s'; Some (PStr body, rest)
          else if Ascii.eqb c "-" then
            '(z, rest) ← integer s'; Some (PInt (- z), rest)
          else if Ascii.eqb c "t" then literal "true" (PBool true) (String c s')
          else if Ascii.eqb c "f" then literal "false" (PBool false) (String c s')
          else if Ascii.eqb c "n" then literal "null" PNone (String c s')
          else '(z, rest) ← integer (String c s'); Some (PInt z, rest)
      end
  end
with elements (fuel : nat) (acc : list pyval) (s : string)
    : option (pyval * string) :=
  match fuel with
  | 0 => None
  | S fuel =>
      '(v, rest) ← value fuel s;
      match skip_ws rest with
      | String "," rest' => elements fuel (acc ++ [v]) rest'
      | String "]" rest' => Some (PList (acc ++ [v]), rest')
      | _ => None
      end
  end
with members (fuel : nat) (acc : list (string * pyval)) (s : string)
    : option (pyval * string) :=
  match fuel with
  | 0 => None
  | S fuel =>
      match skip_ws s with
      | String q s' =>
          if (nat_of_ascii q =? 34)%nat then
            '(key, rest) ← string_body s';
            match skip_ws rest with
            | String ":" rest' =>
                '(v, rest'') ← value fuel rest';
                match skip_ws rest'' with
                | String "," rest3 => members fuel (dict_set key v acc) rest3
                | String "}" rest3 => Some (PDict (dict_set key v acc), rest3)
                | _ => None
                end
            | _ => None
            end
          else None
      | EmptyString => None
      end
  end.

Definition malformed : exn := Exn JSONDecodeError "Expecting value".

Definition json_loads (s : string) : result pyval :=
  match value (2 * String.length s + 2) s with
  | Some (v, rest) =>
      match skip_ws rest with
      | EmptyString => Ok v
      | String _ _ => Raise (Exn JSONDecodeError "Extra data")
      end
  | None => Raise malformed
  end.

End JsonRef.

(** ** services/ai_analyzer.py *)

Module Analyzer.

(** The answer of [requests.post]: the status, and what
    [response.json()] gives (a value, or an exception on a body that is
    not JSON). *)
Record response := Response {
  status_code : Z;
  response_json : result pyval
}.

(** The attributes of an [AIAnalyzer]. [api_url] is an attribute only
    of an analyzer that was given a key. *)
Record analyzer := AIAnalyzer {
  gemini_api_key : option string;
  use_gemini_api : bool;
  api_url : option string
}.

Definition gemini_url : string :=
  "https://generativelanguage.googleapis.com/v1beta/models/gemini-2.0-flash-exp:generateContent".

(** [__init__] with [_init_ai_clients]: the mode is fixed here, by the
    truth value of the key, and [api_url] is set only with a key. *)
Definition init (key : option string) : analyzer :=
  match key with
  | Some k =>
      if str_truthy k
      then {| gemini_api_key := key; use_gemini_api := true;
              api_url := Some gemini_url |}
      else {| gemini_api_key := key; use_gemini_api := false; api_url := None |}
  | None => {| gemini_api_key := key; use_gemini_api := false; api_url := None |}
  end.

(** [self.api_url]: an [AttributeError] when the attribute was never
    set. *)
Definition no_api_url : exn :=
  Exn AttributeError "'AIAnalyzer' object has no attribute 'api_url'".

Definition self_api_url (a : analyzer) : result string :=
  match api_url a with
  | Some url => Ok url
  | None => Raise no_api_url
  end.

Definition qs (s : string) : string := dq +:+ s +:+ dq.

Definition unlines (l : list string) : string :=
  fold_right (fun x acc => x +:+ nl +:+ acc) "" l.

Definition indent (n : nat) (s : string) : string :=
  fold_right (fun _ acc => String " " acc) s (seq 0 n).

(** [self.analysis_prompt.format(document_text=..., filename=...)] *)
Definition analysis_prompt (document_text filename : string) : string :=
  nl +:+ unlines [
    "You are a legal document analysis AI. Analyze the following legal document and provide a structured response.";
    "";
    "Document: " +:+ filename;
    "Content: " +:+ document_text;
    "";
    "Please provide your analysis in the following JSON format:";
    "{";
    indent 4 (qs "summary" +:+ ": " +:+ qs "A clear, plain English summary of the document's main purpose and key terms (2-3 sentences)" +:+ ",");
    indent 4 (qs "key_points" +:+ ": [");
    indent 8 (qs "First important clause or term explained in simple language" +:+ ",");
    indent 8 (qs "Second important clause or term explained in simple language" +:+ ",");
    indent 8 (qs "Third important clause or term explained in simple language" +:+ ",");
    indent 8 (qs "Fourth important clause or term explained in simple language" +:+ ",");
    indent 8 (qs "Fifth important clause or term explained in simple language");
    indent 4 "],";
    indent 4 (qs "warnings" +:+ ": [");
    indent 8 (qs "Any potentially unfavorable or concerning clauses" +:+ ",");
    indent 8 (qs "Unusual terms that might disadvantage the user" +:+ ",");
    indent 8 (qs "Important deadlines or obligations to note");
    indent 4 "]";
    "}";
    "";
    "Focus on:";
    "1. Making complex legal language understandable";
    "2. Identifying the most important terms and obligations";
    "3. Highlighting potential risks or unfavorable conditions";
    "4. Explaining what the user is agreeing to in plain English";
    "";
    "Respond only with the JSON format above."
  ].

(** [self.qa_prompt.format(document_text=..., question=...)] *)
Definition qa_prompt (document_text question : string) : string :=
  nl +:+ unlines [
    "You are a legal document Q&A assistant. Answer the user's question based on the provided document.";
    "";
    "Document Content: " +:+ document_text;
    "";
    "User Question: " +:+ question;
    "";
    "Please provide your response in the following JSON format:";
    "{";
    indent 4 (qs "answer" +:+ ": " +:+ qs "Clear, direct answer to the user's question based on the document" +:+ ",");
    indent 4 (qs "source_section" +:+ ": " +:+ qs "The specific section or clause that contains this information (if identifiable)" +:+ ",");
    indent 4 (qs "confidence" +:+ ": " +:+ qs "high/medium/low based on how clearly the document addresses this question");
    "}";
    "";
    "Guidelines:";
    "1. Only answer based on information actually present in the document";
    "2. If the information is not in the document, clearly state that";
    "3. Explain legal terms in plain English";
    "4. Be specific and cite relevant sections when possible";
    "5. If the answer is unclear or ambiguous, indicate that";
    "";
    "Respond only with the JSON format above."
  ].

(** The response of the mode without a key, for analysis. *)
Definition mock_analysis (text : string) : string :=
  nl +:+ unlines [
    indent 16 "{";
    indent 20 (qs "summary" +:+ ": " +:+ qs ("This legal document contains " +:+ pretty (String.length text) +:+ " characters of text with various contractual provisions. The document appears to establish terms and conditions between parties, including rights, obligations, and procedures for compliance.") +:+ ",");
    indent 20 (qs "key_points" +:+ ": [");
    indent 24 (qs "Document contains specific terms and conditions for the agreement" +:+ ",");
    indent 24 (qs "Payment obligations and financial responsibilities are outlined" +:+ ",");
    indent 24 (qs "Liability limitations and risk allocation clauses are present" +:+ ",");
    indent 24 (qs "Termination procedures and conditions are specified" +:+ ",");
    indent 24 (qs "Dispute resolution mechanisms are established");
    indent 20 "],";
    indent 20 (qs "warnings" +:+ ": [");
    indent 24 (qs "Review all financial obligations and payment terms carefully" +:+ ",");
    indent 24 (qs "Pay attention to liability limitations that may affect your rights" +:+ ",");
    indent 24 (qs "Note any automatic renewal or termination clauses" +:+ ",");
    indent 24 (qs "Consider consulting with a legal professional for complex matters" +:+ ",");
    indent 24 (qs "This is a demo analysis - full AI analysis coming soon");
    indent 20 "]";
    indent 16 "}"
  ] +:+ indent 16 "".

(** The response of the mode without a key, for a question. *)
Definition mock_answer (document_text question : string) : string :=
  nl +:+ unlines [
    indent 16 "{";
    indent 20 (qs "answer" +:+ ": " +:+ qs ("Based on the document content, I can see this is a legal document with " +:+ pretty (String.length document_text) +:+ " characters. Your question '" +:+ question +:+ "' relates to the document content. This is a demo response - the full AI analysis system will provide detailed answers to your specific questions about clauses, terms, and conditions.") +:+ ",");
    indent 20 (qs "source_section" +:+ ": " +:+ qs "Document Analysis (Demo Mode)" +:+ ",");
    indent 20 (qs "confidence" +:+ ": " +:+ qs "medium");
    indent 16 "}"
  ] +:+ indent 16 "".

(** [text[:8000]] *)
#[warnings="-abstract-large-number"]
Definition prompt_chars : nat := 8000.

Definition or_document (filename : option string) : string :=
  match filename with
  | Some f => if str_truthy f then f else "document"
  | None => "document"
  end.

(** [f"{self.gemini_api_key}"] *)
Definition key_str (a : analyzer) : string :=
  match gemini_api_key a with
  | Some k => k
  | None => "None"
  end.

(** [_fallback_parse_analysis] *)
Definition _fallback_parse_analysis (response_text : string) : pyval :=
  PDict [
    ("summary",
     PStr (if (500 <? String.length response_text)%nat
           then str_take 500 response_text +:+ "..."
           else response_text));
    ("key_points",
     PList [PStr "Document analysis completed";
            PStr "Please review the full response above";
            PStr "Contact support if you need clarification"]);
    ("warnings",
     PList [PStr "Analysis format may not be optimal";
            PStr "Please verify important details independently"])
  ].

Definition required_fields : list string := ["summary"; "key_points"; "warnings"].

(** [if field not in result: result[field] = default] *)
Definition set_missing (field : string) (default : pyval) (res : pyval)
    : result pyval :=
  present ← py_contains field res;
  if (present : bool) then mret res else py_setitem res field default.

(** [for field in required_fields: if field not in result:
    result[field] = []] *)
Fixpoint validate_required (fields : list string) (res : pyval) : result pyval :=
  match fields with
  | [] => mret res
  | field :: fields' =>
      res' ← set_missing field (PList []) res;
      validate_required fields' res'
  end.

Definition qa_fallback (response_text confidence : string) : pyval :=
  PDict [("answer", PStr response_text);
         ("source_section", PNone);
         ("confidence", PStr confidence)].

Definition analysis_failed (e : exn) : pyval :=
  PDict [("summary", PStr "Analysis failed due to technical error");
         ("key_points", PList [PStr "Unable to analyze document at this time"]);
         ("warnings", PList [PStr "Please try again later or contact support"]);
         ("error", PStr (exn_str e))].

Definition answer_failed (e : exn) : pyval :=
  PDict [("answer", PStr "Unable to answer question due to technical error");
         ("source_section", PNone);
         ("confidence", PStr "low");
         ("error", PStr (exn_str e))].

Section Environment.

(** [json.loads], and [requests.post(url, headers=..., json=data,
    timeout=30)] where [data] wraps the prompt: it returns a response or
    raises (connection refused, timeout). *)
Variable json_loads : string -> result pyval.
Variable requests_post : string -> string -> result response.

(** [_parse_analysis_response]. [re.search] comes first and raises a
    [TypeError] on a response that is not a string, which the handler
    of [JSONDecodeError] lets through. *)
Definition _parse_analysis_response (response_text : pyval) : result pyval :=
  match response_text with
  | PStr text =>
      try_except
        (match Re.search_braces text with
         | Some json_str =>
             res ← json_loads json_str;
             validate_required required_fields res
         | None => mret (_fallback_parse_analysis text)
         end)
        except_JSONDecodeError
        (fun _ => mret (_fallback_parse_analysis text))
  | _ => Raise (Re.not_a_string response_text)
  end.

(** [_parse_qa_response] *)
Definition _parse_qa_response (response_text : pyval) : result pyval :=
  match response_text with
  | PStr text =>
      try_except
        (match Re.search_braces text with
         | Some json_str =>
             res ← json_loads json_str;
             res ← set_missing "answer" response_text res;
             res ← set_missing "source_section" PNone res;
             set_missing "confidence" (PStr "medium") res
         | None => mret (qa_fallback text "medium")
         end)
        except_JSONDecodeError
        (fun _ => mret (qa_fallback text "low"))
  | _ => Raise (Re.not_a_string response_text)
  end.

(** [result['candidates'][0]] and the like: each step may raise. *)
Definition first_candidate (res : pyval) : result pyval :=
  candidates ← py_getitem res "candidates";
  py_getitem0 candidates.

(** [_call_gemini_api] *)
Definition _call_gemini_api (a : analyzer) (prompt : string) : result pyval :=
  try_except
    (base ← self_api_url a;
     let url := base +:+ "?key=" +:+ key_str a in
     response ← requests_post url prompt;
     if (status_code response =? 200)%Z then
       res ← response_json response;
       has_candidates ← py_contains "candidates" res;
       some_candidate ←
         (if (has_candidates : bool)
          then candidates ← py_getitem res "candidates";
               n ← py_len candidates;
               mret (0 <? n)%nat
          else mret false);
       if (some_candidate : bool) then
         candidate ← first_candidate res;
         has_content ← py_contains "content" candidate;
         has_parts ←
           (if (has_content : bool)
            then candidate ← first_candidate res;
                 content ← py_getitem candidate "content";
                 py_contains "parts" content
            else mret false);
         if (has_parts : bool) then
           candidate ← first_candidate res;
           content ← py_getitem candidate "content";
           parts ← py_getitem content "parts";
           part ← py_getitem0 parts;
           py_getitem part "text"
         else mret (PStr "Error: Unexpected response format")
       else mret (PStr "Error: No response generated")
     else mret (PStr ("Error: API call failed (" +:+ pretty (status_code response) +:+ ")")))
    except_Exception
    (fun e => mret (PStr ("Error: " +:+ exn_str e))).

(** [analyze_document] *)
Definition analyze_document (a : analyzer) (text : string)
    (filename : option string) : result pyval :=
  try_except
    (let prompt := analysis_prompt (str_take prompt_chars text) (or_document filename) in
     analysis_text ←
       (if use_gemini_api a then _call_gemini_api a prompt
        else mret (PStr (mock_analysis text)));
     _parse_analysis_response analysis_text)
    except_Exception
    (fun e => mret (analysis_failed e)).

(** [answer_question] *)
Definition answer_question (a : analyzer) (document_text question : string)
    : result pyval :=
  try_except
    (let prompt := qa_prompt (str_take prompt_chars document_text) question in
     answer_text ←
       (if use_gemini_api a then _call_gemini_api a prompt
        else mret (PStr (mock_answer document_text question)));
     _parse_qa_response answer_text)
    except_Exception
    (fun e => mret (answer_failed e)).

End Environment.

End Analyzer.

(** * Properties *)

(** ** Document store *)

Module StorageProps.
Import Storage.

Lemma lookup_foldl_delete (ids : list string) (m : gmap string document) k :
  foldl (fun m k => delete k m) m ids !! k =
  if decide (k ∈ ids) then None else m !! k.
Proof.
  revert m. induction ids as [|i ids IH]; intros m; cbn [foldl].
  - case_decide as Hin; [by apply not_elem_of_nil in Hin | done].
  - rewrite IH.
    destruct (decide (k ∈ ids)) as [Hin|Hin], (decide (k ∈ i :: ids)) as [Hin'|Hin'];
      try done.
    + exfalso. apply Hin'. by apply elem_of_cons; right.
    + apply elem_of_cons in Hin' as [->|Hin']; [| done].
      apply lookup_delete_eq.
    + rewrite lookup_delete_ne; [done |].
      intros ->. apply Hin'. by apply elem_of_cons; left.
Qed.

Lemma elem_of_expired_ids now (m : gmap string document) k :
  k ∈ expired_ids now m ↔ ∃ d, m !! k = Some d ∧ (now > expires_at d)%Z.
Proof.
  unfold expired_ids. rewrite list_elem_of_fmap. split.
  - intros [[k' d] [-> [Hp Hin]%list_elem_of_filter]].
    apply elem_of_map_to_list in Hin. eauto.
  - intros (d & Hk & Hp). exists (k, d). split; [done |].
    apply list_elem_of_filter. split; [done | by apply elem_of_map_to_list].
Qed.

Lemma NoDup_expired_ids now (m : gmap string document) :
  NoDup (expired_ids now m).
Proof.
  unfold expired_ids.
  eapply sublist_NoDup; [apply (NoDup_fst_map_to_list m) |].
  apply fmap_sublist, sublist_filter.
Qed.

Lemma size_foldl_delete (ids : list string) (m : gmap string document) :
  NoDup ids → (∀ k, k ∈ ids → is_Some (m !! k)) →
  size (foldl (fun m k => delete k m) m ids) + length ids = size m.
Proof.
  revert m. induction ids as [|i ids IH]; intros m Hnd Hin; cbn [foldl length].
  - lia.
  - apply NoDup_cons in Hnd as [Hni Hnd].
    assert (Hi : is_Some (m !! i)) by (apply Hin, elem_of_cons; by left).
    assert (Hpos : size m ≠ 0).
    { intros Hz. apply map_size_empty_iff in Hz. subst m.
      destruct Hi as [d Hd]. by rewrite lookup_empty in Hd. }
    specialize (IH (delete i m) Hnd).
    rewrite (map_size_delete_Some _ _ Hi) in IH.
    assert (size (foldl (fun m k => delete k m) (delete i m) ids) + length ids
            = pred (size m)); [| lia].
    apply IH. intros k Hk. rewrite lookup_delete_ne.
    + apply Hin, elem_of_cons. by right.
    + intros ->. done.
Qed.

(** The lookups of the store after a sweep. *)
Lemma cleanup_expired_lookup now s k :
  documents (cleanup_expired now s).2 !! k =
  match documents s !! k with
  | Some d => if decide (now > expires_at d)%Z then None else Some d
  | None => None
  end.
Proof.
  unfold cleanup_expired; simpl. rewrite lookup_foldl_delete.
  destruct (decide (k ∈ expired_ids now (documents s))) as [Hin|Hin].
  - apply elem_of_expired_ids in Hin as (d & -> & Hp). by rewrite decide_True.
  - destruct (documents s !! k) as [d|] eqn:Hd; [| done].
    rewrite decide_False; [done |]. intros Hp. apply Hin.
    apply elem_of_expired_ids. eauto.
Qed.

Lemma cleanup_expired_count now s :
  size (documents (cleanup_expired now s).2) + (cleanup_expired now s).1 =
  size (documents s).
Proof.
  unfold cleanup_expired; simpl. apply size_foldl_delete.
  - apply NoDup_expired_ids.
  - intros k (d & Hd & _)%elem_of_expired_ids. eauto.
Qed.

(** A document just stored is served, with no analysis yet, until its
    expiry has passed. *)
Lemma get_after_store uuid now0 now1 txt fn s id s' now :
  store_document uuid now0 now1 txt fn s = Ok (id, s') →
  (now ≤ now0 + session_timeout s * 1000000)%Z →
  (get_document now id s').1 =
  Some {| text := txt; filename := fn; created_at := now1;
          expires_at := now0 + session_timeout s * 1000000;
          analysis_result := None |}.
Proof.
  unfold store_document, timedelta_seconds, datetime_add. cbv zeta.
  destruct (decide _); simpl; [| by destruct (decide _)].
  destruct (decide _); simpl; [| done].
  intros [= <- <-] Hnow. unfold get_document. simpl.
  rewrite lookup_insert_eq. simpl.
  destruct (decide _); [lia | done].
Qed.

(** [update_analysis] on an id that is not stored returns [False] and
    leaves the store as it is. *)
Lemma update_analysis_absent now id r s :
  documents s !! id = None → update_analysis now id r s = (false, s).
Proof. intros H. unfold update_analysis. by rewrite H. Qed.

(** A second sweep at the same instant removes nothing. *)
Lemma cleanup_expired_idempotent now s :
  (cleanup_expired now (cleanup_expired now s).2).1 = 0.
Proof.
  unfold cleanup_expired at 1. cbn [fst].
  destruct (expired_ids now (documents (cleanup_expired now s).2))
    as [|k ids] eqn:Hids; [done |].
  assert (Hk : k ∈ expired_ids now (documents (cleanup_expired now s).2))
    by (rewrite Hids; apply elem_of_cons; by left).
  apply elem_of_expired_ids in Hk as (d & Hd & Hexp).
  rewrite cleanup_expired_lookup in Hd.
  destruct (documents s !! k) as [d'|]; [| done].
  destruct (decide (now > expires_at d')%Z); [done |].
  injection Hd as ->. done.
Qed.

Definition boundary_doc : document :=
  {| text := "lease"; filename := Some "lease.pdf"; created_at := 0;
     expires_at := 3600000000; analysis_result := None |}.

Definition boundary_store : storage :=
  {| documents := {[ "doc" := boundary_doc ]}; session_timeout := 3600 |}.

(** C2, counterexample: at the instant [now = expires_at] the document
    is still served by [get_document], still accepts [update_analysis],
    and survives a sweep. *)
Lemma boundary_instant_not_expired :
  expires_at boundary_doc = 3600000000%Z ∧
  (get_document 3600000000 "doc" boundary_store).1 = Some boundary_doc ∧
  (update_analysis 3600000000 "doc" PNone boundary_store).1 = true ∧
  (cleanup_expired 3600000000 boundary_store).1 = 0 ∧
  documents (cleanup_expired 3600000000 boundary_store).2 !! "doc"
    = Some boundary_doc.
Proof.
  repeat split; reflexivity.
Qed.

(** C2, as amended: the three operations that test expiry use the strict
    comparison [now > expires_at]. A document is served, and updated,
    exactly when it is stored with [now <= expires_at]; a sweep keeps
    exactly the entries with [now <= expires_at], removes those with
    [expires_at < now], and returns how many it removed. *)
Theorem expiry_comparison_is_strict (now : Z) (id : string) (r : pyval)
    (s : storage) :
  (∀ d, (get_document now id s).1 = Some d ↔
        documents s !! id = Some d ∧ (now ≤ expires_at d)%Z) ∧
  ((update_analysis now id r s).1 = true ↔
        ∃ d, documents s !! id = Some d ∧ (now ≤ expires_at d)%Z) ∧
  (∀ k d, documents (cleanup_expired now s).2 !! k = Some d ↔
        documents s !! k = Some d ∧ (now ≤ expires_at d)%Z) ∧
  (∀ k d, documents s !! k = Some d → (expires_at d < now)%Z →
        documents (cleanup_expired now s).2 !! k = None) ∧
  size (documents (cleanup_expired now s).2) + (cleanup_expired now s).1
    = size (documents s).
Proof.
  split; [| split; [| split; [| split]]].
  - intros d. unfold get_document.
    destruct (documents s !! id) as [d'|]; simpl.
    + destruct (decide (now > expires_at d')%Z); simpl.
      * split; [done |]. intros [[= ->] ?]. lia.
      * split; [intros [= ->]; split; [done | lia] | by intros [[= ->] _]].
    + split; [done | by intros [? _]].
  - unfold update_analysis.
    destruct (documents s !! id) as [d'|]; simpl.
    + destruct (decide (now > expires_at d')%Z); simpl.
      * split; [done |]. intros (d & [= ->] & ?). lia.
      * split; [| done]. intros _. exists d'. split; [done | lia].
    + split; [done | by intros (? & ? & _)].
  - intros k d. rewrite cleanup_expired_lookup.
    destruct (documents s !! k) as [d'|].
    + destruct (decide (now > expires_at d')%Z).
      * split; [done |]. intros [[= ->] ?]. lia.
      * split; [intros [= ->]; split; [done | lia] | by intros [[= ->] _]].
    + split; [done | by intros [? _]].
  - intros k d Hd Hlt. rewrite cleanup_expired_lookup, Hd.
    rewrite decide_True; [done | lia].
  - apply cleanup_expired_count.
Qed.

(** C8, counterexample: the clock is read once for [expires_at] and
    once more for [created_at]; when it advances between the two reads,
    the stored [expires_at] is not [created_at] plus the timeout. *)
Lemma expiry_not_from_created_at :
  ∃ s' d,
    store_document "doc" 5 6 "lease" None (init 3600) = Ok ("doc", s') ∧
    documents s' !! "doc" = Some d ∧
    created_at d = 6%Z ∧
    expires_at d ≠ (created_at d + 3600 * 1000000)%Z.
Proof.
  eexists _, _. split; [reflexivity |]. split; [reflexivity |].
  split; [reflexivity |]. simpl. lia.
Qed.

(** C8, as amended: the document inserted by [store_document] has
    [expires_at] equal to the clock read at entry plus the configured
    timeout, and [created_at] equal to the second clock read; so
    [expires_at = created_at + session_timeout] holds when the two reads
    give the same instant. *)
Theorem store_document_expiry (uuid : string) (now0 now1 : Z) (txt : string)
    (fn : option string) (s : storage) (id : string) (s' : storage) :
  store_document uuid now0 now1 txt fn s = Ok (id, s') →
  ∃ d, documents s' !! id = Some d ∧
       created_at d = now1 ∧
       expires_at d = (now0 + session_timeout s * 1000000)%Z ∧
       (now0 = now1 →
        expires_at d = (created_at d + session_timeout s * 1000000)%Z) ∧
       (now0 ≤ now1 →
        expires_at d ≤ created_at d + session_timeout s * 1000000)%Z.
Proof.
  unfold store_document, timedelta_seconds, datetime_add. cbv zeta.
  destruct (decide _); simpl; [| by destruct (decide _)].
  destruct (decide _); simpl; [| done].
  intros [= <- <-]. eexists. split; [apply lookup_insert_eq |]. simpl.
  repeat split; lia.
Qed.

Lemma store_document_expiry_witness :
  ∃ d, documents (with_documents (init 3600)
         (<["doc" := {| text := "lease"; filename := None; created_at := 6;
                        expires_at := 3600000005;
                        analysis_result := None |}]> ∅)) !! "doc" = Some d ∧
       created_at d = 6%Z ∧
       expires_at d = (5 + session_timeout (init 3600) * 1000000)%Z ∧
       (5 = 6 →
        expires_at d = (created_at d + session_timeout (init 3600) * 1000000))%Z ∧
       (5 ≤ 6 →
        expires_at d ≤ created_at d + session_timeout (init 3600) * 1000000)%Z.
Proof.
  apply (store_document_expiry "doc" 5 6 "lease" None (init 3600)).
  reflexivity.
Defined.

(** C10: when [update_analysis] returns [True], the entry of
    [document_id] keeps its text, filename, [created_at] and
    [expires_at] and gets the new [analysis_result]; every other entry,
    and the configured timeout, are unchanged. *)
Theorem update_analysis_frame (now : Z) (id : string) (r : pyval)
    (s s' : storage) :
  update_analysis now id r s = (true, s') →
  ∃ d d', documents s !! id = Some d ∧
          documents s' !! id = Some d' ∧
          text d' = text d ∧ filename d' = filename d ∧
          created_at d' = created_at d ∧ expires_at d' = expires_at d ∧
          analysis_result d' = Some r ∧
          (∀ k, k ≠ id → documents s' !! k = documents s !! k) ∧
          session_timeout s' = session_timeout s.
Proof.
  unfold update_analysis.
  destruct (documents s !! id) as [d|] eqn:Hd; [| done].
  destruct (decide _); [done |]. intros [= <-].
  exists d, (set_analysis d r). simpl.
  split; [done |]. split; [apply lookup_insert_eq |].
  repeat split. intros k Hk. by apply lookup_insert_ne.
Qed.

Lemma update_analysis_frame_witness :
  ∃ d d', documents boundary_store !! "doc" = Some d ∧
          documents (update_analysis 10 "doc" (PStr "done") boundary_store).2
            !! "doc" = Some d' ∧
          text d' = text d ∧ filename d' = filename d ∧
          created_at d' = created_at d ∧ expires_at d' = expires_at d ∧
          analysis_result d' = Some (PStr "done") ∧
          (∀ k, k ≠ "doc" →
             documents (update_analysis 10 "doc" (PStr "done") boundary_store).2
               !! k = documents boundary_store !! k) ∧
          session_timeout (update_analysis 10 "doc" (PStr "done") boundary_store).2
            = session_timeout boundary_store.
Proof.
  apply (update_analysis_frame 10 "doc" (PStr "done") boundary_store).
  reflexivity.
Defined.

End StorageProps.

(** ** Text extractor *)

Module PdfProps.
Import Pdf.
Local Open Scope nat_scope.

(** A page the loop keeps: it has non-empty text. *)
Definition extractable (p : page) : bool :=
  match p with
  | Ok (Some text) => str_truthy text
  | _ => false
  end.

(** The pages with text, with their 0-based numbers counted from
    [page_num]. *)
Fixpoint pages_with_text (page_num : nat) (pages : list page)
    : list (nat * string) :=
  match pages with
  | [] => []
  | p :: pages' =>
      match p with
      | Ok (Some text) =>
          if str_truthy text
          then (page_num, text) :: pages_with_text (S page_num) pages'
          else pages_with_text (S page_num) pages'
      | _ => pages_with_text (S page_num) pages'
      end
  end.

Definition block_of (nt : nat * string) : string := page_block nt.1 nt.2.

Lemma extract_page_loop (pages : list page) n i acc :
  i + n ≤ length pages →
  foldl (extract_page pages) acc (seq i n) =
  (acc ++ (block_of <$> pages_with_text i (take n (drop i pages))))%list.
Proof.
  unfold page in *.
  revert i acc. induction n as [|n IH]; intros i acc Hle; cbn [seq foldl].
  - rewrite take_0. simpl. by rewrite app_nil_r.
  - destruct (lookup_lt_is_Some_2 pages i) as [p Hp]; [lia |].
    rewrite (drop_S _ _ _ Hp). cbn [take pages_with_text].
    rewrite IH by lia. unfold extract_page, page. rewrite Hp.
    destruct p as [[text|]|e]; try done.
    destruct (str_truthy text); [| done].
    rewrite fmap_cons, <- app_assoc. done.
Qed.

Lemma extract_pages_eq (pages : list page) :
  extract_pages pages =
  block_of <$> pages_with_text 0 (take max_pages pages).
Proof.
  unfold extract_pages. rewrite extract_page_loop by lia.
  rewrite drop_0. simpl. f_equal. f_equal.
  destruct (decide (length pages ≤ max_pages)).
  - rewrite Nat.min_l by done. by rewrite !take_ge by lia.
  - by rewrite Nat.min_r by lia.
Qed.

Lemma pages_with_text_lookup i pages n text :
  (n, text) ∈ pages_with_text i pages →
  i ≤ n ∧ pages !! (n - i) = Some (Ok (Some text)) ∧ text ≠ "".
Proof.
  revert i. induction pages as [|p pages IH]; intros i; simpl.
  - by intros ?%elem_of_nil.
  - assert (Hrec : (n, text) ∈ pages_with_text (S i) pages →
              i ≤ n ∧ (p :: pages) !! (n - i) = Some (Ok (Some text)) ∧ text ≠ "").
    { intros (Hle & Hl & Hne)%IH. split; [lia |]. split; [| done].
      replace (n - i) with (S (n - S i)) by lia. done. }
    destruct p as [[t|]|e]; try done.
    destruct t as [|c t]; simpl; [done |].
    intros [[= -> ->]|Hin]%elem_of_cons; [| by apply Hrec].
    rewrite Nat.sub_diag. done.
Qed.

Lemma pages_with_text_sorted i pages :
  StronglySorted lt (pages_with_text i pages).*1 ∧
  Forall (le i) (pages_with_text i pages).*1.
Proof.
  revert i. induction pages as [|p pages IH]; intros i; simpl.
  - split; constructor.
  - destruct (IH (S i)) as [Hs Hf].
    assert (Hf' : Forall (le i) (pages_with_text (S i) pages).*1).
    { eapply Forall_impl; [exact Hf |]. simpl. lia. }
    destruct p as [[t|]|e]; try done.
    destruct (str_truthy t); [| done]. simpl. split.
    + constructor; [done |]. eapply Forall_impl; [exact Hf |]. simpl. lia.
    + constructor; [lia | done].
Qed.

Lemma pages_with_text_length i pages :
  length (pages_with_text i pages) =
  length (filter (fun p => extractable p = true) pages).
Proof.
  revert i. induction pages as [|p pages IH]; intros i; [done |].
  rewrite filter_cons. cbn [pages_with_text].
  destruct p as [[t|]|e]; cbn [extractable].
  - destruct (str_truthy t) eqn:Ht.
    + rewrite decide_True by done. simpl. by rewrite IH.
    + rewrite decide_False by done. apply IH.
  - rewrite decide_False by done. apply IH.
  - rewrite decide_False by done. apply IH.
Qed.

Lemma filter_all {A} (P : A → Prop) `{∀ x, Decision (P x)} (l : list A) :
  Forall P l → length (filter P l) = length l.
Proof.
  induction 1 as [|x l Hx Hl IH]; [done |].
  rewrite filter_cons, decide_True by done. simpl. by rewrite IH.
Qed.

Lemma nonempty_message (a b : string) : b ≠ "" → a +:+ b ≠ "".
Proof. destruct a; simpl; [done | discriminate]. Qed.

Lemma or_default_nonempty error default :
  default ≠ "" → or_default error default ≠ "".
Proof.
  intros Hd. unfold or_default. destruct error as [[|c e]|]; simpl; done.
Qed.

(** A typed negative result: no success, no text, a reason. *)
Definition negative (r : extraction) : Prop :=
  r.1.1 = false ∧ r.1.2 = "" ∧ ∃ msg, r.2 = Some msg ∧ msg ≠ "".

(** A positive result: text of at least [min_text_length] characters
    once stripped, and no error. *)
Definition positive (r : extraction) : Prop :=
  r.1.1 = true ∧ long_enough r.1.2 = true ∧ r.2 = None.

Section Libraries.

Variable pdfplumber_open : list Byte.byte -> result (list page).
Variable PdfReader : list Byte.byte -> result (list page).

Lemma extract_with_returns name open_pdf f :
  ∃ r f', extract_with name open_pdf f = Ok (r, f') ∧ (positive r ∨ negative r).
Proof.
  unfold extract_with.
  destruct (read f) as [[file_bytes f']|e] eqn:Hread; simpl.
  - destruct (open_pdf file_bytes) as [pages|e]; simpl.
    + destruct (String.length (strip (join_pages pages)) <? min_text_length)
        eqn:Hlen; simpl; eexists _, _; (split; [reflexivity |]).
      * right. repeat split. eexists. split; [reflexivity | done].
      * left. repeat split. unfold long_enough. cbn [fst snd].
        apply Nat.ltb_ge in Hlen. by apply Nat.leb_le.
    + eexists _, _. split; [reflexivity |]. right. repeat split.
      eexists. split; [reflexivity |]. by apply nonempty_message.
  - eexists _, _. split; [reflexivity |]. right. repeat split.
    eexists. split; [reflexivity |]. by apply nonempty_message.
Qed.

Lemma extract_text_returns f :
  ∃ r, extract_text pdfplumber_open PdfReader f = Ok r ∧ (positive r ∨ negative r).
Proof.
  assert (Hfail : ∀ e, negative (false, "", Some ("Error processing PDF: " +:+ exn_str e))).
  { intros e. repeat split. eexists. split; [reflexivity | done]. }
  unfold extract_text, _extract_with_pdfplumber, _extract_with_pypdf2.
  destruct (seek0 f) as [f0|e]; simpl; [| eauto].
  destruct (extract_with_returns "pdfplumber" pdfplumber_open f0)
    as ([[success text] error] & f1 & -> & H1); simpl.
  destruct (success && long_enough text) eqn:Hok; simpl.
  { eexists. split; [reflexivity |]. left.
    apply andb_true_iff in Hok as [-> Hlen]. by repeat split. }
  destruct (seek0 f1) as [f2|e]; simpl; [| eauto].
  destruct (extract_with_returns "PyPDF2" PdfReader f2)
    as ([[success' text'] error'] & f3 & -> & H2); simpl.
  destruct (success' && long_enough text') eqn:Hok'; simpl.
  { eexists. split; [reflexivity |]. left.
    apply andb_true_iff in Hok' as [-> Hlen]. by repeat split. }
  destruct (String.length (strip text') <? min_text_length); simpl;
    eexists; (split; [reflexivity |]); right; repeat split;
    eexists; (split; [reflexivity |]); [done |].
  by apply or_default_nonempty.
Qed.

Definition extraction_failed : exn :=
  Exn PlainException
    "Failed to extract text from PDF: Document appears to be empty or contains only images".

Lemma bytes_attempt_returns open_pdf pdf_bytes :
  bytes_attempt open_pdf pdf_bytes = Ok None ∨
  ∃ text, bytes_attempt open_pdf pdf_bytes = Ok (Some text) ∧
          long_enough text = true.
Proof.
  unfold bytes_attempt. destruct (open_pdf pdf_bytes) as [pages|e]; simpl.
  - destruct (long_enough (join_pages pages)) eqn:Hlen; simpl; eauto.
  - by left.
Qed.

Lemma extract_text_from_bytes_cases pdf_bytes :
  (∃ text, extract_text_from_bytes pdfplumber_open PdfReader pdf_bytes = Ok text ∧
           long_enough text = true) ∨
  extract_text_from_bytes pdfplumber_open PdfReader pdf_bytes = Raise extraction_failed.
Proof.
  unfold extract_text_from_bytes.
  destruct (bytes_attempt_returns pdfplumber_open pdf_bytes) as [->|(t & -> & Ht)];
    simpl; [| eauto].
  destruct (bytes_attempt_returns PdfReader pdf_bytes) as [->|(t & -> & Ht)];
    simpl; [| eauto].
  by right.
Qed.

End Libraries.

(** A byte buffer that neither library can open. *)
Definition not_a_pdf : list Byte.byte -> result (list page) :=
  fun _ => Raise (Exn ValueError "No /Root object! - Is this really a PDF?").

(** C3, counterexample: on a buffer that is not a PDF the raw-bytes
    entry point raises, it does not return a negative triple. *)
Lemma bytes_entry_point_raises :
  extract_text_from_bytes not_a_pdf not_a_pdf [] = Raise extraction_failed ∧
  raises (extract_text_from_bytes not_a_pdf not_a_pdf []).
Proof. split; [reflexivity | exact I]. Qed.

(** C3, as amended: [extract_text] never raises and surfaces every
    failure as [(False, "", reason)] with a non-empty reason (a success
    is [(True, text, None)]); [extract_text_from_bytes] returns the text
    on success and, as its docstring says, raises [Exception] on every
    failure, with the one message of [extraction_failed]. *)
Theorem extraction_failure_surfaces
    (pdfplumber_open PdfReader : list Byte.byte -> result (list page))
    (f : file) (pdf_bytes : list Byte.byte) :
  (∃ r, extract_text pdfplumber_open PdfReader f = Ok r ∧
        (positive r ∨ negative r)) ∧
  ((∃ text, extract_text_from_bytes pdfplumber_open PdfReader pdf_bytes = Ok text ∧
            long_enough text = true) ∨
   extract_text_from_bytes pdfplumber_open PdfReader pdf_bytes
     = Raise extraction_failed).
Proof.
  split; [apply extract_text_returns | apply extract_text_from_bytes_cases].
Qed.

(** A 51-page document whose first page is a scanned image. *)
Definition scanned_cover : list page :=
  Ok None :: replicate 50 (Ok (Some "Terms of the lease")).

Definition upload (bytes : list Byte.byte) : file :=
  {| data := bytes; pos := 0; closed := false |}.

(** C7, counterexample: a readable document of more than 50 pages for
    which extraction succeeds with 49 markers, not 50. *)
Lemma fewer_markers_than_pages :
  length scanned_cover = 51 ∧
  ∃ text f',
    _extract_with_pdfplumber (fun _ => Ok scanned_cover) (upload [])
      = Ok ((true, text, None), f') ∧
    count_markers text = 49.
Proof.
  split; [reflexivity |]. eexists _, _. split; [reflexivity |].
  vm_compute. reflexivity.
Qed.

(** The marker prefix has no newline, so no occurrence of it in the
    joined text crosses the newline that ends a marker line, a page
    text or a block: the occurrences are those of the marker lines and
    those inside the page texts. *)
Fixpoint no_newline (p : string) : bool :=
  match p with
  | EmptyString => true
  | String a p' => negb (Ascii.eqb a (ascii_of_nat 10)) && no_newline p'
  end.

Lemma append_String c (s t : string) : String c s +:+ t = String c (s +:+ t).
Proof. reflexivity. Qed.

Lemma is_prefix_before_newline p s rest :
  no_newline p = true →
  is_prefix p (s +:+ nl +:+ rest) = is_prefix p s.
Proof.
  revert s. induction p as [|a p IH]; intros s Hp; [done |].
  simpl in Hp. apply andb_true_iff in Hp as [Ha Hp].
  destruct s as [|b s].
  - change ("" +:+ nl +:+ rest) with (String (ascii_of_nat 10) rest).
    cbn [is_prefix]. apply negb_true_iff in Ha. by rewrite Ha.
  - rewrite append_String. cbn [is_prefix]. by rewrite IH.
Qed.

Lemma count_markers_newline s rest :
  count_markers (s +:+ nl +:+ rest) = count_markers s + count_markers rest.
Proof.
  induction s as [|c s IH].
  - reflexivity.
  - rewrite append_String. cbn [count_markers].
    rewrite <- append_String, is_prefix_before_newline by reflexivity.
    rewrite IH. lia.
Qed.

Lemma count_markers_marker n :
  n < max_pages → count_markers (page_marker n) = 1.
Proof.
  unfold max_pages. intros Hn.
  do 50 (destruct n as [|n]; [vm_compute; reflexivity |]). lia.
Qed.

Lemma count_markers_block n t :
  n < max_pages → count_markers (page_block n t) = 1 + count_markers t.
Proof.
  intros Hn. unfold page_block.
  rewrite count_markers_newline, count_markers_marker by done.
  replace (t +:+ nl) with (t +:+ nl +:+ "") by reflexivity.
  rewrite count_markers_newline. simpl. lia.
Qed.

Lemma count_markers_join blocks :
  count_markers (str_join nl blocks) = sum_list (count_markers <$> blocks).
Proof.
  induction blocks as [|x blocks IH]; [done |].
  destruct blocks as [|y blocks].
  - simpl. lia.
  - change (str_join nl (x :: y :: blocks))
      with (x +:+ nl +:+ str_join nl (y :: blocks)).
    rewrite count_markers_newline, IH. done.
Qed.

Lemma count_markers_blocks (sel : list (nat * string)) :
  Forall (fun nt => nt.1 < max_pages) sel →
  count_markers (str_join nl (block_of <$> sel))
    = length sel + sum_list (count_markers <$> sel.*2).
Proof.
  intros Hsel. rewrite count_markers_join.
  induction Hsel as [|[n t] sel Hn Hsel IH]; [done |].
  cbn [fmap list_fmap sum_list length]. unfold block_of at 1. cbn [fst snd].
  rewrite count_markers_block by done.
  cbn [fmap list_fmap] in IH. rewrite IH. simpl. lia.
Qed.

(** C7, as amended: when [_extract_with_pdfplumber] succeeds, the text
    is the blocks of the pages that have text among the first
    [min(N, 50)] pages, joined by a newline; each block is the marker
    of the page (numbered from 1), a newline, the text of the page and a
    newline; the blocks come in strictly ascending page order, one for
    each page with text among the first 50. The occurrences of the
    marker prefix in the returned text ([count_markers]) are one for
    each block and those inside the page texts themselves: when no page
    text has one, they number the pages with text among the first 50,
    which is [min(N, 50)] when every one of those pages has text. *)
Theorem page_markers_of_success
    (pdfplumber_open : list Byte.byte -> result (list page))
    (f : file) (text : string) (f' : file) :
  _extract_with_pdfplumber pdfplumber_open f = Ok ((true, text, None), f') →
  ∃ pages sel,
    pdfplumber_open (drop (pos f) (data f)) = Ok pages ∧
    sel = pages_with_text 0 (take max_pages pages) ∧
    text = str_join nl (block_of <$> sel) ∧
    StronglySorted lt sel.*1 ∧
    (∀ n t, (n, t) ∈ sel →
       n < max_pages ∧ pages !! n = Some (Ok (Some t)) ∧ t ≠ "") ∧
    length sel ≤ max_pages ∧
    length sel
      = length (filter (fun p => extractable p = true) (take max_pages pages)) ∧
    (Forall (fun p => extractable p = true) (take max_pages pages) →
     length sel = length pages `min` max_pages) ∧
    count_markers text = length sel + sum_list (count_markers <$> sel.*2) ∧
    (Forall (fun nt => count_markers nt.2 = 0) sel →
     count_markers text = length sel ∧
     (Forall (fun p => extractable p = true) (take max_pages pages) →
      count_markers text = length pages `min` max_pages)).
Proof.
  unfold _extract_with_pdfplumber, extract_with, read.
  destruct (closed f); simpl; [done |].
  destruct (pdfplumber_open _) as [pages|e] eqn:Hopen; simpl; [| done].
  destruct (_ <? _); simpl; [done |]. intros [= <- <-].
  exists pages, (pages_with_text 0 (take max_pages pages)).
  split; [done |]. split; [done |].
  split; [unfold join_pages; by rewrite extract_pages_eq |].
  split; [apply pages_with_text_sorted |].
  assert (Hlen : length (pages_with_text 0 (take max_pages pages))
          = length (filter (fun p => extractable p = true) (take max_pages pages)))
    by apply pages_with_text_length.
  assert (Hsel : ∀ n t, (n, t) ∈ pages_with_text 0 (take max_pages pages) →
            n < max_pages ∧ pages !! n = Some (Ok (Some t)) ∧ t ≠ "").
  { intros n t (_ & Hl & Hne)%pages_with_text_lookup.
    rewrite Nat.sub_0_r in Hl. apply lookup_take_Some in Hl as [Hl Hn]. done. }
  assert (Hall : Forall (fun p => extractable p = true) (take max_pages pages) →
            length (pages_with_text 0 (take max_pages pages))
              = length pages `min` max_pages).
  { intros Hall. rewrite Hlen, filter_all by done.
    rewrite length_take. lia. }
  assert (Hcount : count_markers (join_pages pages)
            = length (pages_with_text 0 (take max_pages pages))
              + sum_list (count_markers <$> (pages_with_text 0 (take max_pages pages)).*2)).
  { unfold join_pages. rewrite extract_pages_eq. apply count_markers_blocks.
    apply Forall_forall. intros [n t] Hin. by apply Hsel in Hin as [Hn _]. }
  split; [done |]. split; [| split; [done |]].
  { rewrite Hlen. etrans; [apply length_filter |].
    rewrite length_take. lia. }
  split; [done |]. split; [done |].
  intros Hclean.
  assert (Hzero : sum_list (count_markers <$> (pages_with_text 0 (take max_pages pages)).*2) = 0).
  { clear -Hclean. induction Hclean as [|[n t] sel Ht _ IH]; [done |].
    csimpl in *. by rewrite Ht, IH. }
  rewrite Hcount, Hzero, Nat.add_0_r. split; [done |]. exact Hall.
Qed.

Definition two_pages : list page :=
  [Ok (Some "Rent: $1200"); Ok (Some "Deposit: $2400")].

Lemma page_markers_of_success_witness :
  ∃ pages sel,
    Ok two_pages = Ok pages ∧
    sel = pages_with_text 0 (take max_pages pages) ∧
    join_pages two_pages = str_join nl (block_of <$> sel) ∧
    StronglySorted lt sel.*1 ∧
    (∀ n t, (n, t) ∈ sel →
       n < max_pages ∧ pages !! n = Some (Ok (Some t)) ∧ t ≠ "") ∧
    length sel ≤ max_pages ∧
    length sel
      = length (filter (fun p => extractable p = true) (take max_pages pages)) ∧
    (Forall (fun p => extractable p = true) (take max_pages pages) →
     length sel = length pages `min` max_pages) ∧
    count_markers (join_pages two_pages)
      = length sel + sum_list (count_markers <$> sel.*2) ∧
    (Forall (fun nt => count_markers nt.2 = 0) sel →
     count_markers (join_pages two_pages) = length sel ∧
     (Forall (fun p => extractable p = true) (take max_pages pages) →
      count_markers (join_pages two_pages) = length pages `min` max_pages)).
Proof.
  apply (page_markers_of_success (fun _ => Ok two_pages) (upload [])
           (join_pages two_pages) (after_read (upload []))).
  reflexivity.
Defined.

(** A page whose own text is a marker line: the returned text has two
    occurrences of the marker prefix for one page. *)
Example marker_inside_page_text :
  ∃ text f',
    _extract_with_pdfplumber (fun _ => Ok [Ok (Some "--- Page 7 ---")]) (upload [])
      = Ok ((true, text, None), f') ∧
    count_markers text = 2.
Proof. eexists _, _. split; [reflexivity |]. vm_compute. reflexivity. Qed.

End PdfProps.

(** ** Response parsing: the brace search and the reference decoder *)

Module ReProps.
Import Re.

Fixpoint has_char (c : ascii) (s : string) : bool :=
  match s with
  | EmptyString => false
  | String x s' => Ascii.eqb x c || has_char c s'
  end.

Lemma after_open_split s rest :
  after_open s = Some rest →
  ∃ pre, s = pre +:+ String "{" rest ∧ has_char "{" pre = false.
Proof.
  revert rest. induction s as [|c s IH]; intros rest; simpl; [done |].
  destruct (Ascii.eqb c "{") eqn:Hc.
  - intros [= ->]. apply Ascii.eqb_eq in Hc as ->. by exists "".
  - intros (pre & -> & Hpre)%IH. exists (String c pre). split; [done |].
    cbn [has_char]. by rewrite Hc.
Qed.

Lemma after_open_none s : after_open s = None → has_char "{" s = false.
Proof.
  induction s as [|c s IH]; simpl; [done |].
  destruct (Ascii.eqb c "{") eqn:Hc; [done |].
  intros H. by apply IH.
Qed.

Lemma upto_close_none s : upto_close s = None → has_char "}" s = false.
Proof.
  induction s as [|c s IH]; simpl; [done |].
  destruct (upto_close s); [done |].
  destruct (Ascii.eqb c "}") eqn:Hc; [done |].
  intros _. by apply IH.
Qed.

Lemma upto_close_split s p :
  upto_close s = Some p →
  ∃ body post, p = body +:+ "}" ∧ s = p +:+ post ∧ has_char "}" post = false.
Proof.
  revert p. induction s as [|c s IH]; intros p; simpl; [done |].
  destruct (upto_close s) as [p'|] eqn:Hs.
  - intros [= <-]. destruct (IH p' eq_refl) as (body & post & -> & -> & Hpost).
    exists (String c body), post. done.
  - destruct (Ascii.eqb c "}") eqn:Hc; [| done].
    intros [= <-]. apply Ascii.eqb_eq in Hc as ->.
    exists "", s. repeat split. by apply upto_close_none.
Qed.

(** The span found is the one [re.search] returns: it starts at the
    first opening brace of the text and ends at its last closing brace. *)
Lemma search_braces_some s m :
  search_braces s = Some m →
  ∃ pre body post,
    s = pre +:+ m +:+ post ∧ m = String "{" (body +:+ "}") ∧
    has_char "{" pre = false ∧ has_char "}" post = false.
Proof.
  unfold search_braces.
  destruct (after_open s) as [rest|] eqn:Ho; simpl; [| done].
  destruct (upto_close rest) as [p|] eqn:Hc; simpl; [| done].
  intros [= <-].
  apply after_open_split in Ho as (pre & -> & Hpre).
  apply upto_close_split in Hc as (body & post & -> & -> & Hpost).
  exists pre, body, post. done.
Qed.

(** No span: the text has no opening brace, or no closing brace after
    the first opening one. *)
Lemma search_braces_none s :
  search_braces s = None →
  has_char "{" s = false ∨
  ∃ pre rest, s = pre +:+ String "{" rest ∧ has_char "}" rest = false.
Proof.
  unfold search_braces.
  destruct (after_open s) as [rest|] eqn:Ho; simpl.
  - destruct (upto_close rest) eqn:Hc; simpl; [done |]. intros _. right.
    apply after_open_split in Ho as (pre & -> & _).
    exists pre, rest. split; [done | by apply upto_close_none].
  - intros _. left. by apply after_open_none.
Qed.

Lemma search_braces_open s m :
  search_braces s = Some m → ∃ p, m = String "{" p.
Proof. intros (_ & body & _ & _ & -> & _)%search_braces_some. eauto. Qed.

End ReProps.

Module JsonRefProps.
Import JsonRef.

Lemma members_dict fuel acc s v rest :
  members fuel acc s = Some (v, rest) → ∃ d, v = PDict d.
Proof.
  revert acc s. induction fuel as [|fuel IH]; intros acc s; simpl; [done |].
  destruct (skip_ws s) as [|q s']; [done |].
  destruct (nat_of_ascii q =? 34)%nat; [| done].
  destruct (string_body s') as [[key r]|]; simpl; [| done].
  repeat case_match; try done.
  destruct (value fuel _) as [[v0 r0]|]; simpl; [| done].
  repeat case_match; try done.
  - intros [= <- <-]. eauto.
  - apply IH.
Qed.

Lemma value_object fuel s v rest :
  value fuel (String "{" s) = Some (v, rest) → ∃ d, v = PDict d.
Proof.
  destruct fuel as [|fuel]; simpl; [done |].
  repeat case_match; try (by intros ?%members_dict).
  intros [= <- <-]. eauto.
Qed.

(** On a text that starts with an opening brace the decoder yields an
    object or raises, as [json.loads] does. *)
Lemma json_loads_object s v :
  json_loads (String "{" s) = Ok v → ∃ d, v = PDict d.
Proof.
  unfold json_loads.
  destruct (value _ _) as [[v' rest]|] eqn:Hv; [| done].
  destruct (skip_ws rest); [| done]. intros [= <-].
  by apply value_object in Hv.
Qed.

End JsonRefProps.

(** ** Analysis and question answering *)

Module AnalyzerProps.
Import Analyzer.

Lemma bind_Ok {A B} (a : A) (f : A -> result B) : Ok a ≫= f = f a.
Proof. reflexivity. Qed.

Lemma bind_Raise {A B} (e : exn) (f : A -> result B) : Raise e ≫= f = Raise e.
Proof. reflexivity. Qed.

Lemma handled_returns {A} (body : result A) (h : exn -> A) :
  ∃ a, try_except body except_Exception (fun e => mret (h e)) = Ok a.
Proof. destruct body; simpl; eauto. Qed.

(** [d] with [field] set to [default] when it has no such key. *)
Definition with_default (field : string) (default : pyval)
    (d : list (string * pyval)) : list (string * pyval) :=
  if dict_has field d then d else (d ++ [(field, default)])%list.

Lemma dict_set_absent k v d :
  dict_get k d = None → dict_set k v d = (d ++ [(k, v)])%list.
Proof.
  induction d as [|[k' v'] d IH]; simpl; [done |].
  destruct (String.eqb k' k); [done |]. intros H. by rewrite IH.
Qed.

Lemma dict_get_app k d d' :
  dict_get k (d ++ d') =
  match dict_get k d with
  | Some v => Some v
  | None => dict_get k d'
  end.
Proof.
  induction d as [|[k' v'] d IH]; simpl; [done |].
  by destruct (String.eqb k' k).
Qed.

Lemma dict_get_with_default k field default d :
  dict_get k (with_default field default d) =
  match dict_get k d with
  | Some v => Some v
  | None => if String.eqb field k then Some default else None
  end.
Proof.
  unfold with_default, dict_has.
  destruct (dict_get field d) as [x|] eqn:Hf.
  - destruct (dict_get k d) eqn:Hk; [done |].
    destruct (String.eqb field k) eqn:He; [| done].
    apply String.eqb_eq in He as ->. congruence.
  - rewrite dict_get_app. simpl. by destruct (dict_get k d).
Qed.

Lemma with_default_extends field default d :
  ∃ extra, with_default field default d = (d ++ extra)%list.
Proof.
  unfold with_default. destruct (dict_has field d).
  - exists []. by rewrite app_nil_r.
  - eauto.
Qed.

Lemma set_missing_dict field default d :
  set_missing field default (PDict d) = Ok (PDict (with_default field default d)).
Proof.
  unfold set_missing, with_default. simpl. unfold dict_has.
  destruct (dict_get field d) eqn:Hf; simpl; [done |].
  by rewrite dict_set_absent.
Qed.

(** The decoded object after the loop over [required_fields]. *)
Definition validated (d : list (string * pyval)) : list (string * pyval) :=
  with_default "warnings" (PList [])
    (with_default "key_points" (PList [])
       (with_default "summary" (PList []) d)).

Lemma validate_required_dict d :
  validate_required required_fields (PDict d) = Ok (PDict (validated d)).
Proof.
  unfold required_fields, validated. cbn [validate_required].
  rewrite set_missing_dict. simpl. rewrite set_missing_dict. simpl.
  by rewrite set_missing_dict.
Qed.

Definition is_required (k : string) : bool :=
  String.eqb "summary" k || String.eqb "key_points" k || String.eqb "warnings" k.

Lemma dict_get_validated k d :
  dict_get k (validated d) =
  match dict_get k d with
  | Some v => Some v
  | None => if is_required k then Some (PList []) else None
  end.
Proof.
  unfold validated, is_required. rewrite !dict_get_with_default.
  destruct (dict_get k d); [done |].
  by destruct (String.eqb "summary" k), (String.eqb "key_points" k),
    (String.eqb "warnings" k).
Qed.

Lemma validated_extends d : ∃ extra, validated d = (d ++ extra)%list.
Proof.
  unfold validated.
  destruct (with_default_extends "summary" (PList []) d) as [e1 ->].
  destruct (with_default_extends "key_points" (PList []) (d ++ e1)) as [e2 ->].
  destruct (with_default_extends "warnings" (PList []) ((d ++ e1) ++ e2))
    as [e3 ->].
  exists (e1 ++ e2 ++ e3)%list. by rewrite <- !app_assoc.
Qed.

(** The object after the three defaults of [_parse_qa_response]. *)
Definition answered (text : string) (d : list (string * pyval))
    : list (string * pyval) :=
  with_default "confidence" (PStr "medium")
    (with_default "source_section" PNone
       (with_default "answer" (PStr text) d)).

Lemma dict_get_answered k text d :
  dict_get k (answered text d) =
  match dict_get k d with
  | Some v => Some v
  | None =>
      if String.eqb "answer" k then Some (PStr text)
      else if String.eqb "source_section" k then Some PNone
      else if String.eqb "confidence" k then Some (PStr "medium")
      else None
  end.
Proof.
  unfold answered. rewrite !dict_get_with_default.
  destruct (dict_get k d); [done |].
  by destruct (String.eqb "answer" k), (String.eqb "source_section" k).
Qed.

Definition has_keys (keys : list string) (v : pyval) : Prop :=
  ∃ d, v = PDict d ∧ Forall (fun k => dict_has k d = true) keys.

Definition analysis_keys : list string := ["summary"; "key_points"; "warnings"].
Definition answer_keys : list string := ["answer"; "source_section"; "confidence"].

Lemma has_keys_validated d : has_keys analysis_keys (PDict (validated d)).
Proof.
  exists (validated d). split; [done |].
  repeat constructor; unfold dict_has; rewrite dict_get_validated;
    by destruct (dict_get _ d).
Qed.

Lemma has_keys_answered text d : has_keys answer_keys (PDict (answered text d)).
Proof.
  exists (answered text d). split; [done |].
  repeat constructor; unfold dict_has; rewrite dict_get_answered;
    by destruct (dict_get _ d).
Qed.

Lemma has_keys_fallback text : has_keys analysis_keys (_fallback_parse_analysis text).
Proof. eexists. split; [reflexivity |]. by repeat constructor. Qed.

Lemma has_keys_analysis_failed e : has_keys analysis_keys (analysis_failed e).
Proof. eexists. split; [reflexivity |]. by repeat constructor. Qed.

Lemma has_keys_qa_fallback text c : has_keys answer_keys (qa_fallback text c).
Proof. eexists. split; [reflexivity |]. by repeat constructor. Qed.

Lemma has_keys_answer_failed e : has_keys answer_keys (answer_failed e).
Proof. eexists. split; [reflexivity |]. by repeat constructor. Qed.

Create HintDb keys.
#[local] Hint Resolve has_keys_validated has_keys_answered has_keys_fallback
  has_keys_analysis_failed has_keys_qa_fallback has_keys_answer_failed : keys.

Lemma str_or_not (v : pyval) : (∃ s, v = PStr s) ∨ (∀ s, v ≠ PStr s).
Proof. destruct v; eauto. Qed.

Lemma suffix_nonempty (a b : string) : b ≠ "" → a +:+ b ≠ "".
Proof. destruct a; simpl; [done | discriminate]. Qed.

(** The response text the two operations hand to their parsers: the
    text of the oracle, or the canned one when no key is configured. *)
Definition raw_analysis (requests_post : string -> string -> result response)
    (a : analyzer) (text : string) (filename : option string) : result pyval :=
  if use_gemini_api a
  then _call_gemini_api requests_post a
         (analysis_prompt (str_take prompt_chars text) (or_document filename))
  else mret (PStr (mock_analysis text)).

Definition raw_answer (requests_post : string -> string -> result response)
    (a : analyzer) (document_text question : string) : result pyval :=
  if use_gemini_api a
  then _call_gemini_api requests_post a
         (qa_prompt (str_take prompt_chars document_text) question)
  else mret (PStr (mock_answer document_text question)).

Section Engine.

Variable json_loads : string -> result pyval.
Variable requests_post : string -> string -> result response.

Lemma analyze_document_eq a text filename :
  analyze_document json_loads requests_post a text filename =
  try_except
    (raw_analysis requests_post a text filename
       ≫= _parse_analysis_response json_loads)
    except_Exception (fun e => mret (analysis_failed e)).
Proof. reflexivity. Qed.

Lemma answer_question_eq a document_text question :
  answer_question json_loads requests_post a document_text question =
  try_except
    (raw_answer requests_post a document_text question
       ≫= _parse_qa_response json_loads)
    except_Exception (fun e => mret (answer_failed e)).
Proof. reflexivity. Qed.

(** [_call_gemini_api] never raises: every failure becomes a text. *)
Lemma call_gemini_api_returns a prompt :
  ∃ v, _call_gemini_api requests_post a prompt = Ok v.
Proof.
  unfold _call_gemini_api.
  apply (handled_returns _ (fun e => PStr ("Error: " +:+ exn_str e))).
Qed.

Lemma raw_analysis_returns a text filename :
  ∃ v, raw_analysis requests_post a text filename = Ok v.
Proof.
  unfold raw_analysis. destruct (use_gemini_api a); [| by eexists].
  apply call_gemini_api_returns.
Qed.

Lemma raw_answer_returns a document_text question :
  ∃ v, raw_answer requests_post a document_text question = Ok v.
Proof.
  unfold raw_answer. destruct (use_gemini_api a); [| by eexists].
  apply call_gemini_api_returns.
Qed.

(** The four ways through [_parse_analysis_response] on a string. *)
Lemma parse_analysis_no_span text :
  Re.search_braces text = None →
  _parse_analysis_response json_loads (PStr text)
    = Ok (_fallback_parse_analysis text).
Proof. intros H. unfold _parse_analysis_response. by rewrite H. Qed.

Lemma parse_analysis_decoded text span d :
  Re.search_braces text = Some span → json_loads span = Ok (PDict d) →
  _parse_analysis_response json_loads (PStr text) = Ok (PDict (validated d)).
Proof.
  intros Hs Hd. unfold _parse_analysis_response.
  by rewrite Hs, Hd, bind_Ok, validate_required_dict.
Qed.

Lemma parse_analysis_undecodable text span e :
  Re.search_braces text = Some span → json_loads span = Raise e →
  except_JSONDecodeError e = true →
  _parse_analysis_response json_loads (PStr text)
    = Ok (_fallback_parse_analysis text).
Proof.
  intros Hs Hd He. unfold _parse_analysis_response. rewrite Hs, Hd. simpl.
  by rewrite He.
Qed.

Lemma parse_analysis_escapes text span e :
  Re.search_braces text = Some span → json_loads span = Raise e →
  except_JSONDecodeError e = false →
  _parse_analysis_response json_loads (PStr text) = Raise e.
Proof.
  intros Hs Hd He. unfold _parse_analysis_response. rewrite Hs, Hd. simpl.
  by rewrite He.
Qed.

(** The same for [_parse_qa_response]. *)
Lemma parse_qa_no_span text :
  Re.search_braces text = None →
  _parse_qa_response json_loads (PStr text) = Ok (qa_fallback text "medium").
Proof. intros H. unfold _parse_qa_response. by rewrite H. Qed.

Lemma parse_qa_decoded text span d :
  Re.search_braces text = Some span → json_loads span = Ok (PDict d) →
  _parse_qa_response json_loads (PStr text) = Ok (PDict (answered text d)).
Proof.
  intros Hs Hd. unfold _parse_qa_response.
  by rewrite Hs, Hd, bind_Ok, set_missing_dict, bind_Ok, set_missing_dict,
    bind_Ok, set_missing_dict.
Qed.

Lemma parse_qa_undecodable text span e :
  Re.search_braces text = Some span → json_loads span = Raise e →
  except_JSONDecodeError e = true →
  _parse_qa_response json_loads (PStr text) = Ok (qa_fallback text "low").
Proof.
  intros Hs Hd He. unfold _parse_qa_response. rewrite Hs, Hd. simpl.
  by rewrite He.
Qed.

Lemma parse_qa_escapes text span e :
  Re.search_braces text = Some span → json_loads span = Raise e →
  except_JSONDecodeError e = false →
  _parse_qa_response json_loads (PStr text) = Raise e.
Proof.
  intros Hs Hd He. unfold _parse_qa_response. rewrite Hs, Hd. simpl.
  by rewrite He.
Qed.

Lemma parse_not_a_string v :
  (∀ s, v ≠ PStr s) →
  _parse_analysis_response json_loads v = Raise (Re.not_a_string v) ∧
  _parse_qa_response json_loads v = Raise (Re.not_a_string v).
Proof. intros Hv. destruct v; try done. by destruct (Hv s). Qed.

(** The ways through [analyze_document] and [answer_question], by the
    response text [v] handed to the parser. *)
Inductive analysis_path (v : pyval) : pyval -> Prop :=
| AnalysisNotString :
    (∀ s, v ≠ PStr s) →
    analysis_path v (analysis_failed (Re.not_a_string v))
| AnalysisNoSpan raw :
    v = PStr raw → Re.search_braces raw = None →
    analysis_path v (_fallback_parse_analysis raw)
| AnalysisDecoded raw span d :
    v = PStr raw → Re.search_braces raw = Some span →
    json_loads span = Ok (PDict d) →
    analysis_path v (PDict (validated d))
| AnalysisUndecodable raw span e :
    v = PStr raw → Re.search_braces raw = Some span →
    json_loads span = Raise e → except_JSONDecodeError e = true →
    analysis_path v (_fallback_parse_analysis raw)
| AnalysisEscapes raw span e :
    v = PStr raw → Re.search_braces raw = Some span →
    json_loads span = Raise e → except_JSONDecodeError e = false →
    analysis_path v (analysis_failed e).

Inductive answer_path (v : pyval) : pyval -> Prop :=
| AnswerNotString :
    (∀ s, v ≠ PStr s) →
    answer_path v (answer_failed (Re.not_a_string v))
| AnswerNoSpan raw :
    v = PStr raw → Re.search_braces raw = None →
    answer_path v (qa_fallback raw "medium")
| AnswerDecoded raw span d :
    v = PStr raw → Re.search_braces raw = Some span →
    json_loads span = Ok (PDict d) →
    answer_path v (PDict (answered raw d))
| AnswerUndecodable raw span e :
    v = PStr raw → Re.search_braces raw = Some span →
    json_loads span = Raise e → except_JSONDecodeError e = true →
    answer_path v (qa_fallback raw "low")
| AnswerEscapes raw span e :
    v = PStr raw → Re.search_braces raw = Some span →
    json_loads span = Raise e → except_JSONDecodeError e = false →
    answer_path v (answer_failed e).

Lemma analysis_path_keys v r : analysis_path v r → has_keys analysis_keys r.
Proof. destruct 1; auto with keys. Qed.

Lemma answer_path_keys v r : answer_path v r → has_keys answer_keys r.
Proof. destruct 1; auto with keys. Qed.

(** Closes a goal [∃ r, Ok x = Ok r ∧ path v r] with the constructor
    of the way taken. *)
Local Ltac took way :=
  eexists; split; [done |]; split; [reflexivity |]; by eapply way.

(** [json.loads] on a text that starts with an opening brace returns an
    object when it returns. *)
Hypothesis json_object :
  ∀ s v, json_loads (String "{" s) = Ok v → ∃ d, v = PDict d.

Lemma analyze_document_path a text filename :
  ∃ v r, raw_analysis requests_post a text filename = Ok v ∧
         analyze_document json_loads requests_post a text filename = Ok r ∧
         analysis_path v r.
Proof.
  destruct (raw_analysis_returns a text filename) as [v Hv].
  exists v. rewrite analyze_document_eq, Hv, bind_Ok.
  destruct (str_or_not v) as [[raw ->]|Hv'].
  - destruct (Re.search_braces raw) as [span|] eqn:Hs.
    + destruct (json_loads span) as [res|e] eqn:Hd.
      * destruct (ReProps.search_braces_open _ _ Hs) as [p ->].
        destruct (json_object _ _ Hd) as [d ->].
        rewrite (parse_analysis_decoded _ _ _ Hs Hd).
        took AnalysisDecoded.
      * destruct (except_JSONDecodeError e) eqn:He.
        -- rewrite (parse_analysis_undecodable _ _ _ Hs Hd He).
           took AnalysisUndecodable.
        -- rewrite (parse_analysis_escapes _ _ _ Hs Hd He).
           took AnalysisEscapes.
    + rewrite (parse_analysis_no_span _ Hs).
      took AnalysisNoSpan.
  - destruct (parse_not_a_string v Hv') as [-> _].
    took AnalysisNotString.
Qed.

Lemma answer_question_path a document_text question :
  ∃ v r, raw_answer requests_post a document_text question = Ok v ∧
         answer_question json_loads requests_post a document_text question = Ok r ∧
         answer_path v r.
Proof.
  destruct (raw_answer_returns a document_text question) as [v Hv].
  exists v. rewrite answer_question_eq, Hv, bind_Ok.
  destruct (str_or_not v) as [[raw ->]|Hv'].
  - destruct (Re.search_braces raw) as [span|] eqn:Hs.
    + destruct (json_loads span) as [res|e] eqn:Hd.
      * destruct (ReProps.search_braces_open _ _ Hs) as [p ->].
        destruct (json_object _ _ Hd) as [d ->].
        rewrite (parse_qa_decoded _ _ _ Hs Hd).
        took AnswerDecoded.
      * destruct (except_JSONDecodeError e) eqn:He.
        -- rewrite (parse_qa_undecodable _ _ _ Hs Hd He).
           took AnswerUndecodable.
        -- rewrite (parse_qa_escapes _ _ _ Hs Hd He).
           took AnswerEscapes.
    + rewrite (parse_qa_no_span _ Hs).
      took AnswerNoSpan.
  - destruct (parse_not_a_string v Hv') as [_ ->].
    took AnswerNotString.
Qed.

(** X29: whatever the oracle does, [analyze_document] and
    [answer_question] return a dictionary that has the three keys of
    the operation, and never raise; the result is fixed by the response
    text along one of the five ways of [analysis_path] and
    [answer_path]. *)
Theorem analyzer_never_raises a text filename question :
  (∃ v r, raw_analysis requests_post a text filename = Ok v ∧
          analyze_document json_loads requests_post a text filename = Ok r ∧
          analysis_path v r ∧ has_keys analysis_keys r) ∧
  (∃ v r, raw_answer requests_post a text question = Ok v ∧
          answer_question json_loads requests_post a text question = Ok r ∧
          answer_path v r ∧ has_keys answer_keys r).
Proof.
  split.
  - destruct (analyze_document_path a text filename) as (v & r & Hv & Hr & Hp).
    exists v, r. eauto using analysis_path_keys.
  - destruct (answer_question_path a text question) as (v & r & Hv & Hr & Hp).
    exists v, r. eauto using answer_path_keys.
Qed.

(** C5, as amended: when the response text has no brace span the answer
    is the text with confidence ["medium"]; when a span is found and
    [json.loads] raises [JSONDecodeError] on it the answer is the text
    with confidence ["low"]. *)
Theorem answer_without_decoded_object a document_text question raw :
  raw_answer requests_post a document_text question = Ok (PStr raw) →
  match Re.search_braces raw with
  | None => True
  | Some span => ∃ e, json_loads span = Raise e ∧ exn_class e = JSONDecodeError
  end →
  answer_question json_loads requests_post a document_text question =
  Ok (PDict [("answer", PStr raw);
             ("source_section", PNone);
             ("confidence",
              PStr match Re.search_braces raw with
                   | None => "medium"
                   | Some _ => "low"
                   end)]).
Proof.
  intros Hraw Hcase. rewrite answer_question_eq, Hraw, bind_Ok.
  destruct (Re.search_braces raw) as [span|] eqn:Hs.
  - destruct Hcase as (e & Hd & Hc).
    rewrite (parse_qa_undecodable _ _ e Hs Hd); [done |].
    unfold except_JSONDecodeError. by rewrite Hc.
  - by rewrite (parse_qa_no_span _ Hs).
Qed.

(** C6, as amended: when the response text has no brace span,
    [analyze_document] returns the text as summary, cut to 500
    characters and ["..."] when it is longer, with three fixed key
    points and two fixed warnings; the summary is empty exactly when the
    response text is empty. *)
Theorem analysis_without_span a text filename raw :
  raw_analysis requests_post a text filename = Ok (PStr raw) →
  Re.search_braces raw = None →
  ∃ summary key_points warnings,
    analyze_document json_loads requests_post a text filename =
      Ok (PDict [("summary", PStr summary);
                 ("key_points", PList key_points);
                 ("warnings", PList warnings)]) ∧
    summary = (if (500 <? String.length raw)%nat
               then str_take 500 raw +:+ "..." else raw) ∧
    (summary = "" ↔ raw = "") ∧
    length key_points = 3 ∧ length warnings = 2.
Proof.
  intros Hraw Hs. rewrite analyze_document_eq, Hraw, bind_Ok.
  rewrite (parse_analysis_no_span _ Hs).
  eexists _, _, _. split; [reflexivity |]. split; [reflexivity |].
  split; [| done].
  destruct (500 <? String.length raw)%nat eqn:Hlen; [| done].
  split.
  - intros H. by apply suffix_nonempty in H.
  - intros ->. done.
Qed.

(** C9, as amended: [answer_question] always returns a [confidence];
    it is ["medium"] or ["low"] except when the decoded object has a
    [confidence] key, whose value is returned as it is. *)
Theorem answer_confidence_values a document_text question :
  ∃ d c,
    answer_question json_loads requests_post a document_text question
      = Ok (PDict d) ∧
    dict_get "confidence" d = Some c ∧
    (c = PStr "medium" ∨ c = PStr "low" ∨
     ∃ raw span d0,
       raw_answer requests_post a document_text question = Ok (PStr raw) ∧
       Re.search_braces raw = Some span ∧
       json_loads span = Ok (PDict d0) ∧
       dict_get "confidence" d0 = Some c).
Proof.
  destruct (answer_question_path a document_text question)
    as (v & r & Hraw & -> & Hp).
  destruct Hp as [Hv|raw -> Hs|raw span d0 -> Hs Hd|raw span e -> Hs Hd He
                  |raw span e -> Hs Hd He].
  - eexists _, _. split; [reflexivity |]. split; [reflexivity |]. auto.
  - eexists _, _. split; [reflexivity |]. split; [reflexivity |]. auto.
  - destruct (dict_get "confidence" d0) as [c|] eqn:Hc.
    + exists (answered raw d0), c. split; [done |].
      rewrite dict_get_answered, Hc. split; [done |].
      right; right. by exists raw, span, d0.
    + exists (answered raw d0), (PStr "medium"). split; [done |].
      rewrite dict_get_answered, Hc. split; [done |]. auto.
  - eexists _, _. split; [reflexivity |]. split; [reflexivity |]. auto.
  - eexists _, _. split; [reflexivity |]. split; [reflexivity |]. auto.
Qed.

End Engine.

(** Concrete oracles, and an analyzer with a key. *)
Definition timeout_post : string -> string -> result response :=
  fun _ _ => Raise (Exn Timeout "Read timed out.").

Definition gemini_payload (text : pyval) : pyval :=
  PDict [("candidates",
          PList [PDict [("content",
                         PDict [("parts", PList [PDict [("text", text)]])])]])].

Definition gemini_reply (text : pyval) : string -> string -> result response :=
  fun _ _ => Ok {| status_code := 200; response_json := Ok (gemini_payload text) |}.

Definition with_key : analyzer := init (Some "secret").

(** C1, at the failing input: the analyzer has a key and the oracle
    call times out. Both operations return, but not through their own
    handlers of a failure ([analysis_failed], [answer_failed]): the
    message of the failure comes back as the summary, beside the key
    points of a completed analysis, and as the answer with confidence
    ["medium"], and neither result has the [error] field that the
    handlers set and that the question endpoint looks for. *)
Theorem oracle_failure_without_error_field :
  ∃ d q,
    analyze_document JsonRef.json_loads timeout_post with_key
      "Rent: $1200" (Some "lease.pdf") = Ok (PDict d) ∧
    d = [("summary", PStr "Error: Read timed out.");
         ("key_points",
          PList [PStr "Document analysis completed";
                 PStr "Please review the full response above";
                 PStr "Contact support if you need clarification"]);
         ("warnings",
          PList [PStr "Analysis format may not be optimal";
                 PStr "Please verify important details independently"])] ∧
    dict_get "error" d = None ∧
    PDict d ≠ analysis_failed (Exn Timeout "Read timed out.") ∧
    answer_question JsonRef.json_loads timeout_post with_key
      "Rent: $1200" "What is the rent?" = Ok (PDict q) ∧
    q = [("answer", PStr "Error: Read timed out.");
         ("source_section", PNone);
         ("confidence", PStr "medium")] ∧
    dict_get "error" q = None ∧
    PDict q ≠ answer_failed (Exn Timeout "Read timed out.").
Proof.
  eexists _, _. split; [vm_compute; reflexivity |].
  split; [reflexivity |]. split; [reflexivity |]. split; [discriminate |].
  split; [vm_compute; reflexivity |].
  split; [reflexivity |]. split; [reflexivity |]. discriminate.
Qed.

(** The handlers of the two operations do set [error]: this is what a
    failure that reaches them gives. *)
Lemma handlers_set_error e :
  (∃ d, analysis_failed e = PDict d ∧ dict_get "error" d = Some (PStr (exn_str e))) ∧
  (∃ q, answer_failed e = PDict q ∧ dict_get "error" q = Some (PStr (exn_str e))).
Proof. split; eexists; split; reflexivity. Qed.

Lemma analyzer_never_raises_witness :
  (∃ v r, raw_analysis timeout_post with_key "Rent: $1200" (Some "lease.pdf")
            = Ok v ∧
          analyze_document JsonRef.json_loads timeout_post with_key
            "Rent: $1200" (Some "lease.pdf") = Ok r ∧
          analysis_path JsonRef.json_loads v r ∧ has_keys analysis_keys r) ∧
  (∃ v r, raw_answer timeout_post with_key "Rent: $1200" "What is the rent?"
            = Ok v ∧
          answer_question JsonRef.json_loads timeout_post with_key
            "Rent: $1200" "What is the rent?" = Ok r ∧
          answer_path JsonRef.json_loads v r ∧ has_keys answer_keys r).
Proof.
  apply (analyzer_never_raises JsonRef.json_loads timeout_post
           JsonRefProps.json_loads_object with_key "Rent: $1200"
           (Some "lease.pdf") "What is the rent?").
Defined.

(** A well-formed object that has key points and warnings, and no
    summary. *)
Definition without_summary : string :=
  "{" +:+ qs "key_points" +:+ ": [" +:+ qs "Rent is due monthly" +:+ "], "
      +:+ qs "warnings" +:+ ": [" +:+ qs "Late fee applies" +:+ "]}".

(** C4, at the failing input: the oracle answers with an object that
    lacks [summary]; the result has [summary] set to the empty list,
    not to the empty string. The keys the oracle gave are kept. *)
Theorem missing_summary_becomes_list :
  analyze_document JsonRef.json_loads (gemini_reply (PStr without_summary))
    with_key "Rent: $1200" (Some "lease.pdf") =
  Ok (PDict [("key_points", PList [PStr "Rent is due monthly"]);
             ("warnings", PList [PStr "Late fee applies"]);
             ("summary", PList [])]).
Proof. vm_compute. reflexivity. Qed.

(** C5, counterexample: a response text without a brace span is
    answered with confidence ["medium"], not ["low"]. *)
Lemma no_span_answer_is_medium :
  Re.search_braces "The rent is $1200." = None ∧
  answer_question JsonRef.json_loads (gemini_reply (PStr "The rent is $1200."))
    with_key "Rent: $1200" "What is the rent?" =
  Ok (PDict [("answer", PStr "The rent is $1200.");
             ("source_section", PNone);
             ("confidence", PStr "medium")]).
Proof. split; vm_compute; reflexivity. Qed.

Lemma answer_without_decoded_object_witness :
  answer_question JsonRef.json_loads (gemini_reply (PStr "{rent: 1200}"))
    with_key "Rent: $1200" "What is the rent?" =
  Ok (PDict [("answer", PStr "{rent: 1200}");
             ("source_section", PNone);
             ("confidence", PStr "low")]).
Proof.
  apply (answer_without_decoded_object JsonRef.json_loads
           (gemini_reply (PStr "{rent: 1200}")) with_key
           "Rent: $1200" "What is the rent?" "{rent: 1200}").
  - reflexivity.
  - exists JsonRef.malformed. split; reflexivity.
Defined.

(** C6, counterexample: the oracle answers with the empty text, which
    has no brace span, and the summary of the result is empty. *)
Lemma empty_response_empty_summary :
  Re.search_braces "" = None ∧
  ∃ d, analyze_document JsonRef.json_loads (gemini_reply (PStr "")) with_key
         "Rent: $1200" (Some "lease.pdf") = Ok (PDict d) ∧
       dict_get "summary" d = Some (PStr "").
Proof.
  split; [reflexivity |]. eexists. split; [vm_compute; reflexivity |].
  reflexivity.
Qed.

Lemma analysis_without_span_witness :
  ∃ summary key_points warnings,
    analyze_document JsonRef.json_loads
      (gemini_reply (PStr "The lease runs for 12 months.")) with_key
      "Rent: $1200" (Some "lease.pdf") =
      Ok (PDict [("summary", PStr summary);
                 ("key_points", PList key_points);
                 ("warnings", PList warnings)]) ∧
    summary = (if (500 <? String.length "The lease runs for 12 months.")%nat
               then str_take 500 "The lease runs for 12 months." +:+ "..."
               else "The lease runs for 12 months.") ∧
    (summary = "" ↔ "The lease runs for 12 months." = "") ∧
    length key_points = 3 ∧ length warnings = 2.
Proof.
  apply (analysis_without_span JsonRef.json_loads
           (gemini_reply (PStr "The lease runs for 12 months.")) with_key
           "Rent: $1200" (Some "lease.pdf")).
  - reflexivity.
  - reflexivity.
Defined.

(** An answer whose confidence is none of the three levels. *)
Definition certain_answer : string :=
  "{" +:+ qs "answer" +:+ ": " +:+ qs "The rent is $1200" +:+ ", "
      +:+ qs "confidence" +:+ ": " +:+ qs "certain" +:+ "}".

(** C9, counterexample: the confidence of the payload is returned
    unchecked. *)
Lemma confidence_is_not_checked :
  ∃ d, answer_question JsonRef.json_loads (gemini_reply (PStr certain_answer))
         with_key "Rent: $1200" "What is the rent?" = Ok (PDict d) ∧
       dict_get "confidence" d = Some (PStr "certain") ∧
       PStr "certain" ≠ PStr "high" ∧ PStr "certain" ≠ PStr "medium" ∧
       PStr "certain" ≠ PStr "low".
Proof.
  eexists. split; [vm_compute; reflexivity |]. split; [reflexivity |].
  repeat split; discriminate.
Qed.

Lemma answer_confidence_values_witness :
  ∃ d c,
    answer_question JsonRef.json_loads (gemini_reply (PStr certain_answer))
      with_key "Rent: $1200" "What is the rent?" = Ok (PDict d) ∧
    dict_get "confidence" d = Some c ∧
    (c = PStr "medium" ∨ c = PStr "low" ∨
     ∃ raw span d0,
       raw_answer (gemini_reply (PStr certain_answer)) with_key
         "Rent: $1200" "What is the rent?" = Ok (PStr raw) ∧
       Re.search_braces raw = Some span ∧
       JsonRef.json_loads span = Ok (PDict d0) ∧
       dict_get "confidence" d0 = Some c).
Proof.
  exact (answer_confidence_values JsonRef.json_loads
           (gemini_reply (PStr certain_answer))
           JsonRefProps.json_loads_object with_key
           "Rent: $1200" "What is the rent?").
Defined.

(** Without a key the analyzer answers from its templates: the summary
    states the length of the text, the answer repeats the question. *)
Example offline_analysis :
  ∃ d, analyze_document JsonRef.json_loads timeout_post (init None)
         "Rent: $1200" (Some "lease.pdf") = Ok (PDict d) ∧
       dict_get "summary" d = Some (PStr "This legal document contains 11 characters of text with various contractual provisions. The document appears to establish terms and conditions between parties, including rights, obligations, and procedures for compliance.") ∧
       (∃ kp, dict_get "key_points" d = Some (PList kp) ∧ length kp = 5) ∧
       dict_get "error" d = None.
Proof.
  eexists. split; [vm_compute; reflexivity |].
  split; [reflexivity |]. split; [| reflexivity].
  eexists. split; reflexivity.
Qed.

Example offline_answer :
  ∃ d answer,
    answer_question JsonRef.json_loads timeout_post (init None)
      "Rent: $1200" "What is the rent?" = Ok (PDict d) ∧
    dict_get "answer" d = Some (PStr answer) ∧
    is_substring "What is the rent?" answer = true ∧
    dict_get "confidence" d = Some (PStr "medium").
Proof.
  eexists _, _. split; [vm_compute; reflexivity |].
  split; [reflexivity |]. split; reflexivity.
Qed.

(** A question with a quotation mark breaks the template of the mode
    without a key: the text is not JSON any more, and comes back as the
    answer with confidence ["low"]. *)
Example offline_answer_quoted_question :
  answer_question JsonRef.json_loads timeout_post (init None)
    "Rent: $1200" (qs "rent" +:+ "?") =
  Ok (qa_fallback (mock_answer "Rent: $1200" (qs "rent" +:+ "?")) "low").
Proof. vm_compute. reflexivity. Qed.

(** A payload without candidates is a text for the parser, too. *)
Example no_candidates :
  analyze_document JsonRef.json_loads
    (fun _ _ => Ok {| status_code := 200; response_json := Ok (PDict []) |})
    with_key "Rent: $1200" None =
  Ok (_fallback_parse_analysis "Error: No response generated").
Proof. vm_compute. reflexivity. Qed.

(** A text part that is not a string is the one oracle behaviour that
    reaches the handler of [analyze_document]. *)
Example text_part_not_a_string :
  analyze_document JsonRef.json_loads (gemini_reply (PInt 7))
    with_key "Rent: $1200" None = Ok (analysis_failed (Re.not_a_string (PInt 7))).
Proof. vm_compute. reflexivity. Qed.

End AnalyzerProps.

(** * The rest of the services *)

(** ** Document store: statistics *)

Module StorageStats.
Import Storage.

(** The dictionary [get_stats] returns. *)
Record stats := Stats {
  total_documents : nat;
  oldest_document : option Z;
  newest_document : option Z
}.

(** [min(xs, default=None)] and [max(xs, default=None)] *)
Definition min_default (xs : list Z) : option Z :=
  match xs with
  | [] => None
  | x :: xs' => Some (foldl Z.min x xs')
  end.

Definition max_default (xs : list Z) : option Z :=
  match xs with
  | [] => None
  | x :: xs' => Some (foldl Z.max x xs')
  end.

(** [doc['created_at'] for doc in self.documents.values()] *)
Definition created_ats (m : gmap string document) : list Z :=
  (fun kv => created_at kv.2) <$> map_to_list m.

Definition get_stats (s : storage) : stats :=
  {| total_documents := size (documents s);
     oldest_document := min_default (created_ats (documents s));
     newest_document := max_default (created_ats (documents s)) |}.

End StorageStats.

Module StorageMore.
Import Storage StorageProps StorageStats.

Lemma with_documents_same s : with_documents s (documents s) = s.
Proof. by destruct s. Qed.

(** X1: a document just stored is served by [get_document] with the
    text and filename given, no analysis, and the store is left as it
    is, for as long as [now] has not passed the expiry. *)
Theorem store_get_roundtrip uuid now0 now1 txt fn s id s' now :
  store_document uuid now0 now1 txt fn s = Ok (id, s') →
  (now ≤ now0 + session_timeout s * 1000000)%Z →
  get_document now id s' =
  (Some {| text := txt; filename := fn; created_at := now1;
           expires_at := now0 + session_timeout s * 1000000;
           analysis_result := None |}, s').
Proof.
  unfold store_document, timedelta_seconds, datetime_add. cbv zeta.
  destruct (decide _); simpl; [| by destruct (decide _)].
  destruct (decide _); simpl; [| done].
  intros [= <- <-] Hnow. unfold get_document. simpl.
  rewrite lookup_insert_eq. simpl.
  destruct (decide _); [lia | done].
Qed.

Lemma store_get_roundtrip_witness :
  get_document 3600000005 "doc"
    (with_documents (init 3600)
       (<["doc" := {| text := "lease"; filename := Some "lease.pdf";
                      created_at := 6; expires_at := 3600000005;
                      analysis_result := None |}]> ∅)) =
  (Some {| text := "lease"; filename := Some "lease.pdf"; created_at := 6;
           expires_at := 5 + session_timeout (init 3600) * 1000000;
           analysis_result := None |},
   with_documents (init 3600)
     (<["doc" := {| text := "lease"; filename := Some "lease.pdf";
                    created_at := 6; expires_at := 3600000005;
                    analysis_result := None |}]> ∅)).
Proof.
  apply (store_get_roundtrip "doc" 5 6 "lease" (Some "lease.pdf") (init 3600)).
  - reflexivity.
  - simpl. lia.
Defined.

(** X2: [store_document] touches no other entry and keeps the timeout;
    with an id that is not in use the store grows by one entry. *)
Theorem store_document_frame uuid now0 now1 txt fn s id s' :
  store_document uuid now0 now1 txt fn s = Ok (id, s') →
  id = uuid ∧
  (∀ k, k ≠ uuid → documents s' !! k = documents s !! k) ∧
  session_timeout s' = session_timeout s ∧
  (documents s !! uuid = None → size (documents s') = S (size (documents s))).
Proof.
  unfold store_document, timedelta_seconds, datetime_add. cbv zeta.
  destruct (decide _); simpl; [| by destruct (decide _)].
  destruct (decide _); simpl; [| done].
  intros [= <- <-]. simpl. repeat split.
  - intros k Hk. by apply lookup_insert_ne.
  - intros Hfresh. by apply map_size_insert_None.
Qed.

Lemma store_document_frame_witness :
  "doc" = "doc" ∧
  (∀ k, k ≠ "doc" →
     documents (with_documents (init 3600)
       (<["doc" := {| text := "lease"; filename := None; created_at := 6;
                      expires_at := 3600000005;
                      analysis_result := None |}]> ∅)) !! k
     = documents (init 3600) !! k) ∧
  session_timeout (with_documents (init 3600)
       (<["doc" := {| text := "lease"; filename := None; created_at := 6;
                      expires_at := 3600000005;
                      analysis_result := None |}]> ∅))
    = session_timeout (init 3600) ∧
  (documents (init 3600) !! "doc" = None →
   size (documents (with_documents (init 3600)
       (<["doc" := {| text := "lease"; filename := None; created_at := 6;
                      expires_at := 3600000005;
                      analysis_result := None |}]> ∅)))
   = S (size (documents (init 3600)))).
Proof.
  apply (store_document_frame "doc" 5 6 "lease" None (init 3600)).
  reflexivity.
Defined.

(** X3: [delete_document] returns [True] exactly when the id is stored;
    afterwards the id is gone, [get_document] finds nothing at any
    time, and every other entry is as before. *)
Theorem delete_document_spec id s :
  ((delete_document id s).1 = true ↔ is_Some (documents s !! id)) ∧
  documents (delete_document id s).2 !! id = None ∧
  (∀ now, (get_document now id (delete_document id s).2).1 = None) ∧
  (∀ k, k ≠ id →
     documents (delete_document id s).2 !! k = documents s !! k) ∧
  ((delete_document id s).1 = false → (delete_document id s).2 = s).
Proof.
  unfold delete_document.
  destruct (documents s !! id) as [d|] eqn:Hd; simpl.
  - split; [split; eauto |]. split; [apply lookup_delete_eq |].
    split; [| split; [| done]].
    + intros now. unfold get_document. simpl. by rewrite lookup_delete_eq.
    + intros k Hk. by apply lookup_delete_ne.
  - split; [split; [done | by intros [? ?]] |]. split; [done |].
    split; [| done].
    intros now. unfold get_document. by rewrite Hd.
Qed.

(** X4: when [update_analysis] returns [False] it has created nothing:
    the id has no entry afterwards (an expired one is removed), and
    every other entry is as before. *)
Theorem update_analysis_refused now id r s s' :
  update_analysis now id r s = (false, s') →
  documents s' !! id = None ∧
  (∀ k, k ≠ id → documents s' !! k = documents s !! k) ∧
  (documents s !! id = None → s' = s).
Proof.
  unfold update_analysis.
  destruct (documents s !! id) as [d|] eqn:Hd.
  - destruct (decide _); [| done]. intros [= <-]. simpl.
    split; [apply lookup_delete_eq |]. split; [| done].
    intros k Hk. by apply lookup_delete_ne.
  - by intros [= <-].
Qed.

Lemma update_analysis_refused_witness :
  documents (update_analysis 3600000001 "doc" PNone boundary_store).2 !! "doc"
    = None ∧
  (∀ k, k ≠ "doc" →
     documents (update_analysis 3600000001 "doc" PNone boundary_store).2 !! k
     = documents boundary_store !! k) ∧
  (documents boundary_store !! "doc" = None →
   (update_analysis 3600000001 "doc" PNone boundary_store).2 = boundary_store).
Proof.
  apply (update_analysis_refused 3600000001 "doc" PNone boundary_store).
  reflexivity.
Defined.

(** X5: the analysis attached by [update_analysis] is what a later
    [get_document] serves, and a second update replaces the first: the
    store after two updates is the store after the second alone. *)
Theorem update_analysis_last_write_wins now now' id r1 r2 s s1 s2 :
  update_analysis now id r1 s = (true, s1) →
  update_analysis now' id r2 s1 = (true, s2) →
  update_analysis now' id r2 s = (true, s2) ∧
  ∃ d, documents s !! id = Some d ∧
       get_document now' id s2 = (Some (set_analysis d r2), s2).
Proof.
  unfold update_analysis.
  destruct (documents s !! id) as [d|] eqn:Hd; [| done].
  destruct (decide (now > _)%Z); [done |]. intros [= <-]. simpl.
  rewrite lookup_insert_eq. simpl.
  destruct (decide (now' > _)%Z) as [|Hnow']; [done |]. intros [= <-].
  unfold with_documents. simpl. rewrite insert_insert_eq.
  split; [done |]. exists d. split; [done |].
  unfold get_document. simpl. rewrite lookup_insert_eq. simpl.
  destruct (decide _); done.
Qed.

Lemma update_analysis_last_write_wins_witness :
  update_analysis 20 "doc" (PStr "second") boundary_store =
    (true, (update_analysis 20 "doc" (PStr "second")
              (update_analysis 10 "doc" (PStr "first") boundary_store).2).2) ∧
  ∃ d, documents boundary_store !! "doc" = Some d ∧
       get_document 20 "doc"
         (update_analysis 20 "doc" (PStr "second")
            (update_analysis 10 "doc" (PStr "first") boundary_store).2).2 =
       (Some (set_analysis d (PStr "second")),
        (update_analysis 20 "doc" (PStr "second")
           (update_analysis 10 "doc" (PStr "first") boundary_store).2).2).
Proof.
  apply (update_analysis_last_write_wins 10 20 "doc" (PStr "first")
           (PStr "second") boundary_store
           (update_analysis 10 "doc" (PStr "first") boundary_store).2);
    reflexivity.
Defined.

(** X6: [get_document] deletes lazily. When it finds nothing, the id has
    no entry afterwards; when it serves a document, the store is
    untouched; other entries are never touched. *)
Theorem get_document_effect now id s :
  ((get_document now id s).1 = None →
   documents (get_document now id s).2 !! id = None) ∧
  (∀ d, (get_document now id s).1 = Some d → (get_document now id s).2 = s) ∧
  (∀ k, k ≠ id →
     documents (get_document now id s).2 !! k = documents s !! k) ∧
  (∀ d, documents s !! id = Some d → (now > expires_at d)%Z →
     S (size (documents (get_document now id s).2)) = size (documents s)).
Proof.
  unfold get_document.
  destruct (documents s !! id) as [d|] eqn:Hd.
  - destruct (decide (now > expires_at d)%Z) as [Hexp|Hexp]; simpl.
    + split; [intros _; apply lookup_delete_eq |]. split; [done |].
      split; [intros k Hk; by apply lookup_delete_ne |].
      intros d' _ _. rewrite map_size_delete_Some by eauto.
      assert (size (documents s) ≠ 0); [| lia].
      intros Hz. apply map_size_empty_iff in Hz. rewrite Hz in Hd.
      by rewrite lookup_empty in Hd.
    + split; [done |]. split; [done |]. split; [done |].
      intros d' [= <-] ?. lia.
  - simpl. split; [done |]. split; [done |]. split; done.
Qed.

Lemma expired_ids_after_cleanup now s :
  expired_ids now (documents (cleanup_expired now s).2) = [].
Proof.
  destruct (expired_ids now (documents (cleanup_expired now s).2))
    as [|k ids] eqn:Hids; [done |].
  assert (Hk : k ∈ expired_ids now (documents (cleanup_expired now s).2))
    by (rewrite Hids; apply elem_of_cons; by left).
  apply elem_of_expired_ids in Hk as (d & Hd & Hexp).
  rewrite cleanup_expired_lookup in Hd.
  destruct (documents s !! k) as [d'|]; [| done].
  destruct (decide (now > expires_at d')%Z); [done |].
  injection Hd as ->. done.
Qed.

(** X7: the eager sweep and the lazy deletion agree. After a sweep at
    [now], every entry left is served by [get_document] at [now]; what
    [get_document] answers at [now] is the same before and after the
    sweep; and a second sweep at [now] removes nothing and changes
    nothing. *)
Theorem cleanup_expired_then_get now s :
  (∀ k d, documents (cleanup_expired now s).2 !! k = Some d →
     get_document now k (cleanup_expired now s).2
       = (Some d, (cleanup_expired now s).2)) ∧
  (∀ k, (get_document now k (cleanup_expired now s).2).1
        = (get_document now k s).1) ∧
  cleanup_expired now (cleanup_expired now s).2
    = (0, (cleanup_expired now s).2).
Proof.
  split; [| split].
  - intros k d Hd. unfold get_document. rewrite Hd.
    rewrite cleanup_expired_lookup in Hd.
    destruct (documents s !! k) as [d'|]; [| done].
    destruct (decide (now > expires_at d')%Z) as [|Hexp]; [done |].
    injection Hd as ->. by rewrite decide_False.
  - intros k. unfold get_document. rewrite cleanup_expired_lookup.
    destruct (documents s !! k) as [d|]; [| done].
    destruct (decide (now > expires_at d)%Z) as [|Hexp]; [done |].
    by rewrite decide_False.
  - unfold cleanup_expired at 1. rewrite expired_ids_after_cleanup.
    cbn [foldl length]. by rewrite with_documents_same.
Qed.

Lemma foldl_min_spec x xs :
  (foldl Z.min x xs ≤ x)%Z ∧
  Forall (fun y => foldl Z.min x xs ≤ y)%Z xs ∧
  foldl Z.min x xs ∈ x :: xs.
Proof.
  revert x. induction xs as [|y xs IH]; intros x; cbn [foldl].
  - split; [lia |]. split; [constructor | by left].
  - destruct (IH (Z.min x y)) as (Hle & Hall & Hin).
    split; [lia |]. split.
    + constructor; [lia | done].
    + apply elem_of_cons in Hin as [Heq|Hin].
      * rewrite Heq. destruct (Z.min_spec x y) as [[_ ->]|[_ ->]].
        -- by left.
        -- right; by left.
      * right; by right.
Qed.

Lemma foldl_max_spec x xs :
  (x ≤ foldl Z.max x xs)%Z ∧
  Forall (fun y => y ≤ foldl Z.max x xs)%Z xs ∧
  foldl Z.max x xs ∈ x :: xs.
Proof.
  revert x. induction xs as [|y xs IH]; intros x; cbn [foldl].
  - split; [lia |]. split; [constructor | by left].
  - destruct (IH (Z.max x y)) as (Hle & Hall & Hin).
    split; [lia |]. split.
    + constructor; [lia | done].
    + apply elem_of_cons in Hin as [Heq|Hin].
      * rewrite Heq. destruct (Z.max_spec x y) as [[_ ->]|[_ ->]].
        -- right; by left.
        -- by left.
      * right; by right.
Qed.

Lemma elem_of_created_ats (m : gmap string document) t :
  t ∈ created_ats m ↔ ∃ k d, m !! k = Some d ∧ created_at d = t.
Proof.
  unfold created_ats. rewrite list_elem_of_fmap. split.
  - intros [[k d] [-> Hin%elem_of_map_to_list]]. eauto.
  - intros (k & d & Hd & <-). exists (k, d).
    split; [done | by apply elem_of_map_to_list].
Qed.

(** X8: [get_stats] counts the entries; the oldest and newest times are
    absent exactly on the empty store, and otherwise they are the
    [created_at] of stored documents that bound every other
    [created_at] from below and from above. *)
Theorem get_stats_spec s :
  total_documents (get_stats s) = size (documents s) ∧
  (oldest_document (get_stats s) = None ↔ documents s = ∅) ∧
  (newest_document (get_stats s) = None ↔ documents s = ∅) ∧
  (∀ lo, oldest_document (get_stats s) = Some lo →
     (∃ k d, documents s !! k = Some d ∧ created_at d = lo) ∧
     ∀ k d, documents s !! k = Some d → (lo ≤ created_at d)%Z) ∧
  (∀ hi, newest_document (get_stats s) = Some hi →
     (∃ k d, documents s !! k = Some d ∧ created_at d = hi) ∧
     ∀ k d, documents s !! k = Some d → (created_at d ≤ hi)%Z).
Proof.
  unfold get_stats; simpl.
  assert (Hnil : created_ats (documents s) = [] ↔ documents s = ∅).
  { unfold created_ats. rewrite <- map_to_list_empty_iff. split.
    - apply fmap_nil_inv.
    - by intros ->. }
  split; [done |].
  split; [| split; [| split]].
  - rewrite <- Hnil. by destruct (created_ats (documents s)).
  - rewrite <- Hnil. by destruct (created_ats (documents s)).
  - intros lo. destruct (created_ats (documents s)) as [|x xs] eqn:Hl; [done |].
    intros [= <-]. destruct (foldl_min_spec x xs) as (Hx & Hall & Hin).
    rewrite <- Hl in Hin. split; [by apply elem_of_created_ats |].
    intros k d Hd.
    assert (Hd' : created_at d ∈ x :: xs)
      by (rewrite <- Hl; apply elem_of_created_ats; eauto).
    apply elem_of_cons in Hd' as [->|Hd']; [done |].
    by apply (proj1 (Forall_forall _ _) Hall).
  - intros hi. destruct (created_ats (documents s)) as [|x xs] eqn:Hl; [done |].
    intros [= <-]. destruct (foldl_max_spec x xs) as (Hx & Hall & Hin).
    rewrite <- Hl in Hin. split; [by apply elem_of_created_ats |].
    intros k d Hd.
    assert (Hd' : created_at d ∈ x :: xs)
      by (rewrite <- Hl; apply elem_of_created_ats; eauto).
    apply elem_of_cons in Hd' as [->|Hd']; [done |].
    by apply (proj1 (Forall_forall _ _) Hall).
Qed.

End StorageMore.

(** ** Text extractor: what both entry points compute *)

Module PdfMore.
Import Pdf PdfProps.
Local Open Scope nat_scope.

Lemma append_cons (x : ascii) (a b : string) :
  String x a +:+ b = String x (a +:+ b).
Proof. reflexivity. Qed.

Lemma append_assoc (a b c : string) : (a +:+ b) +:+ c = a +:+ (b +:+ c).
Proof.
  induction a as [|x a IH]; [done |]. rewrite !append_cons. by f_equal.
Qed.

Lemma length_append (a b : string) :
  String.length (a +:+ b) = String.length a + String.length b.
Proof.
  induction a as [|x a IH]; [done |]. rewrite append_cons. simpl. by f_equal.
Qed.

(** [rstrip] keeps everything up to a character that is not a space. *)
Lemma rstrip_keeps (p : string) (c : ascii) (r : string) :
  is_space c = false →
  String.length p + 1 ≤ String.length (rstrip (p +:+ String c r)).
Proof.
  intros Hc. induction p as [|a p IH].
  - change ("" +:+ String c r) with (String c r). cbn [rstrip].
    destruct (rstrip r); [rewrite Hc |]; simpl; lia.
  - rewrite append_cons. cbn [rstrip].
    destruct (rstrip (p +:+ String c r)) eqn:Hr; simpl in *; lia.
Qed.

(** The text of a non-empty list of blocks starts with a marker. *)
Lemma join_blocks_marker n t (sel : list (nat * string)) :
  ∃ rest, str_join nl (block_of <$> (n, t) :: sel)
          = page_marker n +:+ rest.
Proof.
  rewrite fmap_cons. unfold block_of at 1, page_block. cbn [fst snd str_join].
  destruct (block_of <$> sel).
  - by eexists.
  - eexists. by rewrite append_assoc.
Qed.

(** A text that starts with a marker passes the length threshold
    whatever follows: the marker alone is long enough. *)
Lemma marker_long_enough n rest :
  long_enough (page_marker n +:+ rest) = true.
Proof.
  unfold long_enough, strip, page_marker, min_text_length.
  apply Nat.leb_le.
  change (lstrip (("--- Page " +:+ pretty (n + 1) +:+ " ---") +:+ rest))
    with (("--- Page " +:+ pretty (n + 1) +:+ " ---") +:+ rest).
  replace (("--- Page " +:+ pretty (n + 1) +:+ " ---") +:+ rest)
    with (("--- Page " +:+ pretty (n + 1) +:+ " --") +:+ String "-" rest).
  - etrans; [| apply rstrip_keeps; reflexivity].
    rewrite length_append. simpl. lia.
  - rewrite !append_assoc. reflexivity.
Qed.

Lemma pages_with_text_exists i pages :
  existsb extractable pages = match pages_with_text i pages with
                              | [] => false
                              | _ :: _ => true
                              end.
Proof.
  revert i. induction pages as [|p pages IH]; intros i; simpl; [done |].
  destruct p as [[t|]|e]; simpl; try apply IH.
  destruct (str_truthy t); simpl; [done | apply IH].
Qed.

(** The threshold of [min_text_length] is met exactly when some page
    among the first [max_pages] has text. *)
Lemma long_enough_join_pages pages :
  long_enough (join_pages pages) = existsb extractable (take max_pages pages).
Proof.
  unfold join_pages. rewrite extract_pages_eq.
  rewrite (pages_with_text_exists 0).
  destruct (pages_with_text 0 (take max_pages pages)) as [|[n t] sel].
  - reflexivity.
  - destruct (join_blocks_marker n t sel) as [rest ->].
    apply marker_long_enough.
Qed.

(** One strategy on one buffer: the text, or nothing. *)
Definition attempt (open_pdf : list Byte.byte -> result (list page))
    (bytes : list Byte.byte) : option string :=
  match open_pdf bytes with
  | Ok pages =>
      if existsb extractable (take max_pages pages)
      then Some (join_pages pages) else None
  | Raise _ => None
  end.

(** The first strategy that yields text wins. *)
Definition extracted (pdfplumber_open PdfReader : list Byte.byte -> result (list page))
    (bytes : list Byte.byte) : option string :=
  match attempt pdfplumber_open bytes with
  | Some text => Some text
  | None => attempt PdfReader bytes
  end.

Definition only_images : string :=
  "Document appears to be empty or contains only images".

Section Libraries.

Variable pdfplumber_open : list Byte.byte -> result (list page).
Variable PdfReader : list Byte.byte -> result (list page).

Lemma extract_with_open name open_pdf f :
  closed f = false →
  ∃ r, extract_with name open_pdf f = Ok (r, after_read f) ∧
       match attempt open_pdf (drop (pos f) (data f)) with
       | Some text => r = (true, text, None)
       | None => ∃ msg, r = (false, "", Some msg)
       end.
Proof.
  intros Hopen. unfold extract_with, after_read, read, attempt. rewrite Hopen.
  simpl. destruct (open_pdf _) as [pages|e].
  - rewrite AnalyzerProps.bind_Ok, Nat.ltb_antisym.
    change (min_text_length <=? String.length (strip (join_pages pages)))
      with (long_enough (join_pages pages)).
    rewrite long_enough_join_pages.
    destruct (existsb extractable (take max_pages pages)); simpl; eauto.
  - simpl. eauto.
Qed.

Lemma attempt_long_enough open_pdf bytes text :
  attempt open_pdf bytes = Some text → long_enough text = true.
Proof.
  unfold attempt. destruct (open_pdf bytes) as [pages|e]; [| done].
  destruct (existsb extractable (take max_pages pages)) eqn:Hex; [| done].
  intros [= <-]. by rewrite long_enough_join_pages.
Qed.

Lemma bytes_attempt_eq open_pdf bytes :
  bytes_attempt open_pdf bytes = Ok (attempt open_pdf bytes).
Proof.
  unfold bytes_attempt, attempt. destruct (open_pdf bytes) as [pages|e]; [| done].
  rewrite AnalyzerProps.bind_Ok, long_enough_join_pages.
  by destruct (existsb extractable (take max_pages pages)).
Qed.

(** X9: on an upload whose stream is open, one strategy succeeds exactly
    when some page among the first 50 has text: the marker of the first
    block alone passes the threshold of 10 characters, so no document
    with any page text is refused for being too short. *)
Theorem strategy_succeeds_iff_text name open_pdf f pages :
  closed f = false →
  open_pdf (drop (pos f) (data f)) = Ok pages →
  extract_with name open_pdf f =
  Ok (if existsb extractable (take max_pages pages)
      then (true, join_pages pages, None)
      else (false, "", Some "No readable text found in PDF"),
      after_read f).
Proof.
  intros Hopen Hpages. unfold extract_with, after_read, read. rewrite Hopen.
  simpl. rewrite Hpages, AnalyzerProps.bind_Ok, Nat.ltb_antisym.
  change (min_text_length <=? String.length (strip (join_pages pages)))
    with (long_enough (join_pages pages)).
  rewrite long_enough_join_pages.
  by destruct (existsb extractable (take max_pages pages)).
Qed.

(** X10: [extract_text_from_bytes] returns the text of the first
    strategy, pdfplumber then PyPDF2, that finds a page with text among
    the first 50 pages, and raises its one exception when neither does. *)
Theorem extract_text_from_bytes_eq pdf_bytes :
  extract_text_from_bytes pdfplumber_open PdfReader pdf_bytes =
  match extracted pdfplumber_open PdfReader pdf_bytes with
  | Some text => Ok text
  | None => Raise extraction_failed
  end.
Proof.
  unfold extract_text_from_bytes, extracted. rewrite !bytes_attempt_eq.
  rewrite AnalyzerProps.bind_Ok.
  destruct (attempt pdfplumber_open pdf_bytes); [done |].
  rewrite AnalyzerProps.bind_Ok.
  by destruct (attempt PdfReader pdf_bytes).
Qed.

(** X11: on an upload whose stream is open, [extract_text] returns the
    text of the first strategy that finds a page with text, whatever
    the position of the stream was, and otherwise the one reason
    [only_images]: the messages of the libraries and of the strategies
    never reach the caller. *)
Theorem extract_text_eq f :
  closed f = false →
  extract_text pdfplumber_open PdfReader f =
  Ok match extracted pdfplumber_open PdfReader (data f) with
     | Some text => (true, text, None)
     | None => (false, "", Some only_images)
     end.
Proof.
  intros Hopen. unfold extract_text, extracted, seek0. rewrite Hopen.
  rewrite AnalyzerProps.bind_Ok.
  set (f0 := {| data := data f; pos := 0; closed := false |}).
  destruct (extract_with_open "pdfplumber" pdfplumber_open f0 eq_refl)
    as (r & Hr & Hcase).
  unfold _extract_with_pdfplumber, _extract_with_pypdf2.
  rewrite Hr, AnalyzerProps.bind_Ok. simpl in Hcase. rewrite drop_0 in Hcase.
  destruct (attempt pdfplumber_open (data f)) as [text|] eqn:Ha.
  - subst r. rewrite (attempt_long_enough _ _ _ Ha). done.
  - destruct Hcase as [msg ->]. cbn [andb]. unfold after_read, read. simpl.
    set (f2 := {| data := data f; pos := 0; closed := false |}).
    destruct (extract_with_open "PyPDF2" PdfReader f2 eq_refl)
      as (r' & Hr' & Hcase').
    rewrite Hr', AnalyzerProps.bind_Ok. simpl in Hcase'. rewrite drop_0 in Hcase'.
    destruct (attempt PdfReader (data f)) as [text|] eqn:Ha'.
    + subst r'. rewrite (attempt_long_enough _ _ _ Ha'). done.
    + destruct Hcase' as [msg' ->]. done.
Qed.

(** X12: the two entry points agree: on an open upload, [extract_text]
    succeeds with a text exactly when [extract_text_from_bytes] returns
    that text for the bytes of the upload. *)
Theorem entry_points_agree f text :
  closed f = false →
  extract_text pdfplumber_open PdfReader f = Ok (true, text, None) ↔
  extract_text_from_bytes pdfplumber_open PdfReader (data f) = Ok text.
Proof.
  intros Hopen. rewrite (extract_text_eq f Hopen), extract_text_from_bytes_eq.
  destruct (extracted pdfplumber_open PdfReader (data f)) as [t|].
  - split; by intros [= ->].
  - split; [by intros [=] | done].
Qed.

End Libraries.

(** X13: pages after the first 50 have no part in the text. *)
Theorem page_cap pages1 pages2 :
  take max_pages pages1 = take max_pages pages2 →
  join_pages pages1 = join_pages pages2.
Proof.
  intros H. unfold join_pages. by rewrite !extract_pages_eq, H.
Qed.

Lemma page_cap_witness :
  join_pages (replicate 50 (Ok (Some "Terms")) ++ [Ok (Some "Appendix")]) =
  join_pages (replicate 50 (Ok (Some "Terms")) ++ [Raise closed_file; Ok None]).
Proof. apply page_cap. reflexivity. Defined.

Lemma strategy_succeeds_iff_text_witness :
  extract_with "pdfplumber" (fun _ => Ok [Ok None; Ok (Some "x")]) (upload []) =
  Ok (if existsb extractable (take max_pages [Ok None; Ok (Some "x")])
      then (true, join_pages [Ok None; Ok (Some "x")], None)
      else (false, "", Some "No readable text found in PDF"),
      after_read (upload [])).
Proof.
  apply (strategy_succeeds_iff_text "pdfplumber"
           (fun _ => Ok [Ok None; Ok (Some "x")]) (upload [])); reflexivity.
Defined.

(** An upload that pdfplumber cannot open and PyPDF2 can, read once
    already. *)
Definition second_chance : file :=
  {| data := [Byte.x25; Byte.x50; Byte.x44; Byte.x46]; pos := 4; closed := false |}.

Lemma extract_text_eq_witness :
  extract_text not_a_pdf (fun _ => Ok two_pages) second_chance =
  Ok match extracted not_a_pdf (fun _ => Ok two_pages) (data second_chance) with
     | Some text => (true, text, None)
     | None => (false, "", Some only_images)
     end.
Proof. apply (extract_text_eq not_a_pdf (fun _ => Ok two_pages)). reflexivity. Defined.

Lemma entry_points_agree_witness :
  extract_text not_a_pdf (fun _ => Ok two_pages) second_chance
    = Ok (true, join_pages two_pages, None) ↔
  extract_text_from_bytes not_a_pdf (fun _ => Ok two_pages) (data second_chance)
    = Ok (join_pages two_pages).
Proof.
  apply (entry_points_agree not_a_pdf (fun _ => Ok two_pages)). reflexivity.
Defined.

End PdfMore.

(** ** Analyzer: the oracle call, the prompt and the decoded objects *)

Module AnalyzerMore.
Import Analyzer AnalyzerProps.

(** [str(filename)]-independent facts about strings. *)
Lemma length_str_take n s :
  String.length (str_take n s) = n `min` String.length s.
Proof.
  unfold str_take. revert s. induction n as [|n IH]; intros s.
  - by destruct s.
  - destruct s as [|c s]; [done |]. simpl. by rewrite IH.
Qed.

Section Oracle.

Variable json_loads : string -> result pyval.
Variable requests_post : string -> string -> result response.

(** The value [result['candidates'][0]['content']['parts'][0]['text']]. *)
Definition text_part (res : pyval) : result pyval :=
  candidate ← first_candidate res;
  content ← py_getitem candidate "content";
  parts ← py_getitem content "parts";
  part ← py_getitem0 parts;
  py_getitem part "text".

Definition error_text (v : pyval) : Prop :=
  ∃ msg, v = PStr ("Error: " +:+ msg).

(** Closes a goal whose call ended in an ["Error: ..."] text. *)
Local Ltac reported :=
  simpl; eexists; split; [reflexivity |]; left; eexists; reflexivity.

(** X14: [_call_gemini_api] never raises. What it returns is the text
    part of a response with status 200, or a string that starts with
    ["Error: "]: this is how a failed call, a status other than 200, a
    body that is not JSON and a payload of another shape come back. *)
Theorem call_gemini_api_cases a prompt :
  ∃ v, _call_gemini_api requests_post a prompt = Ok v ∧
       (error_text v ∨
        ∃ url response res,
          api_url a = Some url ∧
          requests_post (url +:+ "?key=" +:+ key_str a) prompt
            = Ok response ∧
          status_code response = 200%Z ∧
          response_json response = Ok res ∧
          text_part res = Ok v).
Proof.
  unfold _call_gemini_api, self_api_url, text_part.
  destruct (api_url a) as [url|] eqn:Hurl; [| reported].
  rewrite bind_Ok.
  destruct (requests_post _ prompt) as [response|e] eqn:Hpost;
    [| reported].
  rewrite bind_Ok.
  destruct (status_code response =? 200)%Z eqn:Hstatus; [| reported].
  apply Z.eqb_eq in Hstatus.
  destruct (response_json response) as [res|e] eqn:Hjson; [| reported].
  rewrite bind_Ok.
  destruct (py_contains "candidates" res) as [[|]|e]; simpl; try reported.
  destruct (py_getitem res "candidates") as [cands|e] eqn:Hc; simpl;
    try reported.
  destruct (py_len cands) as [n|e]; simpl; try reported.
  destruct (0 <? n)%nat; simpl; try reported.
  unfold first_candidate. rewrite Hc. simpl.
  destruct (py_getitem0 cands) as [cand|e] eqn:Hc0; simpl; try reported.
  destruct (py_contains "content" cand) as [[|]|e]; simpl; try reported.
  destruct (py_getitem cand "content") as [content|e] eqn:Hcontent; simpl;
    try reported.
  destruct (py_contains "parts" content) as [[|]|e]; simpl; try reported.
  destruct (py_getitem content "parts") as [parts|e] eqn:Hparts; simpl;
    try reported.
  destruct (py_getitem0 parts) as [part|e] eqn:Hpart; simpl; try reported.
  destruct (py_getitem part "text") as [v|e] eqn:Htext; simpl; try reported.
  eexists. split; [done |]. right. exists url, response, res.
  rewrite Hc. simpl. rewrite Hc0. simpl. rewrite Hcontent. simpl.
  rewrite Hparts. simpl. rewrite Hpart. simpl. by rewrite Htext.
Qed.

Lemma getitem_contains v k x :
  py_getitem v k = Ok x → py_contains k v = Ok true.
Proof.
  destruct v; try done. simpl. unfold dict_has.
  by destruct (dict_get k d).
Qed.

Lemma getitem0_len v x :
  py_getitem0 v = Ok x → ∃ n, py_len v = Ok (S n).
Proof.
  destruct v as [| | | |s|l|d]; try done.
  - destruct s; [done |]. simpl. eauto.
  - destruct l; [done |]. simpl. eauto.
Qed.

(** X15: on an analyzer that has its [api_url], a response with status
    200 whose payload has the shape
    [candidates[0].content.parts[0].text] gives that text part back,
    whatever else the payload holds. *)
Theorem call_gemini_api_text_part a prompt url response res v :
  api_url a = Some url →
  requests_post (url +:+ "?key=" +:+ key_str a) prompt = Ok response →
  status_code response = 200%Z →
  response_json response = Ok res →
  text_part res = Ok v →
  _call_gemini_api requests_post a prompt = Ok v.
Proof.
  intros Hurl Hpost Hstatus Hjson. unfold text_part, first_candidate.
  destruct (py_getitem res "candidates") as [cands|e] eqn:Hc; [| done].
  rewrite bind_Ok.
  destruct (py_getitem0 cands) as [cand|e] eqn:Hc0; [| done].
  rewrite bind_Ok.
  destruct (py_getitem cand "content") as [content|e] eqn:Hcontent; [| done].
  rewrite bind_Ok.
  destruct (py_getitem content "parts") as [parts|e] eqn:Hparts; [| done].
  rewrite bind_Ok.
  destruct (py_getitem0 parts) as [part|e] eqn:Hpart; [| done].
  rewrite bind_Ok. intros Htext.
  unfold _call_gemini_api, self_api_url.
  rewrite Hurl, bind_Ok, Hpost, bind_Ok, Hstatus. simpl.
  rewrite Hjson, bind_Ok.
  rewrite (getitem_contains _ _ _ Hc), bind_Ok, Hc, bind_Ok.
  destruct (getitem0_len _ _ Hc0) as [n ->]. rewrite bind_Ok. simpl.
  unfold first_candidate. rewrite Hc. simpl. rewrite Hc0. simpl.
  rewrite (getitem_contains _ _ _ Hcontent). simpl. rewrite Hcontent. simpl.
  rewrite (getitem_contains _ _ _ Hparts). simpl. rewrite Hparts. simpl.
  rewrite Hpart. simpl. by rewrite Htext.
Qed.

(** X16: with a key, only the first 8000 characters of the document
    reach the oracle: two texts that agree on them get the same
    analysis and, for the same question, the same answer. *)
Theorem oracle_sees_prefix a text1 text2 filename question :
  use_gemini_api a = true →
  str_take prompt_chars text1 = str_take prompt_chars text2 →
  analyze_document json_loads requests_post a text1 filename
    = analyze_document json_loads requests_post a text2 filename ∧
  answer_question json_loads requests_post a text1 question
    = answer_question json_loads requests_post a text2 question.
Proof.
  intros Hmode Htake. unfold analyze_document, answer_question.
  by rewrite Hmode, Htake.
Qed.

End Oracle.

(** X17: an analyzer built without a key, or with an empty one, never
    calls the oracle: its results are the same whatever the oracle
    would do. *)
Theorem offline_mode_never_calls json_loads post1 post2 key text filename question :
  key = None ∨ key = Some "" →
  analyze_document json_loads post1 (init key) text filename
    = analyze_document json_loads post2 (init key) text filename ∧
  answer_question json_loads post1 (init key) text question
    = answer_question json_loads post2 (init key) text question.
Proof. by intros [->| ->]. Qed.

(** X30: an analyzer built without a key, or with an empty one, has no
    [api_url]: [_call_gemini_api] on it does not post, and returns the
    text of the [AttributeError] whatever the oracle would do. *)
Theorem call_gemini_api_without_key post key prompt :
  key = None ∨ key = Some "" →
  api_url (init key) = None ∧
  _call_gemini_api post (init key) prompt
    = Ok (PStr "Error: 'AIAnalyzer' object has no attribute 'api_url'").
Proof. by intros [->| ->]. Qed.

Lemma call_gemini_api_without_key_witness :
  api_url (init None) = None ∧
  _call_gemini_api (gemini_reply (PStr "The rent is $1200.")) (init None) "prompt"
    = Ok (PStr "Error: 'AIAnalyzer' object has no attribute 'api_url'").
Proof.
  apply (call_gemini_api_without_key (gemini_reply (PStr "The rent is $1200."))
           None "prompt").
  left. reflexivity.
Defined.

Lemma call_gemini_api_text_part_witness :
  _call_gemini_api (gemini_reply (PStr "The rent is $1200.")) with_key "prompt"
    = Ok (PStr "The rent is $1200.").
Proof.
  apply (call_gemini_api_text_part (gemini_reply (PStr "The rent is $1200."))
           with_key "prompt" gemini_url
           {| status_code := 200;
              response_json := Ok (gemini_payload (PStr "The rent is $1200.")) |}
           (gemini_payload (PStr "The rent is $1200.")));
    reflexivity.
Defined.

(** Two documents longer than the limit that differ after it. *)
Definition long_text (last : string) : string :=
  fold_right String last (replicate prompt_chars "a"%char).

Lemma oracle_sees_prefix_witness :
  analyze_document JsonRef.json_loads timeout_post with_key
    (long_text "Rent: $1200") None
    = analyze_document JsonRef.json_loads timeout_post with_key
        (long_text "Rent: $9900") None ∧
  answer_question JsonRef.json_loads timeout_post with_key
    (long_text "Rent: $1200") "What is the rent?"
    = answer_question JsonRef.json_loads timeout_post with_key
        (long_text "Rent: $9900") "What is the rent?".
Proof.
  apply (oracle_sees_prefix JsonRef.json_loads timeout_post with_key
           (long_text "Rent: $1200") (long_text "Rent: $9900")).
  - reflexivity.
  - vm_compute. reflexivity.
Defined.

Lemma offline_mode_never_calls_witness :
  analyze_document JsonRef.json_loads timeout_post (init (Some ""))
    "Rent: $1200" None
    = analyze_document JsonRef.json_loads
        (gemini_reply (PStr "The rent is $1200.")) (init (Some ""))
        "Rent: $1200" None ∧
  answer_question JsonRef.json_loads timeout_post (init (Some ""))
    "Rent: $1200" "What is the rent?"
    = answer_question JsonRef.json_loads
        (gemini_reply (PStr "The rent is $1200.")) (init (Some ""))
        "Rent: $1200" "What is the rent?".
Proof.
  apply (offline_mode_never_calls JsonRef.json_loads timeout_post
           (gemini_reply (PStr "The rent is $1200.")) (Some "")).
  by right.
Defined.

(** The defaults a decoded object lacks, in the order they are set. *)
Definition lacking (defaults d : list (string * pyval)) : list (string * pyval) :=
  filter (fun kv => dict_has kv.1 d = false) defaults.

Definition analysis_defaults : list (string * pyval) :=
  [("summary", PList []); ("key_points", PList []); ("warnings", PList [])].

Definition answer_defaults (response_text : string) : list (string * pyval) :=
  [("answer", PStr response_text); ("source_section", PNone);
   ("confidence", PStr "medium")].

Lemma dict_has_app k d d' : dict_has k (d ++ d') = dict_has k d || dict_has k d'.
Proof. unfold dict_has. rewrite dict_get_app. by destruct (dict_get k d). Qed.

Lemma dict_has_app_fresh k k' v d :
  k ≠ k' → dict_has k' (d ++ [(k, v)]) = dict_has k' d.
Proof.
  intros Hne. rewrite dict_has_app. unfold dict_has at 2. simpl.
  apply String.eqb_neq in Hne. rewrite Hne. by destruct (dict_has k' d).
Qed.

Lemma lacking_app_fresh defaults d k v :
  k ∉ defaults.*1 → lacking defaults (d ++ [(k, v)]) = lacking defaults d.
Proof.
  unfold lacking. induction defaults as [|[k' v'] defaults IH]; [done |].
  intros Hk. rewrite fmap_cons in Hk. apply not_elem_of_cons in Hk as [Hne Hk].
  rewrite !filter_cons. cbn [fst]. rewrite dict_has_app_fresh by done.
  rewrite IH by done. done.
Qed.

(** Setting the defaults one after the other appends the lacking ones. *)
Lemma with_defaults_eq defaults d :
  NoDup defaults.*1 →
  foldl (fun d kv => with_default kv.1 kv.2 d) d defaults
  = (d ++ lacking defaults d)%list.
Proof.
  revert d. induction defaults as [|[k v] defaults IH]; intros d Hnd.
  - simpl. by rewrite app_nil_r.
  - apply NoDup_cons in Hnd as [Hk Hnd]. cbn [foldl fst snd].
    rewrite IH by done. unfold lacking at 2. rewrite filter_cons. simpl.
    unfold with_default. destruct (dict_has k d) eqn:Hd; case_decide; try done.
    rewrite lacking_app_fresh by done. by rewrite <- app_assoc.
Qed.

Local Ltac distinct_keys :=
  simpl; repeat (apply NoDup_cons; split;
                 [rewrite ?elem_of_cons, elem_of_nil; intros H;
                  repeat destruct H as [H|H]; done |]);
  apply NoDup_nil_2.

Lemma validated_eq d : validated d = (d ++ lacking analysis_defaults d)%list.
Proof. rewrite <- with_defaults_eq; [done | distinct_keys]. Qed.

Lemma answered_eq text d :
  answered text d = (d ++ lacking (answer_defaults text) d)%list.
Proof.
  rewrite <- with_defaults_eq; [done | distinct_keys].
Qed.

Section Decoded.

Variable json_loads : string -> result pyval.

(** X18: when the span decodes to an object, [_parse_analysis_response]
    returns that object with its entries in place, followed by an entry
    with the empty list for each of [summary], [key_points] and
    [warnings] that it lacks; an object that has all three is returned
    as it is. *)
Theorem parse_analysis_keeps_object text span d :
  Re.search_braces text = Some span →
  json_loads span = Ok (PDict d) →
  _parse_analysis_response json_loads (PStr text)
    = Ok (PDict (d ++ lacking analysis_defaults d)) ∧
  (Forall (fun k => dict_has k d = true) analysis_keys →
   _parse_analysis_response json_loads (PStr text) = Ok (PDict d)).
Proof.
  intros Hs Hd. rewrite (parse_analysis_decoded _ _ _ _ Hs Hd), validated_eq.
  split; [done |].
  intros Hall. unfold analysis_keys in Hall.
  apply Forall_cons in Hall as [H1 Hall].
  apply Forall_cons in Hall as [H2 Hall].
  apply Forall_cons in Hall as [H3 _].
  unfold lacking, analysis_defaults. rewrite !filter_cons, filter_nil.
  cbn [fst]. rewrite H1, H2, H3.
  repeat (case_decide; [done |]). by rewrite app_nil_r.
Qed.

(** X19: when the span decodes to an object, [_parse_qa_response]
    returns that object with its entries in place, followed by the
    defaults it lacks: the whole response text for [answer], [None] for
    [source_section], ["medium"] for [confidence]. *)
Theorem parse_qa_keeps_object text span d :
  Re.search_braces text = Some span →
  json_loads span = Ok (PDict d) →
  _parse_qa_response json_loads (PStr text)
    = Ok (PDict (d ++ lacking (answer_defaults text) d)).
Proof.
  intros Hs Hd. by rewrite (parse_qa_decoded _ _ _ _ Hs Hd), answered_eq.
Qed.

End Decoded.

Lemma parse_analysis_keeps_object_witness :
  _parse_analysis_response JsonRef.json_loads (PStr without_summary)
    = Ok (PDict ([("key_points", PList [PStr "Rent is due monthly"]);
                  ("warnings", PList [PStr "Late fee applies"])]
                 ++ lacking analysis_defaults
                      [("key_points", PList [PStr "Rent is due monthly"]);
                       ("warnings", PList [PStr "Late fee applies"])])) ∧
  (Forall (fun k => dict_has k
             [("key_points", PList [PStr "Rent is due monthly"]);
              ("warnings", PList [PStr "Late fee applies"])] = true)
     analysis_keys →
   _parse_analysis_response JsonRef.json_loads (PStr without_summary)
     = Ok (PDict [("key_points", PList [PStr "Rent is due monthly"]);
                  ("warnings", PList [PStr "Late fee applies"])])).
Proof.
  apply (parse_analysis_keeps_object JsonRef.json_loads without_summary
           without_summary); vm_compute; reflexivity.
Defined.

Lemma parse_qa_keeps_object_witness :
  _parse_qa_response JsonRef.json_loads (PStr certain_answer)
    = Ok (PDict ([("answer", PStr "The rent is $1200");
                  ("confidence", PStr "certain")]
                 ++ lacking (answer_defaults certain_answer)
                      [("answer", PStr "The rent is $1200");
                       ("confidence", PStr "certain")])).
Proof.
  apply (parse_qa_keeps_object JsonRef.json_loads certain_answer certain_answer);
    vm_compute; reflexivity.
Defined.

(** X20: the summary of the fallback analysis is the response text when
    that has at most 500 characters, and otherwise its first 500
    characters and three dots: it never has more than 503 characters. *)
Theorem fallback_summary_bounded response_text :
  ∃ summary rest,
    _fallback_parse_analysis response_text
      = PDict (("summary", PStr summary) :: rest) ∧
    (String.length summary ≤ 503)%nat ∧
    ((String.length response_text ≤ 500)%nat → summary = response_text) ∧
    ((500 < String.length response_text)%nat →
     summary = str_take 500 response_text +:+ "..." ∧
     String.length summary = 503).
Proof.
  unfold _fallback_parse_analysis. eexists _, _. split; [reflexivity |].
  destruct (Nat.ltb_spec 500 (String.length response_text)) as [Hlong|Hshort].
  - assert (Hlen : String.length (str_take 500 response_text +:+ "...") = 503).
    { rewrite PdfMore.length_append, length_str_take.
      change (String.length "...") with 3. lia. }
    split; [lia |]. split; [lia | done].
  - split; [lia |]. split; [done | lia].
Qed.

End AnalyzerMore.

(** ** utils/validators.py *)

Module Validators.

(** [str.lower] on code points below 256: the letters A to Z and the
    capital letters of Latin-1 move up by 32. *)
Definition lower_char (c : ascii) : ascii :=
  let n := nat_of_ascii c in
  if (((65 <=? n) && (n <=? 90))
      || ((192 <=? n) && (n <=? 222) && negb (n =? 215)))%nat
  then ascii_of_nat (n + 32) else c.

Fixpoint lower (s : string) : string :=
  match s with
  | EmptyString => EmptyString
  | String c s' => String (lower_char c) (lower s')
  end.

(** [s[n:]] and [s.endswith(suffix)] *)
Definition str_drop (n : nat) (s : string) : string :=
  String.substring n (String.length s - n) s.

Definition ends_with (suffix s : string) : bool :=
  (String.length suffix <=? String.length s)%nat
  && String.eqb (str_drop (String.length s - String.length suffix) s) suffix.

Definition suspicious_patterns : list string :=
  ["<script"; "javascript:"; "data:"; "vbscript:"].

(** [validate_question]; the loop over the patterns returns at the
    first one found. *)
Definition validate_question (question : string) (max_length : Z)
    : bool * option string :=
  if negb (str_truthy question) || negb (str_truthy (strip question))
  then (false, Some "Question cannot be empty")
  else
    let question := strip question in
    if (Z.of_nat (String.length question) >? max_length)%Z
    then (false, Some ("Question exceeds " +:+ pretty max_length
                         +:+ " character limit"))
    else
      let question_lower := lower question in
      if existsb (fun pattern => is_substring pattern question_lower)
           suspicious_patterns
      then (false, Some "Question contains invalid content")
      else (true, None).

(** [os.path.basename] of [posixpath]: what follows the last slash. *)
Fixpoint basename (p : string) : string :=
  match p with
  | EmptyString => EmptyString
  | String c p' =>
      if Ascii.eqb c "/" || ReProps.has_char "/" p' then basename p' else p
  end.

(** [s.rfind(c)], when it is not -1. *)
Fixpoint rfind (c : ascii) (s : string) : option nat :=
  match s with
  | EmptyString => None
  | String x s' =>
      match rfind c s' with
      | Some i => Some (S i)
      | None => if Ascii.eqb x c then Some 0 else None
      end
  end.

Fixpoint all_dots (s : string) : bool :=
  match s with
  | EmptyString => true
  | String c s' => Ascii.eqb c "." && all_dots s'
  end.

(** [os.path.splitext] of [posixpath]: the extension starts at the last
    dot of the last component, unless only dots come before it there. *)
Definition splitext (p : string) : string * string :=
  let filename_index :=
    match rfind "/" p with
    | Some sep_index => S sep_index
    | None => 0
    end in
  match rfind "." p with
  | Some dot_index =>
      if (filename_index <=? dot_index)%nat
         && negb (all_dots (String.substring filename_index
                              (dot_index - filename_index) p))
      then (str_take dot_index p, str_drop dot_index p)
      else (p, EmptyString)
  | None => (p, EmptyString)
  end.

(** [s.replace(c, r)] for single characters. *)
Fixpoint replace_char (c r : ascii) (s : string) : string :=
  match s with
  | EmptyString => EmptyString
  | String x s' =>
      String (if Ascii.eqb x c then r else x) (replace_char c r s')
  end.

(** The nine characters of [unsafe_chars]; the fourth is the double
    quotation mark. *)
Definition unsafe_chars : list ascii :=
  ["<"; ">"; ":"; ascii_of_nat 34; "/"; "\"; "|"; "?"; "*"]%char.

(** [sanitize_filename] *)
Definition sanitize_filename (filename : string) : string :=
  if negb (str_truthy filename) then "document.pdf"
  else
    let filename := basename filename in
    let filename :=
      foldl (fun name char => replace_char char "_" name) filename unsafe_chars in
    if (255 <? String.length filename)%nat
    then let '(name, ext) := splitext filename in str_take 250 name +:+ ext
    else filename.

(** An uploaded [FileStorage]: its filename and its stream. *)
Record upload := Upload { filename : option string; stream : Pdf.file }.

Definition with_stream (file : upload) (f : Pdf.file) : upload :=
  {| filename := filename file; stream := f |}.

(** [file.seek(0, os.SEEK_END)], [file.tell()] and [file.read(n)] *)
Definition seek_end (f : Pdf.file) : result Pdf.file :=
  if Pdf.closed f then Raise Pdf.closed_file
  else Ok {| Pdf.data := Pdf.data f; Pdf.pos := length (Pdf.data f);
             Pdf.closed := false |}.

Definition tell (f : Pdf.file) : result nat :=
  if Pdf.closed f then Raise Pdf.closed_file else Ok (Pdf.pos f).

Definition read_upto (n : nat) (f : Pdf.file)
    : result (list Byte.byte * Pdf.file) :=
  if Pdf.closed f then Raise Pdf.closed_file
  else Ok (take n (drop (Pdf.pos f) (Pdf.data f)),
           {| Pdf.data := Pdf.data f;
              Pdf.pos := (Pdf.pos f + n) `min` length (Pdf.data f);
              Pdf.closed := false |}).

Section Magic.

(** Whether [import magic] succeeded, and [magic.from_buffer(content,
    mime=True)]. *)
Variable HAS_MAGIC : bool.
Variable from_buffer : list Byte.byte -> result string.

(** The MIME check: any exception inside it is passed over. The result
    is the verdict, if the check gives one, and the stream as it is
    left. *)
Definition mime_check (f : Pdf.file) : option (bool * option string) * Pdf.file :=
  match read_upto 1024 f with
  | Raise _ => (None, f)
  | Ok (file_content, f1) =>
      match Pdf.seek0 f1 with
      | Raise _ => (None, f1)
      | Ok f2 =>
          match from_buffer file_content with
          | Raise _ => (None, f2)
          | Ok mime_type =>
              if negb (String.eqb mime_type "application/pdf")
              then (Some (false, Some "File is not a valid PDF"), f2)
              else (None, f2)
          end
      end
  end.

(** [validate_pdf_file] *)
Definition validate_pdf_file (file : upload) (max_size : Z)
    : result ((bool * option string) * upload) :=
  match filename file with
  | None => Ok ((false, Some "No file provided"), file)
  | Some name =>
      if negb (str_truthy name)
      then Ok ((false, Some "No file provided"), file)
      else if negb (ends_with ".pdf" (lower name))
      then Ok ((false, Some "Only PDF files are supported"), file)
      else
        f1 ← seek_end (stream file);
        file_size ← tell f1;
        f2 ← Pdf.seek0 f1;
        if (Z.of_nat file_size >? max_size)%Z
        then Ok ((false, Some ("File size exceeds "
                                 +:+ pretty (max_size `div` (1024 * 1024))%Z
                                 +:+ "MB limit")),
                 with_stream file f2)
        else if (file_size =? 0)%nat
        then Ok ((false, Some "File is empty"), with_stream file f2)
        else if HAS_MAGIC
        then match mime_check f2 with
             | (Some verdict, f3) => Ok (verdict, with_stream file f3)
             | (None, f3) => Ok ((true, None), with_stream file f3)
             end
        else Ok ((true, None), with_stream file f2)
  end.

End Magic.

End Validators.

Module ValidatorsProps.
Import Validators.
Local Open Scope nat_scope.

(** A string that is empty or starts with a character that is not a
    space. *)
Definition starts_clean (s : string) : Prop :=
  match s with
  | EmptyString => True
  | String c _ => is_space c = false
  end.

Lemma lstrip_starts_clean s : starts_clean (lstrip s).
Proof.
  induction s as [|c s IH]; simpl; [done |].
  destruct (is_space c) eqn:Hc; [done | by simpl].
Qed.

Lemma lstrip_clean s : starts_clean s → lstrip s = s.
Proof. destruct s as [|c s]; simpl; [done |]. by intros ->. Qed.

Lemma rstrip_starts_clean s : starts_clean s → starts_clean (rstrip s).
Proof.
  destruct s as [|c s]; simpl; [done |]. intros Hc.
  destruct (rstrip s); [rewrite Hc |]; by simpl.
Qed.

Lemma rstrip_idempotent s : rstrip (rstrip s) = rstrip s.
Proof.
  induction s as [|c s IH]; [done |]. cbn [rstrip].
  destruct (rstrip s) as [|x r] eqn:Hr.
  - destruct (is_space c) eqn:Hc; [done |]. simpl. by rewrite Hc.
  - cbn [rstrip]. cbn [rstrip] in IH.
    destruct (rstrip r) as [|y r'] eqn:Hr'.
    + destruct (is_space x) eqn:Hx; [done |]. by injection IH as <-.
    + by rewrite IH.
Qed.

Lemma strip_idempotent s : strip (strip s) = strip s.
Proof.
  unfold strip.
  rewrite (lstrip_clean (rstrip (lstrip s))).
  - apply rstrip_idempotent.
  - apply rstrip_starts_clean, lstrip_starts_clean.
Qed.

Lemma strip_empty s : str_truthy s = false → str_truthy (strip s) = false.
Proof. by destruct s. Qed.

(** X21: [validate_question] judges the stripped question: spaces
    around a question change nothing. A question is accepted exactly
    when, stripped, it is not empty, has at most [max_length]
    characters and, in lower case, contains none of the four patterns;
    a refusal always carries a reason. *)
Theorem validate_question_spec question max_length :
  validate_question (strip question) max_length
    = validate_question question max_length ∧
  (validate_question question max_length = (true, None) ↔
   strip question ≠ "" ∧
   (Z.of_nat (String.length (strip question)) ≤ max_length)%Z ∧
   Forall (fun pattern => is_substring pattern (lower (strip question)) = false)
     suspicious_patterns) ∧
  ((validate_question question max_length).1 = false →
   ∃ reason, (validate_question question max_length).2 = Some reason ∧
             reason ≠ "").
Proof.
  assert (Htruthy : ∀ s, str_truthy s = true ↔ s ≠ "") by (by intros []).
  unfold validate_question. cbv zeta. rewrite strip_idempotent.
  set (q := strip question).
  assert (Hfirst : negb (str_truthy question) || negb (str_truthy q)
                   = negb (str_truthy q)).
  { destruct (str_truthy question) eqn:Hq; [done |].
    unfold q. by rewrite (strip_empty _ Hq). }
  rewrite Hfirst, orb_diag. split; [done |].
  destruct (str_truthy q) eqn:Hq; cbn [negb].
  - apply Htruthy in Hq.
    destruct (Z.gtb_spec (Z.of_nat (String.length q)) max_length)
      as [Hlong|Hshort].
    { split; [split; [done | intros (_ & Hle & _); lia] |].
      intros _. eexists. split; [done |]. discriminate. }
    destruct (existsb (fun pattern => is_substring pattern (lower q))
                suspicious_patterns) eqn:Hex.
    + split; [| cbn [fst snd]; eauto].
      split; [done |]. intros (_ & _ & Hall).
      apply existsb_exists in Hex as (pattern & Hin & Hsub).
      rewrite Forall_forall in Hall.
      apply list_elem_of_In in Hin. by rewrite (Hall _ Hin) in Hsub.
    + split; [| done]. split; [| done]. intros _.
      split; [done |]. split; [done |].
      apply Forall_forall. intros pattern Hin%list_elem_of_In.
      destruct (is_substring pattern (lower q)) eqn:Hsub; [| done].
      assert (existsb (fun pattern => is_substring pattern (lower q))
                suspicious_patterns = true); [| congruence].
      apply existsb_exists. eauto.
  - split; [| cbn [fst snd]; eauto].
    split; [done |]. intros (Hne & _). apply Htruthy in Hne. congruence.
Qed.

(** No character of a string is changed into an unsafe one, and every
    unsafe one is changed. *)
Definition sanitize_char (x : ascii) : ascii :=
  foldl (fun y c => if Ascii.eqb y c then "_"%char else y) x unsafe_chars.

Fixpoint map_chars (f : ascii -> ascii) (s : string) : string :=
  match s with
  | EmptyString => EmptyString
  | String x s' => String (f x) (map_chars f s')
  end.

Lemma replace_all_map chars s :
  foldl (fun name char => replace_char char "_" name) s chars =
  map_chars (fun x => foldl (fun y c => if Ascii.eqb y c then "_"%char else y)
                        x chars) s.
Proof.
  revert s. induction chars as [|c chars IH]; intros s; cbn [foldl].
  - induction s as [|x s IHs]; simpl; [done | by rewrite <- IHs].
  - rewrite IH. induction s as [|x s IHs]; simpl; [done | by rewrite IHs].
Qed.

Lemma replace_unsafe s :
  foldl (fun name char => replace_char char "_" name) s unsafe_chars =
  map_chars sanitize_char s.
Proof. exact (replace_all_map unsafe_chars s). Qed.

Lemma sanitize_char_safe x :
  forallb (fun c => negb (Ascii.eqb (sanitize_char x) c)) unsafe_chars = true.
Proof. destruct x as [[] [] [] [] [] [] [] []]; reflexivity. Qed.

Definition safe (s : string) : Prop :=
  Forall (fun c => ReProps.has_char c s = false) unsafe_chars.

Lemma has_char_map_sanitize c s :
  c ∈ unsafe_chars → ReProps.has_char c (map_chars sanitize_char s) = false.
Proof.
  intros Hc. induction s as [|x s IH]; simpl; [done |]. rewrite IH.
  pose proof (sanitize_char_safe x) as Hx.
  rewrite forallb_forall in Hx. apply list_elem_of_In, Hx in Hc.
  by destruct (Ascii.eqb (sanitize_char x) c).
Qed.

Lemma has_char_substring c n m s :
  ReProps.has_char c s = false →
  ReProps.has_char c (String.substring n m s) = false.
Proof.
  revert n m. induction s as [|x s IH]; intros n m Hs.
  - by destruct n, m.
  - simpl in Hs. apply orb_false_iff in Hs as [Hx Hs].
    destruct n, m; simpl; try done.
    + rewrite Hx. by apply IH.
    + by apply IH.
    + by apply IH.
Qed.

Lemma has_char_append c a b :
  ReProps.has_char c (a +:+ b) = ReProps.has_char c a || ReProps.has_char c b.
Proof.
  induction a as [|x a IH]; [done |].
  rewrite PdfMore.append_cons. simpl. by rewrite IH, orb_assoc.
Qed.

(** X22: the name [sanitize_filename] returns has none of the nine
    unsafe characters, so no slash: it is one path component. The empty
    name becomes ["document.pdf"], and a name of at most 255 characters
    keeps the length of its last component. *)
Theorem sanitize_filename_safe filename :
  safe (sanitize_filename filename) ∧
  sanitize_filename "" = "document.pdf" ∧
  (filename ≠ "" → String.length (basename filename) ≤ 255 →
   String.length (sanitize_filename filename)
     = String.length (basename filename)).
Proof.
  assert (Hlen : ∀ s, String.length (map_chars sanitize_char s) = String.length s).
  { induction s as [|x s IH]; simpl; [done | by rewrite IH]. }
  assert (Hsafe : ∀ s, safe (map_chars sanitize_char s)).
  { intros s. apply Forall_forall. intros c Hc. by apply has_char_map_sanitize. }
  split; [| split; [done |]].
  - unfold sanitize_filename.
    destruct (str_truthy filename); cbn [negb].
    + rewrite replace_unsafe.
      set (name := map_chars sanitize_char (basename filename)).
      destruct (255 <? String.length name); [| apply Hsafe].
      specialize (Hsafe (basename filename)). fold name in Hsafe.
      unfold splitext.
      assert (Hparts : ∀ n, safe (str_take 250 (str_take n name) +:+ str_drop n name)).
      { intros n. eapply Forall_impl; [exact Hsafe |]. simpl. intros c Hc.
        rewrite has_char_append. unfold str_take, str_drop.
        apply orb_false_iff. split; by repeat apply has_char_substring. }
      assert (Hwhole : safe (str_take 250 name +:+ "")).
      { eapply Forall_impl; [exact Hsafe |]. simpl. intros c Hc.
        rewrite has_char_append. unfold str_take.
        apply orb_false_iff. split; [by apply has_char_substring | done]. }
      destruct (rfind "." name) as [dot_index|]; [| done].
      destruct (_ && _); [apply Hparts | done].
    + apply Forall_forall. intros c Hc.
      repeat (apply elem_of_cons in Hc as [->|Hc]; [reflexivity |]).
      by apply elem_of_nil in Hc.
  - intros Hne Hshort. unfold sanitize_filename.
    destruct filename as [|c f]; [done |]. cbn [str_truthy negb].
    rewrite replace_unsafe, Hlen.
    destruct (Nat.ltb_spec 255 (String.length (basename (String c f))));
      [lia | done].
Qed.

(** The stream of an accepted upload: rewound, with its bytes. *)
Definition rewound (f : Pdf.file) : Pdf.file :=
  {| Pdf.data := Pdf.data f; Pdf.pos := 0; Pdf.closed := false |}.

(** X23: an upload that [validate_pdf_file] accepts has a name that
    ends in [.pdf] in any letter case, and between 1 and [max_size]
    bytes; its stream is left open at position 0 with the same bytes, so
    that [extract_text] gives on it what it gives on the upload as it
    came. When the MIME check ran to its end, it found a PDF. *)
Theorem validate_pdf_file_accepts HAS_MAGIC from_buffer file max_size file'
    (pdfplumber_open PdfReader : list Byte.byte -> result (list Pdf.page)) :
  validate_pdf_file HAS_MAGIC from_buffer file max_size = Ok ((true, None), file') →
  (∃ name, filename file = Some name ∧ name ≠ "" ∧
           ends_with ".pdf" (lower name) = true) ∧
  0 < length (Pdf.data (stream file)) ∧
  (Z.of_nat (length (Pdf.data (stream file))) ≤ max_size)%Z ∧
  Pdf.closed (stream file) = false ∧
  file' = with_stream file (rewound (stream file)) ∧
  (HAS_MAGIC = true →
   ∀ mime, from_buffer (take 1024 (Pdf.data (stream file))) = Ok mime →
           mime = "application/pdf") ∧
  Pdf.extract_text pdfplumber_open PdfReader (stream file')
    = Pdf.extract_text pdfplumber_open PdfReader (stream file).
Proof.
  unfold validate_pdf_file.
  destruct (filename file) as [name|] eqn:Hname; [| done].
  destruct (str_truthy name) eqn:Htruthy; cbn [negb]; [| done].
  destruct (ends_with ".pdf" (lower name)) eqn:Hext; cbn [negb]; [| done].
  unfold seek_end, tell, Pdf.seek0.
  destruct (Pdf.closed (stream file)) eqn:Hclosed; [done |].
  rewrite AnalyzerProps.bind_Ok. cbn [Pdf.closed Pdf.pos Pdf.data].
  rewrite !AnalyzerProps.bind_Ok.
  destruct (Z.gtb_spec (Z.of_nat (length (Pdf.data (stream file)))) max_size)
    as [|Hsize]; [done |].
  destruct (Nat.eqb_spec (length (Pdf.data (stream file))) 0) as [|Hempty];
    [done |].
  assert (Hsame : ∀ f,
    f = with_stream file (rewound (stream file)) →
    Pdf.extract_text pdfplumber_open PdfReader (stream f)
      = Pdf.extract_text pdfplumber_open PdfReader (stream file)).
  { intros f ->. by rewrite !PdfMore.extract_text_eq. }
  assert (Hname' : ∃ name0, Some name = Some name0 ∧ name0 ≠ "" ∧
                            ends_with ".pdf" (lower name0) = true).
  { exists name. split; [done |]. split; [by destruct name | done]. }
  destruct HAS_MAGIC.
  - unfold mime_check, read_upto, Pdf.seek0.
    cbn [Pdf.closed Pdf.pos Pdf.data]. rewrite drop_0.
    destruct (from_buffer (take 1024 (Pdf.data (stream file))))
      as [mime|e] eqn:Hmime.
    + destruct (String.eqb_spec mime "application/pdf") as [->|Hne];
        cbn [negb]; [| done].
      intros [= <-]. repeat split; try done; try lia.
      * by intros _ mime [= <-].
      * by apply Hsame.
    + intros [= <-]. repeat split; try done; try lia. by apply Hsame.
  - intros [= <-]. repeat split; try done; try lia. by apply Hsame.
Qed.

Lemma mime_check_refuses from_buffer f verdict f' :
  mime_check from_buffer f = (Some verdict, f') → verdict.1 = false.
Proof.
  unfold mime_check.
  destruct (read_upto 1024 f) as [[content f1]|e]; [| done].
  destruct (Pdf.seek0 f1) as [f2|e]; [| done].
  destruct (from_buffer content) as [mime|e]; [| done].
  destruct (negb _); [| done]. by intros [= <- _].
Qed.

Lemma validate_pdf_file_accepted_none HAS_MAGIC from_buffer file max_size msg file' :
  validate_pdf_file HAS_MAGIC from_buffer file max_size = Ok ((true, msg), file') →
  msg = None.
Proof.
  unfold validate_pdf_file.
  destruct (filename file) as [name|]; [| done].
  destruct (str_truthy name); cbn [negb]; [| done].
  destruct (ends_with ".pdf" (lower name)); cbn [negb]; [| done].
  destruct (seek_end (stream file)) as [f1|e]; [| done].
  rewrite AnalyzerProps.bind_Ok.
  destruct (tell f1) as [file_size|e]; [| done].
  rewrite AnalyzerProps.bind_Ok.
  destruct (Pdf.seek0 f1) as [f2|e]; [| done].
  rewrite AnalyzerProps.bind_Ok.
  destruct (_ >? _)%Z; [done |].
  destruct (file_size =? 0); [done |].
  destruct HAS_MAGIC; [| by intros [= <- _]].
  destruct (mime_check from_buffer f2) as [[verdict|] f3] eqn:Hcheck.
  - apply mime_check_refuses in Hcheck. intros [= -> _]. done.
  - by intros [= <- _].
Qed.

Definition lease_upload : upload :=
  {| filename := Some "Lease.PDF";
     stream := {| Pdf.data := [Byte.x25; Byte.x50; Byte.x44; Byte.x46];
                  Pdf.pos := 2; Pdf.closed := false |} |}.

Definition sniff_pdf : list Byte.byte -> result string :=
  fun _ => Ok "application/pdf".

Lemma validate_pdf_file_accepts_witness :
  (∃ name, filename lease_upload = Some name ∧ name ≠ "" ∧
           ends_with ".pdf" (lower name) = true) ∧
  0 < length (Pdf.data (stream lease_upload)) ∧
  (Z.of_nat (length (Pdf.data (stream lease_upload))) ≤ 10485760)%Z ∧
  Pdf.closed (stream lease_upload) = false ∧
  with_stream lease_upload (rewound (stream lease_upload))
    = with_stream lease_upload (rewound (stream lease_upload)) ∧
  (true = true →
   ∀ mime, sniff_pdf (take 1024 (Pdf.data (stream lease_upload))) = Ok mime →
           mime = "application/pdf") ∧
  Pdf.extract_text PdfProps.not_a_pdf (fun _ => Ok PdfProps.two_pages)
    (stream (with_stream lease_upload (rewound (stream lease_upload))))
    = Pdf.extract_text PdfProps.not_a_pdf (fun _ => Ok PdfProps.two_pages)
        (stream lease_upload).
Proof.
  apply (validate_pdf_file_accepts true sniff_pdf lease_upload 10485760).
  reflexivity.
Defined.

End ValidatorsProps.

(** ** app.py: the two endpoints that call the services

    A response is the dictionary given to [jsonify] and the status. The
    decorators of the endpoints (rate limit, HTTPS) act before the
    bodies modelled here. *)

Module Routes.
Import Storage Validators.

Definition response : Type := pyval * Z.

Definition error_response (code : string) (message : pyval) (details : string)
    (status : Z) : response :=
  (PDict [("success", PBool false);
          ("error", PDict [("code", PStr code);
                           ("message", message);
                           ("details", PStr details)])],
   status).

(** An [AttributeError]; the endpoints catch it as any [Exception]. *)
Definition no_attribute (v : pyval) (name : string) : exn :=
  Exn AttributeError
    ("'" +:+ type_name v +:+ "' object has no attribute '" +:+ name +:+ "'").

(** [v.get(k, default)] and [v.strip()] *)
Definition py_get (v : pyval) (k : string) (default : pyval) : result pyval :=
  match v with
  | PDict d =>
      match dict_get k d with
      | Some x => Ok x
      | None => Ok default
      end
  | _ => Raise (no_attribute v "get")
  end.

Definition py_strip (v : pyval) : result string :=
  match v with
  | PStr s => Ok (strip s)
  | _ => Raise (no_attribute v "strip")
  end.

Definition message_of (error_message : option string) : pyval :=
  match error_message with
  | Some m => PStr m
  | None => PNone
  end.

(** What the question endpoint reads of the request: [request.is_json]
    and [request.get_json()]. *)
Record question_request := QuestionRequest {
  is_json : bool;
  get_json : result pyval
}.

Definition qa_error : response :=
  error_response "QA_ERROR" (PStr "Failed to answer question")
    "Please try again or contact support" 500.

Definition analysis_error : response :=
  error_response "ANALYSIS_ERROR" (PStr "Failed to analyze document")
    "Please try again or contact support" 500.

Definition not_found : response :=
  error_response "DOCUMENT_NOT_FOUND" (PStr "Document not found or expired")
    "Please upload the document again or check the document ID" 404.

Section Endpoints.

Variable json_loads : string -> result pyval.
Variable requests_post : string -> string -> result Analyzer.response.
Variable ai_analyzer : Analyzer.analyzer.

(** The truth value of a float, given by its literal, and
    [datetime.isoformat]. *)
Variable float_truthy : string -> bool.
Variable isoformat : Z -> string.

(** The PDF libraries, [magic] and [Config.MAX_FILE_SIZE]. *)
Variable pdfplumber_open : list Byte.byte -> result (list Pdf.page).
Variable PdfReader : list Byte.byte -> result (list Pdf.page).
Variable HAS_MAGIC : bool.
Variable from_buffer : list Byte.byte -> result string.
Variable MAX_FILE_SIZE : Z.

(** [bool(v)] *)
Definition py_truthy (v : pyval) : bool :=
  match v with
  | PNone => false
  | PBool b => b
  | PInt z => negb (z =? 0)%Z
  | PFloat repr => float_truthy repr
  | PStr s => str_truthy s
  | PList l => match l with [] => false | _ => true end
  | PDict d => match d with [] => false | _ => true end
  end.

(** The question endpoint up to the validation of the question: an
    early response, or the stripped question and document id. *)
Definition question_fields (req : question_request)
    : result (response + string * string) :=
  if negb (is_json req)
  then Ok (inl (error_response "INVALID_CONTENT_TYPE"
                  (PStr "Request must be JSON")
                  "Please send a JSON request with question and document_id"
                  400))
  else
    data ← get_json req;
    missing ←
      (if negb (py_truthy data) then Ok true
       else
         has_question ← py_contains "question" data;
         if negb (has_question : bool) then Ok true
         else
           has_id ← py_contains "document_id" data;
           Ok (negb (has_id : bool)));
    if (missing : bool)
    then Ok (inl (error_response "MISSING_FIELDS"
                    (PStr "Missing required fields")
                    "Please provide both question and document_id" 400))
    else
      q ← py_get data "question" (PStr "");
      question ← py_strip q;
      i ← py_get data "document_id" (PStr "");
      document_id ← py_strip i;
      let '(is_valid, error_message) := validate_question question 1000 in
      if negb is_valid
      then Ok (inl (error_response "INVALID_QUESTION"
                      (message_of error_message)
                      "Please provide a valid question about the document"
                      400))
      else Ok (inr (question, document_id)).

(** [response_data] of the question endpoint. *)
Definition question_response (answer_result : pyval)
    (document_id question : string) (now : Z) : result response :=
  answer ← py_get answer_result "answer" (PStr "Unable to provide answer");
  source_section ← py_get answer_result "source_section" PNone;
  confidence ← py_get answer_result "confidence" (PStr "medium");
  let response_data :=
    [("success", PBool true);
     ("answer", answer);
     ("source_section", source_section);
     ("confidence", confidence);
     ("document_id", PStr document_id);
     ("question", PStr question);
     ("answered_at", PStr (isoformat now +:+ "Z"))] in
  has_error ← py_contains "error" answer_result;
  Ok (PDict (if (has_error : bool)
             then dict_set "warning"
                    (PStr "Answer may be incomplete due to processing issues")
                    response_data
             else response_data),
      200%Z).

(** [answer_question] of app.py. [now] is the clock read of
    [get_document], [now'] the one of [answered_at]. Any exception ends
    in [qa_error]; the store is as the operations before it left it. *)
Definition answer_question (req : question_request) (now now' : Z)
    (s : storage) : response * storage :=
  match question_fields req with
  | Raise _ => (qa_error, s)
  | Ok (inl early) => (early, s)
  | Ok (inr (question, document_id)) =>
      let '(document, s') := get_document now document_id s in
      match document with
      | None => (not_found, s')
      | Some document =>
          if negb (str_truthy (text document))
          then (error_response "NO_DOCUMENT_TEXT"
                  (PStr "Document text not available")
                  "Please re-upload the document" 400, s')
          else
            match
              answer_result ←
                Analyzer.answer_question json_loads requests_post ai_analyzer
                  (text document) question;
              question_response answer_result document_id question now'
            with
            | Ok r => (r, s')
            | Raise _ => (qa_error, s')
            end
      end
  end.

(** [response_data] of the analysis endpoint. *)
Definition analysis_response (analysis_result : pyval)
    (document_id safe_filename extracted_text : string) (now : Z)
    : result response :=
  summary ← py_get analysis_result "summary" (PStr "Analysis completed");
  key_points ← py_get analysis_result "key_points" (PList []);
  warnings ← py_get analysis_result "warnings" (PList []);
  Ok (PDict [("success", PBool true);
             ("analysis",
              PDict [("summary", summary);
                     ("key_points", key_points);
                     ("warnings", warnings);
                     ("document_id", PStr document_id)]);
             ("document_info",
              PDict [("filename", PStr safe_filename);
                     ("text_length",
                      PInt (Z.of_nat (String.length extracted_text)));
                     ("processed_at", PStr (isoformat now +:+ "Z"))])],
      200%Z).

(** [analyze_document] of app.py. [files] is what reading
    [request.files] gives for the part named [file]: the part, [None]
    when the request has no such part, or an exception. Reading it
    parses the body, and raises [RequestEntityTooLarge] for a body
    longer than [MAX_CONTENT_LENGTH], which is [Config.MAX_FILE_SIZE];
    the handler of the endpoint catches it like any exception. [uuid],
    [now0] and [now1] are read by [store_document], [now2] by
    [update_analysis], [now3] for [processed_at]. *)
Definition analyze_document (files : result (option upload)) (uuid : string)
    (now0 now1 now2 now3 : Z) (s : storage) : response * storage :=
  match files with
  | Raise _ => (analysis_error, s)
  | Ok None =>
      (error_response "NO_FILE" (PStr "No file provided")
         "Please select a PDF file to upload" 400, s)
  | Ok (Some file) =>
      if bool_decide (filename file = Some "")
      then (error_response "EMPTY_FILENAME" (PStr "No file selected")
              "Please select a valid PDF file" 400, s)
      else
        match validate_pdf_file HAS_MAGIC from_buffer file MAX_FILE_SIZE with
        | Raise _ => (analysis_error, s)
        | Ok ((is_valid, error_message), file) =>
            if negb is_valid
            then (error_response "INVALID_FILE" (message_of error_message)
                    "Please upload a valid PDF document" 400, s)
            else
              let safe_filename :=
                sanitize_filename (default "" (filename file)) in
              match Pdf.extract_text pdfplumber_open PdfReader (stream file) with
              | Raise _ => (analysis_error, s)
              | Ok (success, extracted_text, pdf_error) =>
                  if negb success
                  then (error_response "PDF_EXTRACTION_ERROR"
                          (PStr "Failed to extract text from PDF")
                          (Pdf.or_default pdf_error "Unable to read PDF content")
                          400, s)
                  else
                    match store_document uuid now0 now1 extracted_text
                            (Some safe_filename) s with
                    | Raise _ => (analysis_error, s)
                    | Ok (document_id, s1) =>
                        match Analyzer.analyze_document json_loads requests_post
                                ai_analyzer extracted_text (Some safe_filename) with
                        | Raise _ => (analysis_error, s1)
                        | Ok analysis_result =>
                            let s2 :=
                              (update_analysis now2 document_id
                                 analysis_result s1).2 in
                            match analysis_response analysis_result document_id
                                    safe_filename extracted_text now3 with
                            | Ok r => (r, s2)
                            | Raise _ => (analysis_error, s2)
                            end
                        end
                    end
              end
        end
  end.

End Endpoints.

End Routes.

Module RoutesProps.
Import Storage Validators Routes.

Section Endpoints.

Variable json_loads : string -> result pyval.
Variable requests_post : string -> string -> result Analyzer.response.
Variable ai_analyzer : Analyzer.analyzer.
Variable float_truthy : string -> bool.
Variable isoformat : Z -> string.
Variable pdfplumber_open : list Byte.byte -> result (list Pdf.page).
Variable PdfReader : list Byte.byte -> result (list Pdf.page).
Variable HAS_MAGIC : bool.
Variable from_buffer : list Byte.byte -> result string.
Variable MAX_FILE_SIZE : Z.

Local Abbreviation answer_question :=
  (Routes.answer_question json_loads requests_post ai_analyzer float_truthy
     isoformat).
Local Abbreviation analyze_document :=
  (Routes.analyze_document json_loads requests_post ai_analyzer isoformat
     pdfplumber_open PdfReader HAS_MAGIC from_buffer MAX_FILE_SIZE).

Lemma py_strip_stripped v s : py_strip v = Ok s → strip s = s.
Proof.
  destruct v; try done. intros [= <-]. apply ValidatorsProps.strip_idempotent.
Qed.

(** X24: a question and a document id get past the checks of the
    question endpoint only stripped and with the question accepted by
    [validate_question] at 1000 characters; a request that does not get
    past them is answered with status 400 or 500 and the store is not
    touched. *)
Theorem question_gate req now now' s :
  (∀ question document_id,
     question_fields float_truthy req = Ok (inr (question, document_id)) →
     is_json req = true ∧
     validate_question question 1000 = (true, None) ∧
     strip question = question ∧ strip document_id = document_id) ∧
  ((∀ fields, question_fields float_truthy req ≠ Ok (inr fields)) →
   (answer_question req now now' s).2 = s ∧
   ((answer_question req now now' s).1.2 = 400%Z ∨
    (answer_question req now now' s).1.2 = 500%Z)).
Proof.
  split.
  - intros question document_id. unfold question_fields.
    destruct (is_json req); cbn [negb]; [| done].
    destruct (get_json req) as [data|e]; [| done]. rewrite AnalyzerProps.bind_Ok.
    match goal with
    | |- (?m ≫= _) = _ → _ => destruct m as [[|]|e]; [done | | done]
    end.
    rewrite AnalyzerProps.bind_Ok. cbv iota.
    destruct (py_get data "question" (PStr "")) as [q|e]; [| done].
    rewrite AnalyzerProps.bind_Ok.
    destruct (py_strip q) as [question'|e] eqn:Hq; [| done].
    rewrite AnalyzerProps.bind_Ok.
    destruct (py_get data "document_id" (PStr "")) as [i|e]; [| done].
    rewrite AnalyzerProps.bind_Ok.
    destruct (py_strip i) as [id'|e] eqn:Hi; [| done].
    rewrite AnalyzerProps.bind_Ok.
    destruct (validate_question question' 1000) as [[|] msg] eqn:Hvalid;
      cbn [negb]; [| done].
    intros [= <- <-].
    apply py_strip_stripped in Hq, Hi. split; [done |]. split; [| done].
    destruct msg as [m|]; [| done].
    exfalso. revert Hvalid. unfold validate_question.
    repeat match goal with
           | |- context [if ?c then _ else _] => destruct c
           end; done.
  - intros Hnot. unfold Routes.answer_question.
    destruct (question_fields float_truthy req) as [[early|fields]|e] eqn:Hf.
    + split; [done |]. revert Hf. unfold question_fields.
      destruct (is_json req); cbn [negb]; [| intros [= <-]; by left].
      destruct (get_json req) as [data|e]; [| done].
      rewrite AnalyzerProps.bind_Ok.
      match goal with
      | |- (?m ≫= _) = _ → _ =>
          destruct m as [[|]|e]; [intros [= <-]; by left | | done]
      end.
      rewrite AnalyzerProps.bind_Ok. cbv iota.
      destruct (py_get data "question" (PStr "")) as [q|e]; [| done].
      rewrite AnalyzerProps.bind_Ok.
      destruct (py_strip q) as [question'|e]; [| done].
      rewrite AnalyzerProps.bind_Ok.
      destruct (py_get data "document_id" (PStr "")) as [i|e]; [| done].
      rewrite AnalyzerProps.bind_Ok.
      destruct (py_strip i) as [id'|e]; [| done].
      rewrite AnalyzerProps.bind_Ok.
      destruct (validate_question question' 1000) as [[|] msg];
        cbn [negb]; [done |].
      intros [= <-]. by left.
    + by destruct (Hnot fields).
    + split; [done | by right].
Qed.

(** X25: a question about a document that is not stored, or whose
    expiry has passed, is answered with [not_found] whatever the oracle
    would say; afterwards the id has no entry, and the other entries are
    as before. *)
Theorem question_not_found req now now' s question document_id :
  question_fields float_truthy req = Ok (inr (question, document_id)) →
  (documents s !! document_id = None ∨
   ∃ d, documents s !! document_id = Some d ∧ (now > expires_at d)%Z) →
  (answer_question req now now' s).1 = not_found ∧
  documents (answer_question req now now' s).2 !! document_id = None ∧
  (∀ k, k ≠ document_id →
     documents (answer_question req now now' s).2 !! k = documents s !! k).
Proof.
  intros Hf Hgone. unfold Routes.answer_question. rewrite Hf.
  unfold get_document.
  destruct Hgone as [Hnone|(d & Hd & Hexp)].
  - rewrite Hnone. done.
  - rewrite Hd. rewrite decide_True by done. simpl.
    split; [done |]. split; [apply lookup_delete_eq |].
    intros k Hk. by apply lookup_delete_ne.
Qed.

(** X26: a question that passes the checks, about a stored document
    that has text and has not expired, is answered with status 200 from
    what the analyzer returns for the stored text and the stripped
    question: the answer, source and confidence of the result or their
    defaults, the id and question echoed, and a [warning] exactly when
    the result has an [error]. The store is not changed. *)
Theorem question_answered req now now' s question document_id d result :
  question_fields float_truthy req = Ok (inr (question, document_id)) →
  documents s !! document_id = Some d →
  (now ≤ expires_at d)%Z →
  text d ≠ "" →
  Analyzer.answer_question json_loads requests_post ai_analyzer (text d) question
    = Ok (PDict result) →
  answer_question req now now' s =
  ((PDict
      ([("success", PBool true);
        ("answer", default (PStr "Unable to provide answer")
                     (dict_get "answer" result));
        ("source_section", default PNone (dict_get "source_section" result));
        ("confidence", default (PStr "medium") (dict_get "confidence" result));
        ("document_id", PStr document_id);
        ("question", PStr question);
        ("answered_at", PStr (isoformat now' +:+ "Z"))]
       ++ if dict_has "error" result
          then [("warning",
                 PStr "Answer may be incomplete due to processing issues")]
          else []),
    200%Z), s).
Proof.
  intros Hf Hd Hnow Htext Hanswer. unfold Routes.answer_question.
  rewrite Hf. unfold get_document. rewrite Hd.
  rewrite decide_False by lia.
  destruct (text d) as [|c t] eqn:Ht; [done |]. cbn [str_truthy negb].
  rewrite Hanswer, AnalyzerProps.bind_Ok.
  unfold question_response, py_get. cbn [py_contains].
  destruct (dict_get "answer" result), (dict_get "source_section" result),
    (dict_get "confidence" result), (dict_has "error" result);
    reflexivity.
Qed.

(** X27: when the analysis endpoint answers with status 200, the upload
    was accepted by [validate_pdf_file], [extract_text] gave its text,
    and the store holds under the generated id that text, the sanitized
    filename and the analysis returned, provided the clock read by
    [update_analysis] has not passed the expiry; when it has, the entry
    is gone although the response reports success. No other entry is
    touched. *)
Theorem analyze_stores_document files uuid now0 now1 now2 now3 s body s' :
  analyze_document files uuid now0 now1 now2 now3 s = ((body, 200%Z), s') →
  ∃ file file' extracted_text analysis_result,
    files = Ok (Some file) ∧
    validate_pdf_file HAS_MAGIC from_buffer file MAX_FILE_SIZE
      = Ok ((true, None), file') ∧
    Pdf.extract_text pdfplumber_open PdfReader (stream file')
      = Ok (true, extracted_text, None) ∧
    Analyzer.analyze_document json_loads requests_post ai_analyzer extracted_text
      (Some (sanitize_filename (default "" (filename file'))))
      = Ok analysis_result ∧
    analysis_response isoformat analysis_result uuid
      (sanitize_filename (default "" (filename file'))) extracted_text now3
      = Ok (body, 200%Z) ∧
    documents s' !! uuid =
      (if decide (now2 > now0 + session_timeout s * 1000000)%Z then None
       else Some {| text := extracted_text;
                    Storage.filename :=
                      Some (sanitize_filename (default "" (filename file')));
                    created_at := now1;
                    expires_at := now0 + session_timeout s * 1000000;
                    analysis_result := Some analysis_result |}) ∧
    (∀ k, k ≠ uuid → documents s' !! k = documents s !! k).
Proof.
  unfold Routes.analyze_document, error_response, analysis_error.
  destruct files as [[file|]|e]; [| by intros [= ? ?] | by intros [= ? ?]].
  case_bool_decide; [by intros [= ? ?] |].
  destruct (validate_pdf_file _ _ _ _) as [[[is_valid msg] file']|e] eqn:Hvalid;
    [| by intros [= ? ?]].
  destruct is_valid; cbn [negb]; [| by intros [= ? ?]].
  assert (msg = None) as ->
    by exact (ValidatorsProps.validate_pdf_file_accepted_none _ _ _ _ _ _ Hvalid).
  destruct (Pdf.extract_text _ _ _) as [[[success text] perr]|e] eqn:Hextract;
    [| by intros [= ? ?]].
  destruct success; cbn [negb]; [| by intros [= ? ?]].
  destruct (PdfProps.extract_text_returns pdfplumber_open PdfReader (stream file'))
    as (r & Hr & [(_ & _ & Hnone)|(Hfalse & _)]);
    rewrite Hextract in Hr; injection Hr as <-; simpl in *; [subst perr | done].
  unfold store_document, timedelta_seconds, datetime_add. cbv zeta.
  destruct (decide _); simpl; [| by destruct (decide _); intros [= ? ?]].
  destruct (decide _); simpl; [| by intros [= ? ?]].
  destruct (Analyzer.analyze_document _ _ _ _ _) as [analysis|e] eqn:Hanalysis;
    [| by intros [= ? ?]].
  destruct (analysis_response _ _ _ _ _ _) as [[body' status]|e] eqn:Hresp;
    [| by intros [= ? ?]].
  intros [= <- -> <-].
  exists file, file', text, analysis.
  split; [done |].
  split; [done |]. split; [done |]. split; [done |]. split; [done |].
  unfold update_analysis. simpl. rewrite lookup_insert_eq. simpl.
  destruct (decide (now2 > now0 + session_timeout s * 1000000)%Z); simpl.
  - split; [apply lookup_delete_eq |].
    intros k Hk. by rewrite lookup_delete_ne, lookup_insert_ne.
  - split; [apply lookup_insert_eq |].
    intros k Hk. by rewrite !lookup_insert_ne.
Qed.

(** X28: when the analysis endpoint answers with status 400, nothing
    was stored: the store is as it was. *)
Theorem analyze_refused_untouched files uuid now0 now1 now2 now3 s :
  (analyze_document files uuid now0 now1 now2 now3 s).1.2 = 400%Z →
  (analyze_document files uuid now0 now1 now2 now3 s).2 = s.
Proof.
  unfold Routes.analyze_document.
  destruct files as [[file|]|e]; [| done | done].
  case_bool_decide; [done |].
  destruct (validate_pdf_file _ _ _ _) as [[[is_valid msg] file']|e]; [| done].
  destruct is_valid; cbn [negb]; [| done].
  destruct (Pdf.extract_text _ _ _) as [[[success text] perr]|e]; [| done].
  destruct success; cbn [negb]; [| done].
  destruct (store_document _ _ _ _ _ _) as [[document_id s1]|e]; [| done].
  destruct (Analyzer.analyze_document _ _ _ _ _) as [analysis|e]; [| done].
  unfold analysis_response.
  destruct (py_get analysis "summary" _); [| done].
  destruct (py_get analysis "key_points" _); [| done].
  destruct (py_get analysis "warnings" _); done.
Qed.

End Endpoints.

(** A concrete deployment: the reference decoder, an oracle that times
    out, both PDF libraries reading two pages, and a request about the
    document of [boundary_store]. *)
Definition clock_text : Z -> string := fun _ => "2024-05-01T12:00:00".

Definition demo_answer :=
  Routes.answer_question JsonRef.json_loads AnalyzerProps.timeout_post
    AnalyzerProps.with_key (fun _ => true) clock_text.

Definition demo_analyze :=
  Routes.analyze_document JsonRef.json_loads AnalyzerProps.timeout_post
    AnalyzerProps.with_key clock_text (fun _ => Ok PdfProps.two_pages)
    PdfProps.not_a_pdf true ValidatorsProps.sniff_pdf 10485760.

Definition rent_request : question_request :=
  {| is_json := true;
     get_json := Ok (PDict [("question", PStr "  What is the rent? ");
                            ("document_id", PStr "doc ")]) |}.

Lemma question_not_found_witness :
  (demo_answer rent_request 3600000001 3600000002 StorageProps.boundary_store).1
    = not_found ∧
  documents
    (demo_answer rent_request 3600000001 3600000002 StorageProps.boundary_store).2
    !! "doc" = None ∧
  (∀ k, k ≠ "doc" →
     documents
       (demo_answer rent_request 3600000001 3600000002
          StorageProps.boundary_store).2 !! k
     = documents StorageProps.boundary_store !! k).
Proof.
  unfold demo_answer.
  apply (question_not_found JsonRef.json_loads AnalyzerProps.timeout_post
           AnalyzerProps.with_key (fun _ => true) clock_text rent_request
           3600000001 3600000002 StorageProps.boundary_store
           "What is the rent?" "doc").
  - vm_compute. reflexivity.
  - right. exists StorageProps.boundary_doc. split; [reflexivity |].
    simpl. lia.
Defined.

Lemma question_answered_witness :
  demo_answer rent_request 10 11 StorageProps.boundary_store =
  ((PDict
      ([("success", PBool true);
        ("answer", default (PStr "Unable to provide answer")
                     (dict_get "answer"
                        [("answer", PStr "Error: Read timed out.");
                         ("source_section", PNone);
                         ("confidence", PStr "medium")]));
        ("source_section",
         default PNone
           (dict_get "source_section"
              [("answer", PStr "Error: Read timed out.");
               ("source_section", PNone);
               ("confidence", PStr "medium")]));
        ("confidence",
         default (PStr "medium")
           (dict_get "confidence"
              [("answer", PStr "Error: Read timed out.");
               ("source_section", PNone);
               ("confidence", PStr "medium")]));
        ("document_id", PStr "doc");
        ("question", PStr "What is the rent?");
        ("answered_at", PStr (clock_text 11 +:+ "Z"))]
       ++ if dict_has "error"
               [("answer", PStr "Error: Read timed out.");
                ("source_section", PNone);
                ("confidence", PStr "medium")]
          then [("warning",
                 PStr "Answer may be incomplete due to processing issues")]
          else []),
    200%Z), StorageProps.boundary_store).
Proof.
  unfold demo_answer.
  apply (question_answered JsonRef.json_loads AnalyzerProps.timeout_post
           AnalyzerProps.with_key (fun _ => true) clock_text rent_request
           10 11 StorageProps.boundary_store "What is the rent?" "doc"
           StorageProps.boundary_doc).
  - vm_compute. reflexivity.
  - reflexivity.
  - simpl. lia.
  - discriminate.
  - vm_compute. reflexivity.
Defined.

Lemma analyze_stores_document_witness :
  ∃ file file' extracted_text analysis_result,
    Ok (Some ValidatorsProps.lease_upload) = Ok (Some file) ∧
    validate_pdf_file true ValidatorsProps.sniff_pdf file 10485760
      = Ok ((true, None), file') ∧
    Pdf.extract_text (fun _ => Ok PdfProps.two_pages) PdfProps.not_a_pdf
      (stream file') = Ok (true, extracted_text, None) ∧
    Analyzer.analyze_document JsonRef.json_loads AnalyzerProps.timeout_post
      AnalyzerProps.with_key extracted_text
      (Some (sanitize_filename (default "" (filename file'))))
      = Ok analysis_result ∧
    analysis_response clock_text analysis_result "doc"
      (sanitize_filename (default "" (filename file'))) extracted_text 8
      = Ok ((demo_analyze (Ok (Some ValidatorsProps.lease_upload)) "doc" 5 6 7 8
               (init 3600)).1.1, 200%Z) ∧
    documents (demo_analyze (Ok (Some ValidatorsProps.lease_upload)) "doc" 5 6 7 8
                 (init 3600)).2 !! "doc" =
      (if decide (7 > 5 + session_timeout (init 3600) * 1000000)%Z then None
       else Some {| text := extracted_text;
                    Storage.filename :=
                      Some (sanitize_filename (default "" (filename file')));
                    created_at := 6;
                    expires_at := 5 + session_timeout (init 3600) * 1000000;
                    analysis_result := Some analysis_result |}) ∧
    (∀ k, k ≠ "doc" →
       documents (demo_analyze (Ok (Some ValidatorsProps.lease_upload)) "doc" 5 6 7 8
                    (init 3600)).2 !! k
       = documents (init 3600) !! k).
Proof.
  unfold demo_analyze.
  apply (analyze_stores_document JsonRef.json_loads AnalyzerProps.timeout_post
           AnalyzerProps.with_key clock_text (fun _ => Ok PdfProps.two_pages)
           PdfProps.not_a_pdf true ValidatorsProps.sniff_pdf 10485760
           (Ok (Some ValidatorsProps.lease_upload)) "doc" 5 6 7 8 (init 3600)).
  vm_compute. reflexivity.
Defined.

Lemma analyze_refused_untouched_witness :
  (demo_analyze (Ok None) "doc" 5 6 7 8 StorageProps.boundary_store).2
    = StorageProps.boundary_store.
Proof.
  unfold demo_analyze.
  apply (analyze_refused_untouched JsonRef.json_loads AnalyzerProps.timeout_post
           AnalyzerProps.with_key clock_text (fun _ => Ok PdfProps.two_pages)
           PdfProps.not_a_pdf true ValidatorsProps.sniff_pdf 10485760).
  reflexivity.
Defined.

(** A body longer than the limit never reaches the checks of the
    endpoint: reading the upload raises, the handler answers with status
    500, and nothing is stored. *)
Example oversized_body e uuid s :
  demo_analyze (Raise e) uuid 5 6 7 8 s = (analysis_error, s).
Proof. reflexivity. Qed.

End RoutesProps.
